(** * Order/payment state machine of the yanjiuyuan backend

    A shallow embedding of [server/lib/zpay.mjs] (signature codec and
    order-number generator), of the checkout routes (payment link, provider
    webhook), of the payment check of [POST /api/analyze], and of the
    [zpay_transactions] table they share, followed by the properties the
    specification states about them.

    Strings are byte strings: a JavaScript string is represented by its
    UTF-8 encoding, which is what [crypto] hashes.  The comparison [a < b]
    of the signature codec compares the UTF-16 code units of the two
    strings, which [utf16] reads off these bytes.  Strings with an
    unpaired surrogate have no UTF-8 encoding and are not represented;
    the query strings and bodies the routes receive do not contain
    any. *)

From Stdlib Require Import ZArith QArith Qround Qabs Ascii String DecimalString.
From Stdlib Require Import ZifyBool.
From stdpp Require Import gmap strings list sorting fin_maps.

Local Open Scope Z_scope.

(* ===================================================================== *)
(** * JavaScript values that occur in the parameter objects *)
(* ===================================================================== *)

(** A query or body field holds a string, or [null], or [undefined]. *)
Inductive jsval : Type :=
| JStr (s : string)
| JNull
| JUndefined.

Global Instance jsval_eq_dec : EqDecision jsval.
Proof. solve_decision. Defined.

(** [!v] is false exactly on the non-empty strings. *)
Definition truthy (v : jsval) : bool :=
  match v with
  | JStr s => negb (String.eqb s "")
  | JNull | JUndefined => false
  end.

(** [`${v}`] *)
Definition js_to_string (v : jsval) : string :=
  match v with
  | JStr s => s
  | JNull => "null"
  | JUndefined => "undefined"
  end.

(** [v === s] for a string [s]. *)
Definition strict_eq_str (v : jsval) (s : string) : bool :=
  match v with
  | JStr t => String.eqb t s
  | JNull | JUndefined => false
  end.

(** A parameter object: [req.query], or the literal built for signing. *)
Abbreviation params := (gmap string jsval).

(** [obj.k]: a missing property reads as [undefined]. *)
Definition prop (obj : params) (k : string) : jsval :=
  default JUndefined (obj !! k).

(* ===================================================================== *)
(** * MD5, as [crypto.createHash("md5").update(s).digest("hex")] *)
(* ===================================================================== *)

Module MD5.

Definition mask32 : Z := 4294967295.

Definition w32 (x : Z) : Z := Z.land x mask32.

Definition add32 (x y : Z) : Z := w32 (x + y).

Definition not32 (x : Z) : Z := Z.lxor x mask32.

Definition rotl32 (x c : Z) : Z :=
  w32 (Z.lor (Z.shiftl x c) (Z.shiftr x (32 - c))).

Definition shifts : list Z :=
  [7; 12; 17; 22; 7; 12; 17; 22; 7; 12; 17; 22; 7; 12; 17; 22;
   5; 9; 14; 20; 5; 9; 14; 20; 5; 9; 14; 20; 5; 9; 14; 20;
   4; 11; 16; 23; 4; 11; 16; 23; 4; 11; 16; 23; 4; 11; 16; 23;
   6; 10; 15; 21; 6; 10; 15; 21; 6; 10; 15; 21; 6; 10; 15; 21].

Definition sines : list Z :=
  [0xd76aa478; 0xe8c7b756; 0x242070db; 0xc1bdceee;
   0xf57c0faf; 0x4787c62a; 0xa8304613; 0xfd469501;
   0x698098d8; 0x8b44f7af; 0xffff5bb1; 0x895cd7be;
   0x6b901122; 0xfd987193; 0xa679438e; 0x49b40821;
   0xf61e2562; 0xc040b340; 0x265e5a51; 0xe9b6c7aa;
   0xd62f105d; 0x02441453; 0xd8a1e681; 0xe7d3fbc8;
   0x21e1cde6; 0xc33707d6; 0xf4d50d87; 0x455a14ed;
   0xa9e3e905; 0xfcefa3f8; 0x676f02d9; 0x8d2a4c8a;
   0xfffa3942; 0x8771f681; 0x6d9d6122; 0xfde5380c;
   0xa4beea44; 0x4bdecfa9; 0xf6bb4b60; 0xbebfbc70;
   0x289b7ec6; 0xeaa127fa; 0xd4ef3085; 0x04881d05;
   0xd9d4d039; 0xe6db99e5; 0x1fa27cf8; 0xc4ac5665;
   0xf4292244; 0x432aff97; 0xab9423a7; 0xfc93a039;
   0x655b59c3; 0x8f0ccc92; 0xffeff47d; 0x85845dd1;
   0x6fa87e4f; 0xfe2ce6e0; 0xa3014314; 0x4e0811a1;
   0xf7537e82; 0xbd3af235; 0x2ad7d2bb; 0xeb86d391].

Definition bytes_of_string (s : string) : list Z :=
  (fun c => Z.of_N (N_of_ascii c)) <$> list_ascii_of_string s.

(** Little-endian bytes of the low [n] bytes of [x]. *)
Fixpoint le_bytes (n : nat) (x : Z) : list Z :=
  match n with
  | O => []
  | S n' => Z.land x 255 :: le_bytes n' (Z.shiftr x 8)
  end.

Fixpoint le_word (bs : list Z) : Z :=
  match bs with
  | [] => 0
  | b :: bs' => b + 256 * le_word bs'
  end.

(** The message followed by 0x80, zeros up to 56 modulo 64, and the bit
    length on eight bytes. *)
Definition pad (msg : list Z) : list Z :=
  let len := Z.of_nat (length msg) in
  let zeros := Z.to_nat ((55 - len) mod 64) in
  msg ++ 128 :: replicate zeros 0 ++ le_bytes 8 (8 * len).

Fixpoint words (n : nat) (bs : list Z) : list Z :=
  match n with
  | O => []
  | S n' => le_word (take 4 bs) :: words n' (drop 4 bs)
  end.

Fixpoint blocks (n : nat) (bs : list Z) : list (list Z) :=
  match n with
  | O => []
  | S n' => words 16 (take 64 bs) :: blocks n' (drop 64 bs)
  end.

Definition state : Type := Z * Z * Z * Z.

Definition step (M : list Z) (st : state) (i : Z) : state :=
  let '(a, b, c, d) := st in
  let '(f, g) :=
    if i <? 16 then (Z.lor (Z.land b c) (Z.land (not32 b) d), i)
    else if i <? 32 then
      (Z.lor (Z.land d b) (Z.land (not32 d) c), (5 * i + 1) mod 16)
    else if i <? 48 then (Z.lxor b (Z.lxor c d), (3 * i + 5) mod 16)
    else (Z.lxor c (Z.lor b (not32 d)), (7 * i) mod 16) in
  let k := default 0 (sines !! Z.to_nat i) in
  let s := default 0 (shifts !! Z.to_nat i) in
  let m := default 0 (M !! Z.to_nat g) in
  let f' := add32 (add32 (add32 f a) k) m in
  (d, add32 b (rotl32 f' s), b, c).

Definition compress (st : state) (M : list Z) : state :=
  let '(a0, b0, c0, d0) := st in
  let '(a, b, c, d) := foldl (step M) st (seqZ 0 64) in
  (add32 a0 a, add32 b0 b, add32 c0 c, add32 d0 d).

Definition init : state :=
  (0x67452301, 0xefcdab89, 0x98badcfe, 0x10325476).

Definition digest (msg : list Z) : state :=
  let p := pad msg in
  foldl compress init (blocks (length p / 64)%nat p).

Definition hex_digit (n : Z) : ascii :=
  ascii_of_N (Z.to_N (if n <? 10 then 48 + n else 87 + n)).

Definition hex_byte (b : Z) (rest : string) : string :=
  String (hex_digit (Z.shiftr b 4 mod 16))
    (String (hex_digit (b mod 16)) rest).

Definition hex_word (x : Z) (rest : string) : string :=
  hex_byte (Z.land x 255)
    (hex_byte (Z.land (Z.shiftr x 8) 255)
       (hex_byte (Z.land (Z.shiftr x 16) 255)
          (hex_byte (Z.land (Z.shiftr x 24) 255) rest))).

Definition hex_state (st : state) : string :=
  let '(a, b, c, d) := st in
  hex_word a (hex_word b (hex_word c (hex_word d ""))).

Definition md5_hex (s : string) : string :=
  hex_state (digest (bytes_of_string s)).

End MD5.

Definition md5_hex : string -> string := MD5.md5_hex.

(* ===================================================================== *)
(** * Numbers: [parseFloat] and the comparison of amounts *)
(* ===================================================================== *)

(** A JavaScript number: a double, given by its exact value. *)
Inductive number : Type :=
| NaN
| Infinity (negative : bool)
| Finite (q : Q).

(** Quotient of [n] by [d] rounded to nearest, ties to even. *)
Definition div_half_even (n d : Z) : Z :=
  let q := n / d in
  let r := n mod d in
  if 2 * r <? d then q
  else if d <? 2 * r then q + 1
  else if Z.even q then q else q + 1.

(** The double nearest to [n / d], for positive [n] and [d]: the exponent
    [ex] of the binade of [n / d], the exponent [e] of its last place
    (subnormals share that of the smallest binade), the mantissa rounded at
    that place; the value is kept in lowest terms. *)
Definition round_binary64_pos (n d : Z) : number :=
  let e0 := Z.log2 n - Z.log2 d in
  let above :=
    if 0 <=? e0 then d * 2 ^ e0 <=? n else d <=? n * 2 ^ (- e0) in
  let ex := if above then e0 else e0 - 1 in
  let e := Z.max ex (-1022) - 52 in
  if 0 <=? e then
    let v := div_half_even n (d * 2 ^ e) * 2 ^ e in
    if 2 ^ 1024 <=? v then Infinity false else Finite (v # 1)
  else
    Finite (Qred (div_half_even (n * 2 ^ (- e)) d # Z.to_pos (2 ^ (- e)))).

Definition number_opp (x : number) : number :=
  match x with
  | NaN => NaN
  | Infinity s => Infinity (negb s)
  | Finite q => Finite (- q)
  end.

(** The double nearest to the rational [n / d]. *)
Definition round_binary64 (n : Z) (d : positive) : number :=
  match n with
  | 0 => Finite 0
  | Z.pos _ => round_binary64_pos n (Z.pos d)
  | Z.neg _ => number_opp (round_binary64_pos (- n) (Z.pos d))
  end.

(** [x !== y] on numbers. *)
Definition number_neq (x y : number) : bool :=
  match x, y with
  | Finite a, Finite b => negb (Qeq_bool a b)
  | Infinity s, Infinity t => negb (Bool.eqb s t)
  | _, _ => true
  end.

(** [x * y] on finite doubles given by their values. *)
Definition number_mul (x y : Q) : number :=
  round_binary64 (Qnum (x * y)) (Qden (x * y)).

Definition code (c : ascii) : Z := Z.of_N (N_of_ascii c).

Definition is_digit (c : ascii) : bool := (48 <=? code c) && (code c <=? 57).

(** Leading white space and line terminators, on the UTF-8 bytes:
    U+0009..U+000D, U+0020, U+00A0, U+1680, U+2000..U+200A, U+2028,
    U+2029, U+202F, U+205F, U+3000, U+FEFF. *)
Fixpoint trim_start (s : list ascii) : list ascii :=
  match s with
  | c :: r =>
      if (9 <=? code c) && (code c <=? 13) || (code c =? 32) then trim_start r
      else
        match r with
        | c1 :: r1 =>
            if (code c =? 194) && (code c1 =? 160) then trim_start r1
            else
              match r1 with
              | c2 :: r2 =>
                  if (code c =? 225) && (code c1 =? 154) && (code c2 =? 128)
                     || (code c =? 226) && (code c1 =? 128)
                        && ((128 <=? code c2) && (code c2 <=? 138)
                            || (code c2 =? 168) || (code c2 =? 169)
                            || (code c2 =? 175))
                     || (code c =? 226) && (code c1 =? 129) && (code c2 =? 159)
                     || (code c =? 227) && (code c1 =? 128) && (code c2 =? 128)
                     || (code c =? 239) && (code c1 =? 187) && (code c2 =? 191)
                  then trim_start r2
                  else s
              | [] => s
              end
        | [] => s
        end
  | [] => []
  end.

Fixpoint span_digits (s : list ascii) : list ascii * list ascii :=
  match s with
  | c :: r =>
      if is_digit c then let '(ds, rest) := span_digits r in (c :: ds, rest)
      else ([], s)
  | [] => ([], [])
  end.

Definition digits_value (ds : list ascii) : Z :=
  foldl (fun acc c => 10 * acc + (code c - 48)) 0 ds.

(** The exponent part, when one follows: [e] or [E], an optional sign and
    at least one digit. *)
Definition exponent_part (s : list ascii) : Z :=
  match s with
  | c :: r =>
      if (code c =? 101) || (code c =? 69) then
        let '(sgn, r') :=
          match r with
          | c' :: r'' =>
              if code c' =? 43 then (1, r'')
              else if code c' =? 45 then (-1, r'')
              else (1, r)
          | [] => (1, r)
          end in
        match span_digits r' with
        | ([], _) => 0
        | (ds, _) => sgn * digits_value ds
        end
      else 0
  | [] => 0
  end.

(** The longest prefix that is an unsigned decimal literal, as mantissa and
    power of ten; [None] when there is none. *)
Definition decimal_prefix (s : list ascii) : option (Z * Z) :=
  let '(ip, r1) := span_digits s in
  let '(fp, r2) :=
    match r1 with
    | c :: r => if code c =? 46 then span_digits r else ([], r1)
    | [] => ([], r1)
    end in
  match ip, fp with
  | [], [] => None
  | _, _ =>
      Some (digits_value (ip ++ fp), exponent_part r2 - Z.of_nat (length fp))
  end.

Definition starts_with (pre s : list ascii) : bool :=
  bool_decide (take (length pre) s = pre).

Definition unsigned_literal (s : list ascii) : number :=
  if starts_with (list_ascii_of_string "Infinity") s then Infinity false
  else
    match decimal_prefix s with
    | None => NaN
    | Some (m, x) =>
        if 0 <=? x then round_binary64 (m * 10 ^ x) 1
        else round_binary64 m (Z.to_pos (10 ^ (- x)))
    end.

(** [parseFloat(s)] for a string [s]. *)
Definition parseFloat_string (s : string) : number :=
  match trim_start (list_ascii_of_string s) with
  | c :: r =>
      if code c =? 43 then unsigned_literal r
      else if code c =? 45 then number_opp (unsigned_literal r)
      else unsigned_literal (c :: r)
  | [] => NaN
  end.

(** [parseFloat(v)]: the argument is first converted to a string. *)
Definition parseFloat (v : jsval) : number :=
  parseFloat_string (js_to_string v).

(* ===================================================================== *)
(** * server/lib/zpay.mjs *)
(* ===================================================================== *)

(** The predicate of [filter] in [buildSignString]. *)
Definition keep (e : string * jsval) : bool :=
  let '(k, v) := e in
  negb (bool_decide (v = JStr ""))
  && negb (bool_decide (v = JNull))
  && negb (bool_decide (v = JUndefined))
  && negb (String.eqb k "sign")
  && negb (String.eqb k "sign_type").

(** ** Strings as JavaScript compares them

    [a < b] on two strings compares their UTF-16 code units from left to
    right; a string that is a proper prefix of another is smaller.  A
    string of the model holds the UTF-8 bytes; [utf16] gives the code
    units of the string these bytes encode: one unit for a code point
    below U+10000, the two surrogates for one above. *)

(** A continuation byte of UTF-8, [10xxxxxx]. *)
Definition continuation (c : ascii) : bool :=
  (128 <=? code c) && (code c <=? 191).

(** The code point that two, three and four bytes carry. *)
Definition code_point2 (c0 c1 : ascii) : Z :=
  (code c0 - 192) * 64 + (code c1 - 128).

Definition code_point3 (c0 c1 c2 : ascii) : Z :=
  (code c0 - 224) * 4096 + (code c1 - 128) * 64 + (code c2 - 128).

Definition code_point4 (c0 c1 c2 c3 : ascii) : Z :=
  (code c0 - 240) * 262144 + (code c1 - 128) * 4096 + (code c2 - 128) * 64
  + (code c3 - 128).

(** Whether the bytes are the UTF-8 encoding of a code point: a lead byte
    [110xxxxx], [1110xxxx] or [11110xxx], continuation bytes after it, the
    shortest sequence for the code point, no surrogate and nothing above
    U+10FFFF. *)
Definition encodes2 (c0 c1 : ascii) : bool :=
  (194 <=? code c0) && (code c0 <=? 223) && continuation c1.

Definition encodes3 (c0 c1 c2 : ascii) : bool :=
  (224 <=? code c0) && (code c0 <=? 239) && continuation c1 && continuation c2
  && (2048 <=? code_point3 c0 c1 c2)
  && negb ((55296 <=? code_point3 c0 c1 c2) && (code_point3 c0 c1 c2 <=? 57343)).

Definition encodes4 (c0 c1 c2 c3 : ascii) : bool :=
  (240 <=? code c0) && (code c0 <=? 244)
  && continuation c1 && continuation c2 && continuation c3
  && (65536 <=? code_point4 c0 c1 c2 c3)
  && (code_point4 c0 c1 c2 c3 <=? 1114111).

(** The high and the low surrogate of a code point above U+FFFF. *)
Definition surrogates (cp : Z) : list Z :=
  [55296 + (cp - 65536) / 1024; 56320 + (cp - 65536) mod 1024].

(** The UTF-16 code units of the string with the UTF-8 bytes [s].  A byte
    that starts no encoding, which the bytes of a JavaScript string never
    have, is kept apart as the unit [0xDC00 + byte], so that different
    byte strings always have different code units. *)
Fixpoint utf16 (s : string) : list Z :=
  match s with
  | EmptyString => []
  | String c0 r0 =>
      if code c0 <? 128 then code c0 :: utf16 r0
      else
        match r0 with
        | String c1 r1 =>
            if encodes2 c0 c1 then code_point2 c0 c1 :: utf16 r1
            else
              match r1 with
              | String c2 r2 =>
                  if encodes3 c0 c1 c2
                  then code_point3 c0 c1 c2 :: utf16 r2
                  else
                    match r2 with
                    | String c3 r3 =>
                        if encodes4 c0 c1 c2 c3
                        then surrogates (code_point4 c0 c1 c2 c3) ++ utf16 r3
                        else (56320 + code c0) :: utf16 r0
                    | EmptyString => (56320 + code c0) :: utf16 r0
                    end
              | EmptyString => (56320 + code c0) :: utf16 r0
              end
        | EmptyString => (56320 + code c0) :: utf16 r0
        end
  end.

(** Sequences of code units, compared from left to right. *)
Fixpoint units_compare (u v : list Z) : comparison :=
  match u, v with
  | [], [] => Eq
  | [], _ :: _ => Lt
  | _ :: _, [] => Gt
  | x :: u', y :: v' =>
      match x ?= y with
      | Eq => units_compare u' v'
      | c => c
      end
  end.

Definition js_compare (a b : string) : comparison :=
  units_compare (utf16 a) (utf16 b).

(** [a < b] on strings. *)
Definition js_lt (a b : string) : bool :=
  match js_compare a b with Lt => true | _ => false end.

(** ** The signature codec *)

(** The comparator of [sort]: [(a < b ? -1 : a > b ? 1 : 0)]. *)
Definition key_compare (a b : string) : Z :=
  if js_lt a b then -1 else if js_lt b a then 1 else 0.

(** [sort] places [x] before [y] when the comparator is not positive. *)
Definition entry_le (x y : string * jsval) : Prop :=
  key_compare x.1 y.1 <= 0.

Global Instance entry_le_dec : RelDecision entry_le.
Proof. intros x y. unfold entry_le. apply _. Defined.

(** [`${k}=${v}`] *)
Definition render (e : string * jsval) : string :=
  e.1 +:+ "=" +:+ js_to_string e.2.

(** The entries that are signed, in signing order.  [Object.entries] lists
    the own properties of the object; its order is irrelevant after [sort]
    because the keys of an object are pairwise distinct. *)
Definition sign_entries (p : params) : list (string * jsval) :=
  merge_sort entry_le (filter (fun e => keep e = true) (map_to_list p)).

Definition buildSignString (p : params) : string :=
  String.concat "&" (render <$> sign_entries p).

Definition generateSign (p : params) (key : string) : string :=
  md5_hex (buildSignString p +:+ key).

Definition verifySign (p : params) (key : string) : bool :=
  if negb (truthy (prop p "sign")) then false
  else
    let expected := generateSign p key in
    strict_eq_str (prop p "sign") expected.

(** The body of [verifySign] with the call that recomputes the signature
    left abstract, to state which results do not depend on it. *)
Definition verifySign_with (recompute : params -> string -> string)
    (p : params) (key : string) : bool :=
  if negb (truthy (prop p "sign")) then false
  else strict_eq_str (prop p "sign") (recompute p key).

(** What [new Date()] offers to [generateOrderNo]: the local-time fields.
    [getMonth] counts from 0. *)
Record Date : Type := mkDate {
  getFullYear : Z;
  getMonth : Z;
  getDate : Z;
  getHours : Z;
  getMinutes : Z;
  getSeconds : Z
}.

(** [String(n)] for an integer. *)
Definition String_of_Z (n : Z) : string :=
  DecimalString.NilZero.string_of_int (Z.to_int n).

Fixpoint repeat_string (n : nat) (c : string) : string :=
  match n with
  | O => ""
  | S n' => c +:+ repeat_string n' c
  end.

(** [s.padStart(l, c)] for a one-character filler [c]. *)
Definition padStart (s : string) (l : nat) (c : string) : string :=
  repeat_string (l - String.length s) c +:+ s.

(** What [Math.random()] returns: a double that is at least 0 and less
    than 1, hence at most 1 - 2^-53. *)
Definition random_draw (r : Q) : Prop :=
  (0 <= r)%Q /\ (r <= 9007199254740991 # 9007199254740992)%Q.

(** [Math.floor(Math.random() * 900) + 100] for a draw [r] of
    [Math.random()].  The product is rounded to a double; its floor and the
    sum are integers far below 2^53, hence exact.  (The product of a draw
    by 900 is finite; the last case does not arise.) *)
Definition rand_suffix (r : Q) : Z :=
  match number_mul r 900 with
  | Finite q => Qfloor q + 100
  | _ => 0
  end.

(** [generateOrderNo], given the clock reading and the random draw. *)
Definition generateOrderNo (d : Date) (r : Q) : string :=
  let p := fun n => padStart (String_of_Z n) 2 "0" in
  let ts :=
    String_of_Z (getFullYear d) +:+ p (getMonth d + 1) +:+ p (getDate d)
    +:+ p (getHours d) +:+ p (getMinutes d) +:+ p (getSeconds d) in
  let rand := rand_suffix r in
  ts +:+ String_of_Z rand.

(* ===================================================================== *)
(** * The table [zpay_transactions] *)
(* ===================================================================== *)

(** [status VARCHAR(20) CHECK (status IN ('pending', 'paid', 'analyzed'))] *)
Inductive status : Type := pending | paid | analyzed.

Global Instance status_eq_dec : EqDecision status.
Proof. solve_decision. Defined.

(** A row.  [amount] is the [DECIMAL(10, 2)] in hundredths; nullable
    columns are options.  The columns [id] and [param], which no route
    reads or writes, are left out. *)
Record Order : Type := mkOrder {
  out_trade_no : string;
  trade_no : option string;
  uid : string;
  amount : Z;
  pay_type : option string;
  trade_status : option string;
  order_status : status;
  created_at : Date;
  updated_at : Date
}.

(** The table, keyed by its [UNIQUE] column [out_trade_no]. *)
Abbreviation orders := (gmap string Order).

Inductive db_error : Type :=
| NoSingleRow          (* [.single()] did not find exactly one row *)
| UniqueViolation      (* [out_trade_no] already present *)
| StorageFailure.      (* any other failure reported by the backend *)

(** The [{ data, error }] of a query. *)
Record select_result : Type := mkSelect {
  data : option Order;
  error : option db_error
}.

(** [.select(...).eq("out_trade_no", no).single()] *)
Definition db_select (t : orders) (no : string) : select_result :=
  match t !! no with
  | Some o => mkSelect (Some o) None
  | None => mkSelect None (Some NoSingleRow)
  end.

(** The object handed to [.update(...)].  A field that is [undefined] is
    not sent, so its column is left alone; [null] clears the column. *)
Record Patch : Type := mkPatch {
  set_status : status;
  set_trade_no : jsval;
  set_trade_status : jsval;
  set_pay_type : jsval;
  set_updated_at : Date
}.

Definition set_column (v : jsval) (old : option string) : option string :=
  match v with
  | JStr s => Some s
  | JNull => None
  | JUndefined => old
  end.

(** The row after the update; the trigger [zpay_transactions_updated_at]
    then stamps [updated_at] with the clock of the database. *)
Definition apply_patch (pt : Patch) (db_now : Date) (o : Order) : Order :=
  {| out_trade_no := out_trade_no o;
     trade_no := set_column (set_trade_no pt) (trade_no o);
     uid := uid o;
     amount := amount o;
     pay_type := set_column (set_pay_type pt) (pay_type o);
     trade_status := set_column (set_trade_status pt) (trade_status o);
     order_status := set_status pt;
     created_at := created_at o;
     updated_at := db_now |}.

(** [.update(pt).eq("out_trade_no", no).eq("status", expected)]: the rows
    that satisfy both filters are rewritten; when there is none the
    statement succeeds and changes nothing. *)
Definition db_update (t : orders) (pt : Patch) (no : string)
    (expected : status) (db_now : Date) : orders :=
  match t !! no with
  | Some o =>
      if decide (order_status o = expected)
      then <[no := apply_patch pt db_now o]> t
      else t
  | None => t
  end.

(** The object handed to [.insert(...)]. *)
Record NewOrder : Type := mkNewOrder {
  new_out_trade_no : string;
  new_uid : string;
  new_amount : number;
  new_pay_type : string;
  new_status : status
}.

(** A number as [DECIMAL(10, 2)], rounded half away from zero; [None] when
    it is not finite or has more than eight integer digits.  (The client
    sends the shortest decimal that reads back as the double; for the
    amount inserted here, 0.5, that is the exact value.) *)
Definition to_decimal_10_2 (x : number) : option Z :=
  match x with
  | Finite q =>
      let c := Z.sgn (Qnum q) * Qfloor (Qabs q * 100 + (1 # 2)) in
      if Z.abs c <? 10 ^ 10 then Some c else None
  | _ => None
  end.

(** [.insert(row)]: the columns left out take their defaults. *)
Definition db_insert (t : orders) (row : NewOrder) (db_now : Date)
    : orders * option db_error :=
  match t !! new_out_trade_no row, to_decimal_10_2 (new_amount row) with
  | Some _, _ => (t, Some UniqueViolation)
  | None, None => (t, Some StorageFailure)
  | None, Some cents =>
      (<[new_out_trade_no row :=
           {| out_trade_no := new_out_trade_no row;
              trade_no := None;
              uid := new_uid row;
              amount := cents;
              pay_type := Some (new_pay_type row);
              trade_status := None;
              order_status := new_status row;
              created_at := db_now;
              updated_at := db_now |}]> t, None)
  end.

(** [parseFloat(order.amount)]: whether the client library hands the
    amount over as a number or as its decimal text, [parseFloat] gives the
    double nearest to the stored decimal. *)
Definition amount_number (o : Order) : number := round_binary64 (amount o) 100.

(* ===================================================================== *)
(** * Route handlers as trees of effects *)
(* ===================================================================== *)

(** What a handler sends.  [ContinueToAnalysis] stands for the rest of
    [POST /api/analyze], the call to the model, which starts once the
    payment check has let the request through. *)
Inductive response : Type :=
| Send (http : Z) (body : string)
| JsonError (http : Z) (message : string)
| JsonCheckout (url : string) (order_no : string)
| ContinueToAnalysis.

(** A handler up to its response: it reads the clock, draws a random
    number, or awaits a statement on the table, and goes on with the
    outcome. *)
Inductive action (A : Type) : Type :=
| Done (a : A)
| Now (k : Date -> action A)
| Random (k : Q -> action A)
| Select (no : string) (k : select_result -> action A)
| Update (pt : Patch) (no : string) (expected : status)
    (k : option db_error -> action A)
| Insert (row : NewOrder) (k : option db_error -> action A).

Arguments Done {A} a.
Arguments Now {A} k.
Arguments Random {A} k.
Arguments Select {A} no k.
Arguments Update {A} pt no expected k.
Arguments Insert {A} row k.

Notation "'let*' x ':=' c 'in' k" := (c (fun x => k))
  (at level 10, x pattern, c at level 100, k at level 200, only parsing).

(** [process.env] *)
Record Env : Type := mkEnv {
  ZPAY_PID : option string;
  ZPAY_KEY : option string;
  NEXT_PUBLIC_BASE_URL : option string;
  NEXT_PUBLIC_SUPABASE_URL : option string;
  SUPABASE_SERVICE_ROLE_KEY : option string
}.

Definition env_value (v : option string) : jsval :=
  match v with Some s => JStr s | None => JUndefined end.

(** [createServerAdminClient()] returns a client ([true]) or throws. *)
Definition createServerAdminClient (env : Env) : bool :=
  truthy (env_value (NEXT_PUBLIC_SUPABASE_URL env))
  && truthy (env_value (SUPABASE_SERVICE_ROLE_KEY env)).

(** [getZpayConfig()] returns [{ pid, key, baseUrl }] or throws ([None]). *)
Definition getZpayConfig (env : Env) : option (string * string * string) :=
  match ZPAY_PID env, ZPAY_KEY env, NEXT_PUBLIC_BASE_URL env with
  | Some pid, Some key, Some baseUrl =>
      if negb (String.eqb pid "") && negb (String.eqb key "")
         && negb (String.eqb baseUrl "")
      then Some (pid, key, baseUrl) else None
  | _, _, _ => None
  end.

Definition ZPAY_SUBMIT_URL : string := "https://zpayz.cn/submit.php".
Definition ORDER_AMOUNT : string := "0.50".
Definition PRODUCT_NAME : string := "颜究院颜值分析".

(** The serializer of [URLSearchParams]: letters, digits, [*], [-], [.]
    and [_] stand for themselves, a space becomes [+], every other byte
    is percent-encoded. *)
Definition form_encode_byte (c : ascii) (rest : string) : string :=
  let n := code c in
  if (48 <=? n) && (n <=? 57) || (65 <=? n) && (n <=? 90)
     || (97 <=? n) && (n <=? 122)
     || (n =? 42) || (n =? 45) || (n =? 46) || (n =? 95)
  then String c rest
  else if n =? 32 then String "+" rest
  else
    let hex := fun d => ascii_of_N (Z.to_N (if d <? 10 then 48 + d else 55 + d)) in
    String "%" (String (hex (n / 16)) (String (hex (n mod 16)) rest)).

Fixpoint form_encode (s : string) : string :=
  match s with
  | EmptyString => ""
  | String c r => form_encode_byte c (form_encode r)
  end.

Definition query_string (fields : list (string * string)) : string :=
  String.concat "&"
    ((fun e => form_encode e.1 +:+ "=" +:+ form_encode e.2) <$> fields).

(** [POST /api/checkout/providers/zpay/url] *)
Definition checkout_url (env : Env) (body : params) : action response :=
  let uid := prop body "uid" in
  let pay_type :=
    match prop body "pay_type" with JUndefined => JStr "alipay" | v => v end in
  if negb (truthy uid) then Done (JsonError 400 "缺少用户标识 uid")
  else if negb (strict_eq_str pay_type "alipay" || strict_eq_str pay_type "wxpay")
  then Done (JsonError 400 "pay_type 仅支持 alipay 或 wxpay")
  else
    match getZpayConfig env with
    | None =>
        Done (JsonError 500
          "支付配置缺失：请检查 ZPAY_PID、ZPAY_KEY、NEXT_PUBLIC_BASE_URL 环境变量")
    | Some (pid, key, baseUrl) =>
        let* d := Now in
        let* r := Random in
        let out_trade_no := generateOrderNo d r in
        if negb (createServerAdminClient env) then
          Done (JsonError 500
            "缺少 Supabase 配置：请检查 NEXT_PUBLIC_SUPABASE_URL 和 SUPABASE_SERVICE_ROLE_KEY 环境变量")
        else
          let* dbError :=
            Insert {| new_out_trade_no := out_trade_no;
                      new_uid := js_to_string uid;
                      new_amount := parseFloat_string ORDER_AMOUNT;
                      new_pay_type := js_to_string pay_type;
                      new_status := pending |} in
          match dbError with
          | Some _ => Done (JsonError 500 "创建订单失败，请稍后重试")
          | None =>
              let fields :=
                [("pid", pid); ("name", PRODUCT_NAME); ("money", ORDER_AMOUNT);
                 ("out_trade_no", out_trade_no);
                 ("notify_url", baseUrl +:+ "/api/checkout/providers/zpay/webhook");
                 ("return_url", baseUrl);
                 ("type", js_to_string pay_type)] in
              let params : params := list_to_map (prod_map id JStr <$> fields) in
              let sign := generateSign params key in
              let qs :=
                query_string (fields ++ [("sign", sign); ("sign_type", "MD5")]) in
              let payUrl := ZPAY_SUBMIT_URL +:+ "?" +:+ qs in
              Done (JsonCheckout payUrl out_trade_no)
          end
    end.

(** [GET /api/checkout/providers/zpay/webhook] *)
Definition webhook (env : Env) (query : params) : action response :=
  let params := query in
  let money := prop params "money" in
  let out_trade_no := prop params "out_trade_no" in
  let trade_no := prop params "trade_no" in
  let trade_status := prop params "trade_status" in
  let type := prop params "type" in
  let key := env_value (ZPAY_KEY env) in
  if negb (truthy key) then Done (Send 500 "error")
  else if negb (verifySign params (js_to_string key))
  then Done (Send 400 "sign error")
  else if negb (strict_eq_str trade_status "TRADE_SUCCESS")
  then Done (Send 200 "success")
  else if negb (createServerAdminClient env) then Done (Send 500 "error")
  else
    let* r := Select (js_to_string out_trade_no) in
    match error r, data r with
    | None, Some order =>
        if negb (bool_decide (order_status order = pending))
        then Done (Send 200 "success")
        else if number_neq (parseFloat money) (amount_number order)
        then Done (Send 400 "amount mismatch")
        else
          let* d := Now in
          let* updateError :=
            Update {| set_status := paid;
                      set_trade_no := trade_no;
                      set_trade_status := trade_status;
                      set_pay_type := type;
                      set_updated_at := d |}
              (js_to_string out_trade_no) pending in
          match updateError with
          | Some _ => Done (Send 500 "error")
          | None => Done (Send 200 "success")
          end
    | _, _ => Done (Send 404 "order not found")
    end.

(** Whether [POST /api/analyze] checks the payment. *)
Definition PAYMENT_REQUIRED (env : Env) : bool :=
  truthy (env_value (NEXT_PUBLIC_SUPABASE_URL env))
  && truthy (env_value (ZPAY_PID env)).

(** [POST /api/analyze], up to the call to the model. *)
Definition analyze (env : Env) (body : params) : action response :=
  let image := prop body "image" in
  let out_trade_no := prop body "out_trade_no" in
  if negb (truthy image) then Done (JsonError 400 "缺少 image 字段")
  else if PAYMENT_REQUIRED env then
    if negb (truthy out_trade_no)
    then Done (JsonError 402 "请先完成支付后再进行分析")
    else if negb (createServerAdminClient env) then
      Done (JsonError 500
        "缺少 Supabase 配置：请检查 NEXT_PUBLIC_SUPABASE_URL 和 SUPABASE_SERVICE_ROLE_KEY 环境变量")
    else
      let* r := Select (js_to_string out_trade_no) in
      match error r, data r with
      | None, Some order =>
          if bool_decide (order_status order = analyzed)
          then Done (JsonError 409 "该订单已使用，每次支付仅可分析一次")
          else if negb (bool_decide (order_status order = paid))
          then Done (JsonError 402 "订单尚未完成支付，请先支付 ¥0.50")
          else
            let* d := Now in
            let* updateError :=
              Update {| set_status := analyzed;
                        set_trade_no := JUndefined;
                        set_trade_status := JUndefined;
                        set_pay_type := JUndefined;
                        set_updated_at := d |}
                (js_to_string out_trade_no) paid in
            match updateError with
            | Some _ => Done (JsonError 500 "服务器错误，请稍后重试")
            | None => Done ContinueToAnalysis
            end
      | _, _ => Done (JsonError 404 "订单不存在，请重新支付")
      end
  else Done ContinueToAnalysis.

(* ===================================================================== *)
(** * Running the handlers *)
(* ===================================================================== *)

(** ** One request at a time *)

(** What the outside decides at each effect of a run: the reading of the
    clock, the draw of [Math.random()], and whether the backend fails the
    statement.  Effects are numbered in the order they happen. *)
Record oracle : Type := mkOracle {
  clock : nat -> Date;
  draw : nat -> Q;
  fault : nat -> bool
}.

Record world : Type := mkWorld {
  table : orders;
  tick : nat
}.

Definition next (w : world) : world := mkWorld (table w) (S (tick w)).

(** The statements as the backend answers them at effect [tick w]. *)
Definition exec_select (o : oracle) (w : world) (no : string) : select_result :=
  if fault o (tick w) then mkSelect None (Some StorageFailure)
  else db_select (table w) no.

Definition exec_update (o : oracle) (w : world) (pt : Patch) (no : string)
    (expected : status) : option db_error * world :=
  if fault o (tick w) then (Some StorageFailure, next w)
  else (None, mkWorld (db_update (table w) pt no expected (clock o (tick w)))
                (S (tick w))).

Definition exec_insert (o : oracle) (w : world) (row : NewOrder)
    : option db_error * world :=
  if fault o (tick w) then (Some StorageFailure, next w)
  else
    let '(t, e) := db_insert (table w) row (clock o (tick w)) in
    (e, mkWorld t (S (tick w))).

(** A handler run to its response, with no other request in between. *)
Fixpoint run {A : Type} (o : oracle) (a : action A) (w : world) : A * world :=
  match a with
  | Done r => (r, w)
  | Now k => run o (k (clock o (tick w))) (next w)
  | Random k => run o (k (draw o (tick w))) (next w)
  | Select no k => run o (k (exec_select o w no)) (next w)
  | Update pt no expected k =>
      let '(e, w') := exec_update o w pt no expected in run o (k e) w'
  | Insert row k =>
      let '(e, w') := exec_insert o w row in run o (k e) w'
  end.

(** The statements a run sends to the table, in order. *)
Inductive statement : Type :=
| SqlSelect (no : string)
| SqlUpdate (pt : Patch) (no : string) (expected : status)
| SqlInsert (row : NewOrder).

Fixpoint statements {A : Type} (o : oracle) (a : action A) (w : world)
    : list statement :=
  match a with
  | Done _ => []
  | Now k => statements o (k (clock o (tick w))) (next w)
  | Random k => statements o (k (draw o (tick w))) (next w)
  | Select no k => SqlSelect no :: statements o (k (exec_select o w no)) (next w)
  | Update pt no expected k =>
      let '(e, w') := exec_update o w pt no expected in
      SqlUpdate pt no expected :: statements o (k e) w'
  | Insert row k =>
      let '(e, w') := exec_insert o w row in
      SqlInsert row :: statements o (k e) w'
  end.

(** ** Requests in flight together *)

(** One effect of one request.  Each statement is atomic on the table; the
    backend may fail any of them and then leaves the table as it is. *)
Inductive thread_step {A : Type} : orders -> action A -> orders -> action A -> Prop :=
| step_now t k d :
    thread_step t (Now k) t (k d)
| step_random t k r :
    random_draw r ->
    thread_step t (Random k) t (k r)
| step_select t no k :
    thread_step t (Select no k) t (k (db_select t no))
| step_select_fails t no k :
    thread_step t (Select no k) t (k (mkSelect None (Some StorageFailure)))
| step_update t pt no expected k db_now :
    thread_step t (Update pt no expected k)
      (db_update t pt no expected db_now) (k None)
| step_update_fails t pt no expected k :
    thread_step t (Update pt no expected k) t (k (Some StorageFailure))
| step_insert t row k db_now :
    thread_step t (Insert row k)
      (db_insert t row db_now).1 (k (db_insert t row db_now).2)
| step_insert_fails t row k :
    thread_step t (Insert row k) t (k (Some StorageFailure)).

(** The table and the requests in flight; any of them may move next. *)
Definition system : Type := orders * list (action response).

Inductive system_step : system -> system -> Prop :=
| step_thread t pool i a t' a' :
    pool !! i = Some a ->
    thread_step t a t' a' ->
    system_step (t, pool) (t', <[i := a']> pool).

(** The requests the server accepts. *)
Inductive request : action response -> Prop :=
| request_checkout env body : request (checkout_url env body)
| request_webhook env query : request (webhook env query)
| request_analyze env body : request (analyze env body).

(* ===================================================================== *)
(** * Notions used in the statements *)
(* ===================================================================== *)

(** Entries in the order in which [sort] leaves distinct keys: strictly
    ascending by the code units of the keys. *)
Definition key_ordered {V : Type} (es : list (string * V)) : Prop :=
  StronglySorted (fun x y => js_lt x.1 y.1 = true) es.

(** Entries in strictly ascending order of the bytes of their keys. *)
Definition ascending {V : Type} (es : list (string * V)) : Prop :=
  StronglySorted (fun x y => String.ltb x.1 y.1 = true) es.

(** A string of ASCII characters. *)
Definition ascii_only (s : string) : bool :=
  forallb (fun c => code c <? 128) (list_ascii_of_string s).

(** The entries of [p] that take part in the signature. *)
Definition signed (p : params) (k : string) (v : jsval) : Prop :=
  p !! k = Some v /\ v <> JStr "" /\ v <> JNull /\ v <> JUndefined
  /\ k <> "sign" /\ k <> "sign_type".

Definition all_digits (s : string) : bool :=
  forallb is_digit (list_ascii_of_string s).

(** The number a non-empty string of digits denotes. *)
Definition decimal (s : string) : option Z :=
  if all_digits s && negb (String.eqb s "")
  then Some (digits_value (list_ascii_of_string s)) else None.

(** [s] is [n] written with exactly [width] digits. *)
Definition field (s : string) (width : nat) (n : Z) : Prop :=
  String.length s = width /\ decimal s = Some n.

Definition fieldb (s : string) (width : nat) (n : Z) : bool :=
  bool_decide (String.length s = width) && bool_decide (decimal s = Some n).

(** [String(n).padStart(2, "0")], the helper [p] of [generateOrderNo]. *)
Definition pad2 (n : Z) : string := padStart (String_of_Z n) 2 "0".

(** The readings a clock gives, with a year of four digits. *)
Record calendar (d : Date) : Prop := mkCalendar {
  year_range : 1000 <= getFullYear d <= 9999;
  month_range : 0 <= getMonth d <= 11;
  date_range : 1 <= getDate d <= 31;
  hours_range : 0 <= getHours d <= 23;
  minutes_range : 0 <= getMinutes d <= 59;
  seconds_range : 0 <= getSeconds d <= 59
}.

(** A notification passes the checks made before the table is read: the
    key is configured, the signature verifies, the provider reports
    TRADE_SUCCESS and the client of the table can be built. *)
Record accepted (env : Env) (query : params) : Prop := mkAccepted {
  key_set : truthy (env_value (ZPAY_KEY env)) = true;
  sign_ok : verifySign query (js_to_string (env_value (ZPAY_KEY env))) = true;
  paid_ok : strict_eq_str (prop query "trade_status") "TRADE_SUCCESS" = true;
  client_ok : createServerAdminClient env = true
}.

(** The order number the webhook looks up. *)
Definition notified (query : params) : string :=
  js_to_string (prop query "out_trade_no").

(** The update the webhook sends when the clock reads [d]. *)
Definition pay_patch (query : params) (d : Date) : Patch :=
  {| set_status := paid;
     set_trade_no := prop query "trade_no";
     set_trade_status := prop query "trade_status";
     set_pay_type := prop query "type";
     set_updated_at := d |}.

(** What makes the webhook answer something else than [success]: the key
    or the client of the table is not configured, the signature does not
    verify, or, for a TRADE_SUCCESS notification, the lookup fails or
    finds no order, or the order is [pending] and the amounts differ or
    the update fails. *)
Definition webhook_rejects (o : oracle) (env : Env) (query : params)
    (w : world) : Prop :=
  truthy (env_value (ZPAY_KEY env)) = false
  \/ verifySign query (js_to_string (env_value (ZPAY_KEY env))) = false
  \/ (strict_eq_str (prop query "trade_status") "TRADE_SUCCESS" = true
      /\ (createServerAdminClient env = false
          \/ fault o (tick w) = true
          \/ table w !! notified query = None
          \/ exists order,
               table w !! notified query = Some order
               /\ order_status order = pending
               /\ (number_neq (parseFloat (prop query "money"))
                     (round_binary64 (amount order) 100) = true
                   \/ fault o (S (S (tick w))) = true))).

(** [pay_type], with its default. *)
Definition chosen_pay_type (body : params) : jsval :=
  match prop body "pay_type" with JUndefined => JStr "alipay" | v => v end.

(** A request for a payment link passes the checks made before the order
    number is generated and the client of the table can be built. *)
Record orderable (env : Env) (body : params) : Prop := mkOrderable {
  uid_given : truthy (prop body "uid") = true;
  pay_type_known :
    strict_eq_str (chosen_pay_type body) "alipay"
    || strict_eq_str (chosen_pay_type body) "wxpay" = true;
  zpay_configured : is_Some (getZpayConfig env);
  table_reachable : createServerAdminClient env = true
}.

(** The row the checkout inserts for the order number [no]. *)
Definition new_order (body : params) (no : string) : NewOrder :=
  {| new_out_trade_no := no;
     new_uid := js_to_string (prop body "uid");
     new_amount := parseFloat_string ORDER_AMOUNT;
     new_pay_type := js_to_string (chosen_pay_type body);
     new_status := pending |}.

(** What one statement may do to the status of a stored order. *)
Definition one_step (s s' : status) : Prop :=
  s' = s \/ (s = pending /\ s' = paid) \/ (s = paid /\ s' = analyzed).

Definition status_rank (s : status) : Z :=
  match s with pending => 0 | paid => 1 | analyzed => 2 end.

Definition status_le (s s' : status) : Prop := status_rank s <= status_rank s'.

(** Every order of [t] is still in [t'], with the same number and amount
    and a status related by [R]. *)
Definition evolves (R : status -> status -> Prop) (t t' : orders) : Prop :=
  forall no o, t !! no = Some o ->
    exists o', t' !! no = Some o' /\ out_trade_no o' = out_trade_no o
               /\ amount o' = amount o /\ R (order_status o) (order_status o').

(** Every order of [t'] that was not in [t] is [pending]. *)
Definition created_pending (t t' : orders) : Prop :=
  forall no o, t !! no = None -> t' !! no = Some o -> order_status o = pending.

(** The two conditional updates the routes send. *)
Inductive guarded : Patch -> status -> Prop :=
| guarded_pay pt : set_status pt = paid -> guarded pt pending
| guarded_consume pt : set_status pt = analyzed -> guarded pt paid.

(** A handler, or what is left of it, all of whose updates are guarded and
    all of whose inserts create [pending] orders. *)
Inductive safe {A : Type} : action A -> Prop :=
| safe_Done a : safe (Done a)
| safe_Now k : (forall d, safe (k d)) -> safe (Now k)
| safe_Random k : (forall r, safe (k r)) -> safe (Random k)
| safe_Select no k : (forall r, safe (k r)) -> safe (Select no k)
| safe_Update pt no expected k :
    guarded pt expected -> (forall e, safe (k e)) ->
    safe (Update pt no expected k)
| safe_Insert row k :
    new_status row = pending -> (forall e, safe (k e)) -> safe (Insert row k).

(** What the outside supplies to one effect: the reading of the clock (of
    the server or of the database) and the draw, or a failure of the
    backend. *)
Inductive choice : Type :=
| Answer (d : Date) (r : Q)
| Fail.

Definition random_drawb (r : Q) : bool :=
  Qle_bool 0 r && Qle_bool r (9007199254740991 # 9007199254740992).

Definition thread_exec {A : Type} (t : orders) (a : action A) (c : choice)
    : option (orders * action A) :=
  match a, c with
  | Now k, Answer d _ => Some (t, k d)
  | Random k, Answer _ r => if random_drawb r then Some (t, k r) else None
  | Select no k, Answer _ _ => Some (t, k (db_select t no))
  | Select no k, Fail => Some (t, k (mkSelect None (Some StorageFailure)))
  | Update pt no expected k, Answer d _ =>
      Some (db_update t pt no expected d, k None)
  | Update pt no expected k, Fail => Some (t, k (Some StorageFailure))
  | Insert row k, Answer d _ =>
      Some ((db_insert t row d).1, k (db_insert t row d).2)
  | Insert row k, Fail => Some (t, k (Some StorageFailure))
  | _, _ => None
  end.

(** The system after the requests named by the schedule have each made one
    effect, in that order. *)
Fixpoint schedule (s : system) (sch : list (nat * choice)) : option system :=
  match sch with
  | [] => Some s
  | (i, c) :: rest =>
      match s.2 !! i with
      | Some a =>
          match thread_exec s.1 a c with
          | Some (t', a') => schedule (t', <[i := a']> s.2) rest
          | None => None
          end
      | None => None
      end
  end.

(** An analysis request reaches the lookup of its order: it carries an
    image and an order number, the payment check is on and the client of
    the table can be built. *)
Record gated (env : Env) (body : params) : Prop := mkGated {
  image_given : truthy (prop body "image") = true;
  payment_required : PAYMENT_REQUIRED env = true;
  order_given : truthy (prop body "out_trade_no") = true;
  store_reachable : createServerAdminClient env = true
}.

(** The order number the analysis looks up. *)
Definition presented (body : params) : string :=
  js_to_string (prop body "out_trade_no").

(** The update the analysis sends when the clock reads [d]. *)
Definition consume_patch (d : Date) : Patch :=
  {| set_status := analyzed;
     set_trade_no := JUndefined;
     set_trade_status := JUndefined;
     set_pay_type := JUndefined;
     set_updated_at := d |}.

(* ===================================================================== *)
(** * A worked scenario *)
(* ===================================================================== *)

Module Scenario.

Definition key : string := "secret".

Definition env : Env :=
  mkEnv (Some "1001") (Some key) (Some "https://x.test")
    (Some "https://db.test") (Some "service-role").

Definition noon : Date := mkDate 2026 1 19 12 0 0.

(** The clock stays at noon, the second effect of a run draws 105/4096,
    which gives the suffix 123, every other draw is 2278/4096, which gives
    600, and the backend never fails. *)
Definition calm : oracle :=
  mkOracle (fun _ => noon)
    (fun n => if (n =? 1)%nat then 105 # 4096 else 2278 # 4096)
    (fun _ => false).

Definition order_no : string := "20260219120000123".

Definition cart : params := {[ "uid" := JStr "u1" ]}.

(** The table after the checkout of [cart]. *)
Definition t_pending : orders :=
  {[ order_no :=
       mkOrder order_no None "u1" 50 (Some "alipay") None pending noon noon ]}.

Definition t_paid : orders :=
  {[ order_no :=
       mkOrder order_no (Some "T1") "u1" 50 (Some "alipay")
         (Some "TRADE_SUCCESS") paid noon noon ]}.

Definition t_analyzed : orders :=
  {[ order_no :=
       mkOrder order_no (Some "T1") "u1" 50 (Some "alipay")
         (Some "TRADE_SUCCESS") analyzed noon noon ]}.

(** A notification that reports [money], signed with the key. *)
Definition unsigned (money : string) : params :=
  <["money" := JStr money]>
    (<["out_trade_no" := JStr order_no]>
       (<["trade_no" := JStr "T1"]>
          (<["trade_status" := JStr "TRADE_SUCCESS"]>
             (<["type" := JStr "alipay"]> ∅)))).

Definition notification (money : string) : params :=
  <["sign_type" := JStr "MD5"]>
    (<["sign" := JStr (generateSign (unsigned money) key)]> (unsigned money)).

Definition upload : params :=
  <["image" := JStr "data:image/jpeg;base64,AAAA"]>
    {[ "out_trade_no" := JStr order_no ]}.

Definition ok : choice := Answer noon (105 # 4096).

(** The key of the provider is set, the service-role key of the table is
    not. *)
Definition env_without_store : Env :=
  mkEnv (Some "1001") (Some key) (Some "https://x.test")
    (Some "https://db.test") None.

(** The backend fails the third effect of the run: the update. *)
Definition update_fails : oracle :=
  mkOracle (fun _ => noon) (fun _ => 105 # 4096) (fun n => (n =? 2)%nat).

End Scenario.

(* ===================================================================== *)
(** * Further routes and notions *)
(* ===================================================================== *)

(** A digit or one of the letters [a] to [f]. *)
Definition is_lower_hex (c : ascii) : bool :=
  (48 <=? code c) && (code c <=? 57) || (97 <=? code c) && (code c <=? 102).

Definition lower_hex (s : string) : bool :=
  forallb is_lower_hex (list_ascii_of_string s).

(** The first clock reading is before the second, field by field. *)
Definition earlier (d d' : Date) : Prop :=
  getFullYear d < getFullYear d'
  \/ getFullYear d = getFullYear d'
     /\ (getMonth d < getMonth d'
         \/ getMonth d = getMonth d'
            /\ (getDate d < getDate d'
                \/ getDate d = getDate d'
                   /\ (getHours d < getHours d'
                       \/ getHours d = getHours d'
                          /\ (getMinutes d < getMinutes d'
                              \/ getMinutes d = getMinutes d'
                                 /\ getSeconds d < getSeconds d')))).

(** The row of the table that the insert of the checkout creates: the
    amount 0.50 in hundredths, the columns left out at their defaults. *)
Definition created_order (body : params) (no : string) (db_now : Date) : Order :=
  {| out_trade_no := no;
     trade_no := None;
     uid := js_to_string (prop body "uid");
     amount := 50;
     pay_type := Some (js_to_string (chosen_pay_type body));
     trade_status := None;
     order_status := pending;
     created_at := db_now;
     updated_at := db_now |}.

(** The parameters the checkout signs, in the order it lists them. *)
Definition link_fields (pid baseUrl no pay_type : string)
    : list (string * string) :=
  [("pid", pid); ("name", PRODUCT_NAME); ("money", ORDER_AMOUNT);
   ("out_trade_no", no);
   ("notify_url", baseUrl +:+ "/api/checkout/providers/zpay/webhook");
   ("return_url", baseUrl);
   ("type", pay_type)].

(** All the parameters of the payment link: those signed, then the
    signature and its type. *)
Definition link_query (pid key baseUrl no pay_type : string)
    : list (string * string) :=
  link_fields pid baseUrl no pay_type
  ++ [("sign",
       generateSign
         (list_to_map (prod_map id JStr <$> link_fields pid baseUrl no pay_type))
         key);
      ("sign_type", "MD5")].

(** What [GET /api/checkout/providers/zpay/status] sends: an error, or the
    status and the [uid] of the order. *)
Inductive poll_response : Type :=
| PollError (http : Z) (message : string)
| PollStatus (st : status) (uid : string).

(** [GET /api/checkout/providers/zpay/status] *)
Definition status_poll (env : Env) (query : params) : action poll_response :=
  let out_trade_no := prop query "out_trade_no" in
  if negb (truthy out_trade_no)
  then Done (PollError 400 "缺少 out_trade_no 参数")
  else if negb (createServerAdminClient env) then
    Done (PollError 500
      "缺少 Supabase 配置：请检查 NEXT_PUBLIC_SUPABASE_URL 和 SUPABASE_SERVICE_ROLE_KEY 环境变量")
  else
    let* r := Select (js_to_string out_trade_no) in
    match error r, data r with
    | None, Some order => Done (PollStatus (order_status order) (uid order))
    | _, _ => Done (PollError 404 "订单不存在")
    end.

(** The [imageUrl] of [POST /api/analyze]: a data URL is kept, anything
    else is taken as the base64 of a JPEG. *)
Definition image_url (image : string) : string :=
  if String.prefix "data:" image then image
  else "data:image/jpeg;base64," +:+ image.

(** A request from one point to a later one, with the table before and
    after each of its effects; other requests may change the table in
    between. *)
Inductive thread_run {A : Type}
    : action A -> list (orders * orders) -> action A -> Prop :=
| thread_run_nil a : thread_run a [] a
| thread_run_cons t a t' a' ts a'' :
    thread_step t a t' a' -> thread_run a' ts a'' ->
    thread_run a ((t, t') :: ts) a''.

(** The columns of an order that no statement of the routes rewrites. *)
Definition same_identity (o o' : Order) : Prop :=
  out_trade_no o' = out_trade_no o /\ uid o' = uid o
  /\ amount o' = amount o /\ created_at o' = created_at o.

(** Every order is stored under its own number. *)
Definition well_keyed (t : orders) : Prop :=
  forall no o, t !! no = Some o -> out_trade_no o = no.

(** What the payment left on an order. *)
Definition payment_record (o : Order)
    : option string * option string * option string :=
  (trade_no o, trade_status o, pay_type o).

(** An order that is not [pending] carries the status TRADE_SUCCESS of the
    provider. *)
Definition confirmed (t : orders) : Prop :=
  forall no o, t !! no = Some o -> order_status o <> pending ->
    trade_status o = Some "TRADE_SUCCESS".

(** The updates of the routes, with what they write: the one to [paid]
    records TRADE_SUCCESS, the one to [analyzed] leaves the payment
    columns alone; the inserts create [pending] orders of 0.50. *)
Inductive recording : Patch -> status -> Prop :=
| recording_pay pt :
    set_status pt = paid -> set_trade_status pt = JStr "TRADE_SUCCESS" ->
    recording pt pending
| recording_consume pt :
    set_status pt = analyzed -> set_trade_no pt = JUndefined ->
    set_trade_status pt = JUndefined -> set_pay_type pt = JUndefined ->
    recording pt paid.

Inductive disciplined {A : Type} : action A -> Prop :=
| disciplined_Done a : disciplined (Done a)
| disciplined_Now k : (forall d, disciplined (k d)) -> disciplined (Now k)
| disciplined_Random k : (forall r, disciplined (k r)) -> disciplined (Random k)
| disciplined_Select no k :
    (forall r, disciplined (k r)) -> disciplined (Select no k)
| disciplined_Update pt no expected k :
    recording pt expected -> (forall e, disciplined (k e)) ->
    disciplined (Update pt no expected k)
| disciplined_Insert row k :
    new_status row = pending ->
    new_amount row = parseFloat_string ORDER_AMOUNT ->
    (forall e, disciplined (k e)) ->
    disciplined (Insert row k).

(** Between two tables, the orders that were not [pending] are still not
    [pending] and keep their payment record. *)
Definition payment_frozen (t t' : orders) : Prop :=
  forall no o, t !! no = Some o -> order_status o <> pending ->
    exists o', t' !! no = Some o' /\ payment_record o' = payment_record o
               /\ order_status o' <> pending.

(** The orders of [t'] that were not in [t] cost 0.50. *)
Definition created_at_price (t t' : orders) : Prop :=
  forall no o, t !! no = None -> t' !! no = Some o -> amount o = 50.

(** A notification like [Scenario.notification], signed with the key, from
    which the provider left out the amount. *)
Definition without_money : params :=
  <["out_trade_no" := JStr Scenario.order_no]>
    (<["trade_no" := JStr "T1"]>
       (<["trade_status" := JStr "TRADE_SUCCESS"]>
          (<["type" := JStr "alipay"]> ∅))).

Definition notification_without_money : params :=
  <["sign" := JStr (generateSign without_money Scenario.key)]> without_money.

(** The link the checkout of the scenario answers with. *)
Definition checkout_link : string :=
  ZPAY_SUBMIT_URL +:+ "?"
  +:+ query_string
        (link_query "1001" Scenario.key "https://x.test" Scenario.order_no
           "alipay").

(* ===================================================================== *)
(** * The stars of the result page *)
(* ===================================================================== *)

(** The three glyphs of [StarRating]. *)
Inductive star : Type :=
| FullStar
| HalfStar
| EmptyStar.

(** [StarRating({ score })] for a score that is an integer:
    [Math.floor(score / 20)] full stars, and a half star after them when
    [score % 20 >= 10]; [%] takes the sign of the dividend. *)
Definition fullStars (score : Z) : Z := score / 20.

Definition hasHalf (score : Z) : bool := 10 <=? Z.rem score 20.

Definition star_at (score i : Z) : star :=
  if i <=? fullStars score then FullStar
  else if (i =? fullStars score + 1) && hasHalf score then HalfStar
  else EmptyStar.

Definition StarRating (score : Z) : list star :=
  star_at score <$> [1; 2; 3; 4; 5].

Global Instance star_eq_dec : EqDecision star.
Proof. solve_decision. Defined.

(** The shape of the rating, as a test. *)
Definition stars_shape (score : Z) : bool :=
  let full := Z.to_nat (score / 20) in
  let half := Z.to_nat ((score + 10) / 20 - score / 20) in
  bool_decide
    (StarRating score
     = replicate full FullStar ++ replicate half HalfStar
       ++ replicate (5 - full - half) EmptyStar)
  && (half <=? 1)%nat.

(* ===================================================================== *)
(** * The digest and the number parser on known values *)
(* ===================================================================== *)

Example md5_hex_empty : md5_hex "" = "d41d8cd98f00b204e9800998ecf8427e".
Proof. vm_compute. reflexivity. Qed.

Example md5_hex_abc : md5_hex "abc" = "900150983cd24fb0d6963f7d28e17f72".
Proof. vm_compute. reflexivity. Qed.

Example md5_hex_two_blocks :
  md5_hex
    "12345678901234567890123456789012345678901234567890123456789012345678901234567890"
  = "57edf4a22be3c955ac49da2e2107b67a".
Proof. vm_compute. reflexivity. Qed.

Example parseFloat_prefixes :
  parseFloat_string "0.50" = Finite (1 # 2)
  /\ parseFloat_string "0.50abc" = Finite (1 # 2)
  /\ parseFloat_string "  .5e0" = Finite (1 # 2)
  /\ parseFloat_string "-Infinity" = Infinity true
  /\ parseFloat_string "." = NaN
  /\ parseFloat_string "undefined" = NaN.
Proof. vm_compute. repeat split; reflexivity. Qed.

Example parseFloat_rounds :
  parseFloat_string "0.1" = Finite (3602879701896397 # 36028797018963968)
  /\ parseFloat_string "0.5000000000000000000000001" = Finite (1 # 2)
  /\ parseFloat_string "9007199254740993" = Finite (9007199254740992 # 1)
  /\ parseFloat_string "1.7976931348623159e308" = Infinity false.
Proof. vm_compute. repeat split; reflexivity. Qed.

Example utf16_known :
  utf16 "aé߿ࠀ퟿�𐀀😀􏿿$"
  = [97; 233; 2047; 2048; 55295; 57344; 65533; 55296; 56320; 55357; 56832;
     56319; 57343; 36]
  /\ js_lt "😀" "Ａ" = true
  /\ js_lt "b" "é" = true
  /\ js_lt "ab" "abc" = true
  /\ js_lt "abc" "ab" = false.
Proof. vm_compute. repeat split; reflexivity. Qed.

(* ===================================================================== *)
(** * Properties of the signature codec *)
(* ===================================================================== *)

Lemma ltb_compare a b : String.ltb a b = true <-> String.compare a b = Lt.
Proof. unfold String.ltb. destruct (String.compare a b); split; congruence. Qed.

(** ** The order of JavaScript on strings *)

Lemma code_range c : 0 <= code c < 256.
Proof. unfold code. pose proof (N_ascii_bounded c) as H. lia. Qed.

Lemma code_inj c c' : code c = code c' -> c = c'.
Proof.
  unfold code. intros H. apply N2Z.inj in H.
  rewrite <- (ascii_N_embedding c), <- (ascii_N_embedding c'). by rewrite H.
Qed.

(** The first character of a string: its code units and the bytes that
    follow it. *)
Inductive heads : string -> list Z -> string -> Prop :=
| heads1 c0 r : code c0 < 128 -> heads (String c0 r) [code c0] r
| heads2 c0 c1 r :
    encodes2 c0 c1 = true ->
    heads (String c0 (String c1 r)) [code_point2 c0 c1] r
| heads3 c0 c1 c2 r :
    encodes3 c0 c1 c2 = true ->
    heads (String c0 (String c1 (String c2 r))) [code_point3 c0 c1 c2] r
| heads4 c0 c1 c2 c3 r :
    encodes4 c0 c1 c2 c3 = true ->
    heads (String c0 (String c1 (String c2 (String c3 r))))
      (surrogates (code_point4 c0 c1 c2 c3)) r
| heads_other c0 r :
    128 <= code c0 -> heads (String c0 r) [56320 + code c0] r.

Lemma utf16_heads c0 r0 :
  exists u r, heads (String c0 r0) u r /\ utf16 (String c0 r0) = u ++ utf16 r.
Proof.
  cbn [utf16]. destruct (code c0 <? 128) eqn:H0.
  { eexists _, _. split; [apply heads1; lia|reflexivity]. }
  assert (Hother : exists u r, heads (String c0 r0) u r
            /\ (56320 + code c0) :: utf16 r0 = u ++ utf16 r).
  { eexists _, _. split; [apply heads_other; lia|reflexivity]. }
  destruct r0 as [|c1 r1]; [done|].
  destruct (encodes2 c0 c1) eqn:H2.
  { eexists _, _. split; [by apply heads2|reflexivity]. }
  destruct r1 as [|c2 r2]; [done|].
  destruct (encodes3 c0 c1 c2) eqn:H3.
  { eexists _, _. split; [by apply heads3|reflexivity]. }
  destruct r2 as [|c3 r3]; [done|].
  destruct (encodes4 c0 c1 c2 c3) eqn:H4; [|done].
  eexists _, _. split; [by apply heads4|reflexivity].
Qed.

Lemma heads_length s u r :
  heads s u r -> (String.length r < String.length s)%nat.
Proof. destruct 1; cbn [String.length]; lia. Qed.

Ltac byte_ranges :=
  repeat match goal with
  | c : ascii |- _ =>
      lazymatch goal with
      | _ : 0 <= code c < 256 |- _ => fail
      | _ => pose proof (code_range c)
      end
  end.

(** The code units of a first character tell its bytes: the five kinds of
    first character have their first unit in disjoint ranges, and within a
    kind the bytes are read off the code point. *)
Lemma heads_inj a b u u' ra rb x y :
  heads a u ra -> heads b u' rb -> u ++ x = u' ++ y ->
  x = y /\ (ra = rb -> a = b).
Proof.
  intros Ha Hb Heq.
  destruct Ha, Hb;
    unfold surrogates, encodes2, encodes3, encodes4, continuation,
      code_point2, code_point3, code_point4 in *;
    cbn [app] in Heq; simplify_eq; byte_ranges.
  all: try (exfalso; Z.div_mod_to_equations; lia).
  all: split; [done|intros ->].
  all: repeat f_equal; apply code_inj; Z.div_mod_to_equations; lia.
Qed.

Lemma utf16_nil s : utf16 s = [] -> s = "".
Proof.
  destruct s as [|c0 r0]; [done|].
  destruct (utf16_heads c0 r0) as (u & r & Hh & ->).
  destruct Hh; discriminate.
Qed.

(** Strings with the same code units are the same string. *)
Lemma utf16_inj a b : utf16 a = utf16 b -> a = b.
Proof.
  remember (String.length a) as n eqn:Hn. revert a b Hn.
  induction (lt_wf n) as [n _ IH]. intros a b -> Heq.
  destruct a as [|c0 r0]; [symmetry; apply utf16_nil; by rewrite <- Heq|].
  destruct b as [|d0 s0]; [by apply utf16_nil|].
  destruct (utf16_heads c0 r0) as (u & r & Hh & Hu).
  destruct (utf16_heads d0 s0) as (u' & r' & Hh' & Hu').
  rewrite Hu, Hu' in Heq.
  destruct (heads_inj _ _ _ _ _ _ _ _ Hh Hh' Heq) as [Hrest Hsame].
  apply Hsame. eapply IH; [|reflexivity|exact Hrest].
  by apply heads_length in Hh.
Qed.

Lemma units_compare_eq u v : units_compare u v = Eq <-> u = v.
Proof.
  revert v. induction u as [|x u IH]; intros [|y v]; cbn; try done.
  destruct (Z.compare_spec x y) as [->|?|?].
  - rewrite IH. split; [by intros ->|by intros [=]].
  - split; [done|]. intros [=]. lia.
  - split; [done|]. intros [=]. lia.
Qed.

Lemma units_compare_antisym u v :
  units_compare v u = CompOpp (units_compare u v).
Proof.
  revert v. induction u as [|x u IH]; intros [|y v]; cbn; try done.
  rewrite (Z.compare_antisym x y). destruct (x ?= y); cbn; [apply IH|done..].
Qed.

Lemma units_compare_trans u v w :
  units_compare u v = Lt -> units_compare v w = Lt -> units_compare u w = Lt.
Proof.
  revert v w. induction u as [|x u IH]; intros [|y v] [|z w]; cbn; try done.
  destruct (Z.compare_spec x y) as [->|Hxy|Hxy]; [| |done].
  - destruct (y ?= z); [apply IH|done..].
  - destruct (Z.compare_spec y z) as [->|Hyz|Hyz]; [| |done].
    + intros _ _. by rewrite (proj2 (Z.compare_lt_iff x z)).
    + intros _ _. rewrite (proj2 (Z.compare_lt_iff x z)); [done|lia].
Qed.

Lemma js_compare_eq a b : js_compare a b = Eq <-> a = b.
Proof.
  unfold js_compare. rewrite units_compare_eq.
  split; [apply utf16_inj|by intros ->].
Qed.

Lemma js_compare_antisym a b : js_compare a b = CompOpp (js_compare b a).
Proof. apply units_compare_antisym. Qed.

Lemma js_compare_trans_lt a b c :
  js_compare a b = Lt -> js_compare b c = Lt -> js_compare a c = Lt.
Proof. apply units_compare_trans. Qed.

Lemma js_lt_compare a b : js_lt a b = true <-> js_compare a b = Lt.
Proof. unfold js_lt. destruct (js_compare a b); split; congruence. Qed.

Lemma js_lt_irrefl a : js_lt a a = true -> False.
Proof.
  rewrite js_lt_compare. intros H.
  pose proof (js_compare_antisym a a) as Ha. rewrite H in Ha. discriminate.
Qed.

Lemma js_lt_asym a b : js_lt a b = true -> js_lt b a = true -> False.
Proof.
  rewrite !js_lt_compare. intros H1 H2.
  rewrite js_compare_antisym, H2 in H1. discriminate.
Qed.

(** On ASCII strings the code units are the bytes, and the order of
    JavaScript is the order of the bytes. *)
Lemma js_compare_ascii a b :
  ascii_only a = true -> ascii_only b = true ->
  js_compare a b = String.compare a b.
Proof.
  unfold js_compare, ascii_only. revert b.
  induction a as [|c a IH]; intros [|c' b]; cbn; try done.
  - intros _ [Hc' _]%andb_true_iff. by rewrite Hc'.
  - intros [Hc _]%andb_true_iff _. by rewrite Hc.
  - intros [Hc Ha]%andb_true_iff [Hc' Hb]%andb_true_iff.
    rewrite Hc, Hc'. cbn [units_compare].
    unfold Ascii.compare. fold (code c) (code c').
    replace (N_of_ascii c ?= N_of_ascii c')%N with (code c ?= code c')
      by (unfold code; by rewrite N2Z.inj_compare).
    destruct (code c ?= code c'); [by apply IH|done..].
Qed.

Lemma js_lt_ascii a b :
  ascii_only a = true -> ascii_only b = true -> js_lt a b = String.ltb a b.
Proof.
  intros Ha Hb. unfold js_lt, String.ltb. by rewrite js_compare_ascii.
Qed.

(** ** The signed entries *)

Lemma key_compare_le a b : key_compare a b <= 0 <-> js_compare a b <> Gt.
Proof.
  unfold key_compare, js_lt. rewrite (js_compare_antisym a b).
  destruct (js_compare b a); simpl; split; (congruence || lia).
Qed.

Global Instance entry_le_total : Total entry_le.
Proof.
  intros x y. unfold entry_le. rewrite !key_compare_le.
  rewrite (js_compare_antisym x.1 y.1).
  destruct (js_compare y.1 x.1); simpl; auto.
Qed.

Global Instance entry_le_trans : Transitive entry_le.
Proof.
  intros x y z. unfold entry_le. rewrite !key_compare_le. intros Hxy Hyz.
  destruct (js_compare x.1 y.1) eqn:E1; [| |done].
  - apply js_compare_eq in E1. by rewrite E1.
  - destruct (js_compare y.1 z.1) eqn:E2; [| |done].
    + apply js_compare_eq in E2. rewrite <- E2, E1. done.
    + rewrite (js_compare_trans_lt _ _ _ E1 E2). done.
Qed.

Lemma entry_le_ne_lt x y :
  entry_le x y -> x.1 <> y.1 -> js_lt x.1 y.1 = true.
Proof.
  unfold entry_le. rewrite key_compare_le, js_lt_compare. intros Hle Hne.
  destruct (js_compare x.1 y.1) eqn:E; [|done|done].
  by apply js_compare_eq in E.
Qed.

Lemma keep_signed k v : keep (k, v) = true <->
  v <> JStr "" /\ v <> JNull /\ v <> JUndefined /\ k <> "sign" /\ k <> "sign_type".
Proof.
  unfold keep. rewrite !andb_true_iff, !negb_true_iff, !bool_decide_eq_false.
  rewrite !String.eqb_neq. tauto.
Qed.

Lemma sign_entries_perm p :
  sign_entries p ≡ₚ filter (fun e => keep e = true) (map_to_list p).
Proof. apply merge_sort_Permutation. Qed.

Lemma elem_of_sign_entries p k v : (k, v) ∈ sign_entries p <-> signed p k v.
Proof.
  rewrite sign_entries_perm, list_elem_of_filter, elem_of_map_to_list.
  rewrite keep_signed. unfold signed. tauto.
Qed.

Lemma NoDup_keys_sign_entries p : NoDup (sign_entries p).*1.
Proof.
  rewrite sign_entries_perm.
  eapply sublist_NoDup; [apply (NoDup_fst_map_to_list p)|].
  apply fmap_sublist, sublist_filter.
Qed.

Lemma key_ordered_of_le (es : list (string * jsval)) :
  StronglySorted entry_le es -> NoDup es.*1 -> key_ordered es.
Proof.
  unfold key_ordered. induction 1 as [|x l Hl IH Hx]; intros Hnd; [constructor|].
  rewrite fmap_cons in Hnd. apply NoDup_cons in Hnd as [Hnotin Hnd].
  constructor; [by apply IH|].
  rewrite Forall_forall in Hx. apply Forall_forall. intros y Hy.
  apply entry_le_ne_lt; [by apply Hx|].
  intros Heq. apply Hnotin. rewrite Heq. by apply list_elem_of_fmap_2.
Qed.

Lemma key_ordered_sign_entries p : key_ordered (sign_entries p).
Proof.
  apply key_ordered_of_le; [|apply NoDup_keys_sign_entries].
  apply StronglySorted_merge_sort; apply _.
Qed.

Lemma key_ordered_NoDup {V} (es : list (string * V)) : key_ordered es -> NoDup es.
Proof.
  induction 1 as [|x l Hl IH Hx]; [constructor|].
  apply NoDup_cons. split; [|done].
  intros Hin. rewrite Forall_forall in Hx.
  exact (js_lt_irrefl _ (Hx _ Hin)).
Qed.

(** Two lists in key order with the same elements are the same list. *)
Lemma key_ordered_unique {V} (es es' : list (string * V)) :
  key_ordered es -> key_ordered es' -> (forall e, e ∈ es <-> e ∈ es') ->
  es = es'.
Proof.
  intros H1 H2 Hel.
  apply (StronglySorted_unique_strong
           (fun x y : string * V => js_lt x.1 y.1 = true) es es');
    [|done|done|].
  - intros x y _ _ Hxy Hyx. destruct (js_lt_asym _ _ Hxy Hyx).
  - apply NoDup_Permutation; auto using key_ordered_NoDup.
Qed.

Lemma key_ordered_fmap {V W} (f : string * V -> string * W)
    (es : list (string * V)) :
  (forall e, (f e).1 = e.1) -> key_ordered es -> key_ordered (f <$> es).
Proof.
  intros Hf. unfold key_ordered.
  induction 1 as [|x l Hl IH Hx]; [constructor|].
  rewrite fmap_cons. constructor; [done|].
  apply Forall_fmap. eapply Forall_impl; [exact Hx|].
  intros y Hy. cbn. by rewrite !Hf.
Qed.

(** With ASCII keys, key order is ascending byte order. *)
Lemma key_ordered_ascending {V} (es : list (string * V)) :
  Forall (fun e => ascii_only e.1 = true) es ->
  key_ordered es -> ascending es.
Proof.
  unfold key_ordered, ascending. intros Hascii.
  induction 1 as [|x l Hl IH Hx]; [constructor|].
  apply Forall_cons in Hascii as [Hx' Hl'].
  constructor; [by apply IH|].
  rewrite Forall_forall in Hx, Hl'. apply Forall_forall. intros y Hy.
  rewrite <- js_lt_ascii; [by apply Hx|done|by apply Hl'].
Qed.

(** The signed entries depend only on the properties other than [sign] and
    [sign_type]. *)
Lemma sign_entries_ext (p q : params) :
  (forall k, k <> "sign" -> k <> "sign_type" -> p !! k = q !! k) ->
  sign_entries p = sign_entries q.
Proof.
  intros Heq. apply key_ordered_unique; try apply key_ordered_sign_entries.
  intros [k v]. rewrite !elem_of_sign_entries. unfold signed.
  split; intros (Hl & ? & ? & ? & Hs & Ht); repeat split; try done.
  - by rewrite <- Heq.
  - by rewrite Heq.
Qed.

Lemma md5_hex_length s : String.length (md5_hex s) = 32%nat.
Proof.
  unfold md5_hex, MD5.md5_hex.
  destruct (MD5.digest (MD5.bytes_of_string s)) as [[[a b] c] d].
  reflexivity.
Qed.

Lemma generateSign_nonempty p key : generateSign p key <> "".
Proof.
  intros H. pose proof (md5_hex_length (buildSignString p +:+ key)) as Hl.
  unfold generateSign in H. rewrite H in Hl. discriminate.
Qed.

Lemma generateSign_ext (p q : params) key :
  (forall k, k <> "sign" -> k <> "sign_type" -> p !! k = q !! k) ->
  generateSign p key = generateSign q key.
Proof.
  intros H. unfold generateSign, buildSignString. by rewrite (sign_entries_ext p q).
Qed.

(** The signed entries with their values as strings. *)
Lemma elem_of_sign_entries_text p k s :
  (k, s) ∈ (fun e : string * jsval => (e.1, js_to_string e.2)) <$> sign_entries p
  <-> p !! k = Some (JStr s) /\ s <> "" /\ k <> "sign" /\ k <> "sign_type".
Proof.
  rewrite list_elem_of_fmap. split.
  - intros ([k0 v] & [= -> ->] & Hin). apply elem_of_sign_entries in Hin.
    destruct Hin as (Hl & Hne & Hnull & Hund & Hs & Ht).
    destruct v as [s| |]; [|done..]. cbn.
    repeat split; try done. by intros ->.
  - intros (Hl & Hne & Hs & Ht). exists (k, JStr s). split; [done|].
    apply elem_of_sign_entries. repeat split; try done. by intros [=].
Qed.

(** C7. [buildSignString] keeps exactly the properties that hold a
    non-empty string (not [null], not [undefined]) and whose key is neither
    [sign] nor [sign_type], and joins them as [key=value] with [&], in the
    order of JavaScript on the keys, which is that of their UTF-16 code
    units; the result is determined by the mapping alone: any list with
    these entries in this order is the one that is joined.  When the keys
    that are kept are ASCII, this is the ascending order of their
    bytes. *)
Theorem buildSignString_canonical (p : params) :
  exists es : list (string * string),
    buildSignString p
      = String.concat "&" ((fun e => e.1 +:+ "=" +:+ e.2) <$> es)
    /\ (forall k s, (k, s) ∈ es <->
          p !! k = Some (JStr s) /\ s <> "" /\ k <> "sign" /\ k <> "sign_type")
    /\ key_ordered es
    /\ (forall es' : list (string * string),
          (forall e, e ∈ es' <-> e ∈ es) -> key_ordered es' -> es' = es)
    /\ ((forall k s, (k, s) ∈ es -> ascii_only k = true) -> ascending es).
Proof.
  set (text := fun e : string * jsval => (e.1, js_to_string e.2)).
  assert (Hord : key_ordered (text <$> sign_entries p)).
  { apply key_ordered_fmap; [done|apply key_ordered_sign_entries]. }
  exists (text <$> sign_entries p). split.
  { unfold buildSignString. by rewrite <- list_fmap_compose. }
  split; [apply elem_of_sign_entries_text|].
  split; [exact Hord|].
  split.
  - intros es' Hel Hs. by apply key_ordered_unique.
  - intros Hascii. apply key_ordered_ascending; [|exact Hord].
    apply Forall_forall. intros [k s] Hin. by apply (Hascii k s).
Qed.

Lemma verifySign_iff (p : params) (key : string) (v : jsval) :
  p !! "sign" = Some v ->
  (verifySign p key = true <-> v = JStr (generateSign p key)).
Proof.
  intros Hv. unfold verifySign, prop. rewrite Hv. simpl.
  destruct v as [s| |]; simpl; [|split; discriminate..].
  destruct (String.eqb_spec s "") as [->|Hne]; simpl.
  - split; [discriminate|]. intros [=H]. symmetry in H.
    by apply generateSign_nonempty in H.
  - rewrite String.eqb_eq. split; [by intros ->|by intros [=]].
Qed.

(** C6. [verifySign] is false when the object has no [sign]; when it has
    one, the result is true exactly when that value is the string
    [generateSign] computes from the same object and key, and this string
    does not depend on the [sign] property; an object to which its own
    signature is added verifies. *)
Theorem verifySign_correct (p : params) (key : string) :
  (p !! "sign" = None -> verifySign p key = false)
  /\ (forall v, p !! "sign" = Some v ->
        (verifySign p key = true <-> v = JStr (generateSign p key)))
  /\ generateSign p key = generateSign (delete "sign" p) key
  /\ verifySign (<["sign" := JStr (generateSign p key)]> p) key = true.
Proof.
  split; [|split; [|split]].
  - intros Hn. unfold verifySign, prop. by rewrite Hn.
  - apply verifySign_iff.
  - apply generateSign_ext. intros k Hk _. by rewrite lookup_delete_ne.
  - apply (verifySign_iff _ _ (JStr (generateSign p key)));
      [apply lookup_insert_eq|].
    f_equal. apply generateSign_ext. intros k Hk _. by rewrite lookup_insert_ne.
Qed.

(** C10. [verifySign] is false for every key when [sign] is missing,
    [undefined], [null] or the empty string, and so is the same body with
    any other way of recomputing the signature in place of
    [generateSign]: the answer is given before the signature is looked
    at. *)
Theorem verifySign_fails_closed (p : params) (key : string) :
  p !! "sign" = None \/ p !! "sign" = Some JUndefined
  \/ p !! "sign" = Some JNull \/ p !! "sign" = Some (JStr "") ->
  verifySign p key = false
  /\ forall recompute, verifySign_with recompute p key = false.
Proof.
  intros H. unfold verifySign, verifySign_with, prop.
  destruct H as [-> | [-> | [-> | ->]]]; by split.
Qed.

(* ===================================================================== *)
(** * Properties of the order-number generator *)
(* ===================================================================== *)

Lemma field_of_fieldb s w n : fieldb s w n = true -> field s w n.
Proof.
  unfold fieldb, field. rewrite andb_true_iff, !bool_decide_eq_true. tauto.
Qed.

Lemma field_on_range (f : Z -> string) (w : nat) (lo len : Z) :
  forallb (fun n => fieldb (f n) w n) (seqZ lo len) = true ->
  forall n, lo <= n < lo + len -> field (f n) w n.
Proof.
  intros H n Hn. apply field_of_fieldb.
  rewrite forallb_forall in H. apply H.
  apply list_elem_of_In, elem_of_seqZ. lia.
Qed.

Lemma pad2_field n : 0 <= n <= 99 -> field (pad2 n) 2 n.
Proof.
  intros Hn. apply (field_on_range pad2 2 0 100); [|lia].
  vm_compute. reflexivity.
Qed.

Lemma year_field n : 1000 <= n <= 9999 -> field (String_of_Z n) 4 n.
Proof.
  intros Hn. apply (field_on_range String_of_Z 4 1000 9000); [|lia].
  vm_compute. reflexivity.
Qed.

Lemma suffix_field n : 100 <= n <= 999 -> field (String_of_Z n) 3 n.
Proof.
  intros Hn. apply (field_on_range String_of_Z 3 100 900); [|lia].
  vm_compute. reflexivity.
Qed.

Lemma div_half_even_bounds n d :
  0 <= n -> 0 < d ->
  n / d <= div_half_even n d <= n / d + 1
  /\ (div_half_even n d = n / d + 1 -> d <= 2 * (n mod d)).
Proof.
  intros Hn Hd. unfold div_half_even.
  destruct (2 * (n mod d) <? d) eqn:E1; [lia|].
  apply Z.ltb_ge in E1.
  destruct (d <? 2 * (n mod d)) eqn:E2; [lia|].
  destruct (Z.even (n / d)); lia.
Qed.

(** A quotient of at most 900 - 900 * 2^-53 lies more than half a unit in
    the last place below 900, so its double is below 900 too. *)
Lemma round_binary64_pos_below_900 n d :
  0 < n -> 0 < d ->
  n * 2 ^ 53 <= (900 * 2 ^ 53 - 900) * d ->
  exists q, round_binary64_pos n d = Finite q /\ 0 <= Qfloor q <= 899.
Proof.
  intros Hn Hd Hle.
  assert (Hlt : n < 900 * d).
  { apply Z.mul_lt_mono_pos_r with (2 ^ 53); [lia|]. nia. }
  pose proof (Z.log2_spec n Hn) as [Hn1 Hn2].
  pose proof (Z.log2_spec d Hd) as [Hd1 Hd2].
  pose proof (Z.log2_nonneg n) as Hln. pose proof (Z.log2_nonneg d) as Hld.
  unfold round_binary64_pos.
  set (e0 := Z.log2 n - Z.log2 d).
  assert (He0 : e0 <= 10).
  { assert (Z.log2 n < Z.log2 d + 11); [|lia].
    apply Z.log2_lt_pow2; [done|].
    replace (Z.log2 d + 11) with (Z.succ (Z.log2 d) + 10) by lia.
    rewrite Z.pow_add_r by lia. change (2 ^ 10) with 1024. nia. }
  set (above := if 0 <=? e0 then d * 2 ^ e0 <=? n else d <=? n * 2 ^ (- e0)).
  set (ex := if above then e0 else e0 - 1).
  assert (Hex : ex <= 9).
  { subst ex. destruct above eqn:Ha; [|lia].
    destruct (decide (e0 = 10)) as [E|]; [|lia].
    subst above. rewrite E in Ha. simpl in Ha.
    apply Z.leb_le in Ha. change (2 ^ 10) with 1024 in Ha. lia. }
  set (e := Z.max ex (-1022) - 52).
  assert (He : e <= -43) by lia.
  destruct (0 <=? e) eqn:E0; [apply Z.leb_le in E0; lia|].
  set (K := 2 ^ (- e)).
  assert (HK : 2 ^ 43 <= K).
  { subst K. apply Z.pow_le_mono_r; lia. }
  assert (HKpos : 0 < K) by lia.
  set (m := div_half_even (n * K) d).
  destruct (div_half_even_bounds (n * K) d ltac:(nia) Hd) as [[Hm1 Hm2] Hm3].
  fold m in Hm1, Hm2, Hm3.
  pose proof (Z.div_mod (n * K) d ltac:(lia)) as Hdm.
  pose proof (Z.mod_pos_bound (n * K) d Hd) as Hmod.
  assert (Hq0 : 0 <= n * K / d) by (apply Z.div_pos; nia).
  assert (Hm : m < 900 * K).
  { destruct (decide (m = n * K / d + 1)) as [Hup|Hno].
    - specialize (Hm3 Hup).
      apply Z.mul_lt_mono_pos_r with (2 * 2 ^ 53 * d); [lia|].
      assert (2 * ((n * K / d + 1) * d) <= 2 * (n * K) + d) by lia.
      assert (2 ^ 53 * (n * K) <= (900 * 2 ^ 53 - 900) * d * K) by nia.
      assert (2 ^ 53 < 1800 * K) by lia.
      rewrite Hup. nia.
    - assert (m = n * K / d) by lia.
      apply Z.mul_lt_mono_pos_r with d; [lia|]. nia. }
  eexists. split; [reflexivity|].
  rewrite (Qfloor_comp _ _ (Qred_correct _)).
  unfold Qfloor.
  replace (Z.pos (Z.to_pos K)) with K by (rewrite Z2Pos.id; lia).
  split.
  - apply Z.div_pos; lia.
  - assert (m / K < 900); [|lia]. apply Z.div_lt_upper_bound; lia.
Qed.

Lemma rand_suffix_range r : random_draw r -> 100 <= rand_suffix r <= 999.
Proof.
  intros [H0 H1]. unfold rand_suffix, number_mul.
  destruct r as [n d]. unfold Qle in H0, H1. cbn [Qnum Qden] in H0, H1.
  change (Qnum ((n # d) * 900)) with (n * 900).
  change (Qden ((n # d) * 900)) with (d * 1)%positive.
  rewrite Pos.mul_1_r. unfold round_binary64.
  destruct (n * 900) as [|pn|pn] eqn:En;
    [vm_compute; split; discriminate| |lia].
  destruct (round_binary64_pos_below_900 (Z.pos pn) (Z.pos d))
    as (q & -> & Hq); [lia|lia| |lia].
  rewrite <- En. lia.
Qed.

Lemma length_append (s t : string) :
  String.length (s +:+ t) = (String.length s + String.length t)%nat.
Proof. induction s as [|c s IH]; simpl; [done|]. by rewrite IH. Qed.

Lemma append_assoc (s t u : string) : (s +:+ t) +:+ u = s +:+ t +:+ u.
Proof.
  induction s as [|c s IH]; [done|].
  change (String c ((s +:+ t) +:+ u) = String c (s +:+ t +:+ u)). by rewrite IH.
Qed.

Lemma all_digits_append (s t : string) :
  all_digits (s +:+ t) = all_digits s && all_digits t.
Proof.
  unfold all_digits. induction s as [|c s IH]; simpl; [done|].
  by rewrite IH, andb_assoc.
Qed.

Lemma field_all_digits s w n : field s w n -> all_digits s = true.
Proof.
  intros [_ H]. unfold decimal in H.
  destruct (all_digits s); [done|discriminate].
Qed.

(** C9. For a clock reading with a year of four digits and a draw of
    [Math.random()], [generateOrderNo] returns the year as it prints,
    then month (counted from 1), day, hours, minutes and seconds on two
    digits each, then a number between 100 and 999: seventeen digits.
    The year is printed as it is, without padding. *)
Theorem generateOrderNo_format (d : Date) (r : Q) :
  calendar d -> random_draw r ->
  generateOrderNo d r
    = String_of_Z (getFullYear d) +:+ pad2 (getMonth d + 1) +:+ pad2 (getDate d)
      +:+ pad2 (getHours d) +:+ pad2 (getMinutes d) +:+ pad2 (getSeconds d)
      +:+ String_of_Z (rand_suffix r)
  /\ field (String_of_Z (getFullYear d)) 4 (getFullYear d)
  /\ field (pad2 (getMonth d + 1)) 2 (getMonth d + 1)
  /\ field (pad2 (getDate d)) 2 (getDate d)
  /\ field (pad2 (getHours d)) 2 (getHours d)
  /\ field (pad2 (getMinutes d)) 2 (getMinutes d)
  /\ field (pad2 (getSeconds d)) 2 (getSeconds d)
  /\ 100 <= rand_suffix r <= 999
  /\ field (String_of_Z (rand_suffix r)) 3 (rand_suffix r)
  /\ String.length (generateOrderNo d r) = 17%nat
  /\ all_digits (generateOrderNo d r) = true.
Proof.
  intros [Hy Hm Hd Hh Hmi Hs] Hdraw.
  pose proof (rand_suffix_range r Hdraw) as Hr.
  pose proof (year_field _ Hy) as Fy.
  pose proof (pad2_field (getMonth d + 1) ltac:(lia)) as Fm.
  pose proof (pad2_field (getDate d) ltac:(lia)) as Fd.
  pose proof (pad2_field (getHours d) ltac:(lia)) as Fh.
  pose proof (pad2_field (getMinutes d) ltac:(lia)) as Fmi.
  pose proof (pad2_field (getSeconds d) ltac:(lia)) as Fs.
  pose proof (suffix_field _ Hr) as Fr.
  assert (Heq : generateOrderNo d r
    = String_of_Z (getFullYear d) +:+ pad2 (getMonth d + 1) +:+ pad2 (getDate d)
      +:+ pad2 (getHours d) +:+ pad2 (getMinutes d) +:+ pad2 (getSeconds d)
      +:+ String_of_Z (rand_suffix r)).
  { unfold generateOrderNo, pad2.
    generalize (String_of_Z (getFullYear d)) (String_of_Z (rand_suffix r)).
    generalize (padStart (String_of_Z (getMonth d + 1)) 2 "0")
      (padStart (String_of_Z (getDate d)) 2 "0")
      (padStart (String_of_Z (getHours d)) 2 "0")
      (padStart (String_of_Z (getMinutes d)) 2 "0")
      (padStart (String_of_Z (getSeconds d)) 2 "0").
    intros a b c e f y z. cbv zeta.
    rewrite !append_assoc. reflexivity. }
  repeat (split; [done|]). split.
  - rewrite Heq, !length_append.
    rewrite (proj1 Fy), (proj1 Fm), (proj1 Fd), (proj1 Fh), (proj1 Fmi),
      (proj1 Fs), (proj1 Fr). reflexivity.
  - rewrite Heq, !all_digits_append.
    rewrite (field_all_digits _ _ _ Fy), (field_all_digits _ _ _ Fm),
      (field_all_digits _ _ _ Fd), (field_all_digits _ _ _ Fh),
      (field_all_digits _ _ _ Fmi), (field_all_digits _ _ _ Fs),
      (field_all_digits _ _ _ Fr). reflexivity.
Qed.

(** The year is not padded and not cut: in year 10000 the order number has
    eighteen digits, in year 999 it has sixteen. *)
Lemma generateOrderNo_year_not_fixed_width :
  generateOrderNo (mkDate 10000 0 1 0 0 0) 0 = "100000101000000100"
  /\ String.length (generateOrderNo (mkDate 10000 0 1 0 0 0) 0) = 18%nat
  /\ generateOrderNo (mkDate 999 11 31 23 59 59) (1 # 2) = "9991231235959550"
  /\ String.length (generateOrderNo (mkDate 999 11 31 23 59 59) (1 # 2)) = 16%nat.
Proof. vm_compute. repeat split; reflexivity. Qed.

(* ===================================================================== *)
(** * Properties of the webhook *)
(* ===================================================================== *)

Ltac webhook_to_lookup Hacc :=
  destruct Hacc as [Hkey Hsign Hpaid Hclient];
  unfold webhook; rewrite Hkey, Hsign, Hpaid, Hclient;
  cbn [negb run statements].

(** C4. When a notification passes the checks made before the table is
    read and the order it names is stored with a status other than
    [pending], the webhook answers [success]; the lookup is its only
    statement (no update is sent, whatever the amount it reports) and the
    table is left as it was. *)
Theorem webhook_duplicate_acknowledged (o : oracle) (env : Env)
    (query : params) (w : world) (order : Order) :
  accepted env query ->
  fault o (tick w) = false ->
  table w !! notified query = Some order ->
  order_status order <> pending ->
  run o (webhook env query) w = (Send 200 "success", next w)
  /\ statements o (webhook env query) w = [SqlSelect (notified query)]
  /\ table (run o (webhook env query) w).2 = table w.
Proof.
  intros Hacc Hfault Hlook Hst.
  assert (Hrun : run o (webhook env query) w = (Send 200 "success", next w)).
  { webhook_to_lookup Hacc. unfold exec_select, db_select.
    fold (notified query). rewrite Hfault, Hlook. cbn [error data].
    rewrite bool_decide_eq_false_2 by done. reflexivity. }
  split; [done|]. split; [|by rewrite Hrun].
  webhook_to_lookup Hacc. unfold exec_select, db_select.
  fold (notified query). rewrite Hfault, Hlook. cbn [error data].
  rewrite bool_decide_eq_false_2 by done. reflexivity.
Qed.

(** C5. When a notification passes the checks made before the table is
    read and names a stored [pending] order, the amount it reports and the
    stored amount are compared as the numbers [parseFloat] reads from
    them: when these differ the webhook answers [amount mismatch] without
    sending an update, so the table stays as it was; when they are equal
    the update to [paid] is sent. *)
Theorem webhook_amount_check (o : oracle) (env : Env) (query : params)
    (w : world) (order : Order) :
  accepted env query ->
  fault o (tick w) = false ->
  table w !! notified query = Some order ->
  order_status order = pending ->
  (number_neq (parseFloat (prop query "money"))
     (round_binary64 (amount order) 100) = true ->
   run o (webhook env query) w = (Send 400 "amount mismatch", next w)
   /\ statements o (webhook env query) w = [SqlSelect (notified query)])
  /\ (number_neq (parseFloat (prop query "money"))
        (round_binary64 (amount order) 100) = false ->
      statements o (webhook env query) w
        = [SqlSelect (notified query);
           SqlUpdate (pay_patch query (clock o (S (tick w))))
             (notified query) pending]).
Proof.
  intros Hacc Hfault Hlook Hst.
  split; intros Hneq.
  - split; webhook_to_lookup Hacc; unfold exec_select, db_select;
      fold (notified query); rewrite Hfault, Hlook; cbn [error data];
      rewrite bool_decide_eq_true_2 by done; cbn [negb];
      unfold amount_number; rewrite Hneq; reflexivity.
  - webhook_to_lookup Hacc. unfold exec_select, db_select.
    fold (notified query). rewrite Hfault, Hlook. cbn [error data].
    rewrite bool_decide_eq_true_2 by done. cbn [negb].
    unfold amount_number. rewrite Hneq. cbn [statements next tick].
    unfold exec_update. cbn [tick next].
    destruct (fault o (S (S (tick w)))); reflexivity.
Qed.

(** After the webhook has read its order as [pending] with the reported
    amount, its update is sent with the filter on [pending]; whether or not
    the update finds the order still [pending], the answer is [success]. *)
Lemma webhook_after_pending_read (env : Env) (query : params)
    (t t2 : orders) (order : Order) (d db_now : Date) :
  accepted env query ->
  t !! notified query = Some order ->
  order_status order = pending ->
  number_neq (parseFloat (prop query "money"))
    (round_binary64 (amount order) 100) = false ->
  exists a1 a2 a3,
    thread_step t (webhook env query) t a1
    /\ thread_step t2 a1 t2 a2
    /\ thread_step t2 a2
         (db_update t2 (pay_patch query d) (notified query) pending db_now) a3
    /\ a3 = Done (Send 200 "success").
Proof.
  intros [Hkey Hsign Hpaid Hclient] Hlook Hst Hneq.
  unfold webhook. rewrite Hkey, Hsign, Hpaid, Hclient. cbn [negb].
  fold (notified query).
  eexists _, _, _. split; [apply step_select|].
  unfold db_select. rewrite Hlook. cbn [error data].
  rewrite bool_decide_eq_true_2 by done. cbn [negb].
  unfold amount_number. rewrite Hneq.
  split; [apply (step_now _ _ d)|].
  split; [apply (step_update _ _ _ _ _ db_now)|reflexivity].
Qed.

(** C3. Run alone, the webhook answers [success] except in the cases of
    [webhook_rejects], and in each of those it answers something else.
    Among other requests, once it has read its order as [pending] with the
    reported amount, it sends its update and answers [success] whether or
    not the update still finds the order [pending]. *)
Theorem webhook_success_iff (o : oracle) (env : Env) (query : params)
    (w : world) :
  ((run o (webhook env query) w).1 = Send 200 "success"
   <-> ~ webhook_rejects o env query w)
  /\ (forall (t t2 : orders) (order : Order) (d db_now : Date),
        accepted env query ->
        t !! notified query = Some order ->
        order_status order = pending ->
        number_neq (parseFloat (prop query "money"))
          (round_binary64 (amount order) 100) = false ->
        exists a1 a2 a3,
          thread_step t (webhook env query) t a1
          /\ thread_step t2 a1 t2 a2
          /\ thread_step t2 a2
               (db_update t2 (pay_patch query d) (notified query) pending
                  db_now) a3
          /\ a3 = Done (Send 200 "success")).
Proof.
  split; [|intros t t2 order d db_now Hacc Hlook Hst Hneq;
            exact (webhook_after_pending_read env query t t2 order d db_now
                     Hacc Hlook Hst Hneq)].
  unfold webhook_rejects, webhook.
  destruct (truthy (env_value (ZPAY_KEY env))) eqn:Hkey; cbn [negb run fst];
    [|split; [discriminate|intros H; destruct H; naive_solver]].
  destruct (verifySign query _) eqn:Hsign; cbn [negb run fst];
    [|split; [discriminate|intros H; destruct H; naive_solver]].
  destruct (strict_eq_str (prop query "trade_status") _) eqn:Hpaid;
    cbn [negb run fst];
    [|split; [intros _ [?|[?|[? _]]]; congruence|done]].
  destruct (createServerAdminClient env) eqn:Hclient; cbn [negb run fst];
    [|split; [discriminate|intros H; destruct H; naive_solver]].
  unfold exec_select, db_select. fold (notified query).
  destruct (fault o (tick w)) eqn:Hfault; cbn [error data run fst];
    [split; [discriminate|intros H; destruct H; naive_solver]|].
  destruct (table w !! notified query) as [order|] eqn:Hlook;
    cbn [error data run fst];
    [|split; [discriminate|intros H; destruct H; naive_solver]].
  destruct (decide (order_status order = pending)) as [Hst|Hst].
  2:{ rewrite bool_decide_eq_false_2 by done. cbn [negb run fst].
      split; [|done]. intros _ [?|[?|[_ [?|[?|[?|(o' & ? & ? & _)]]]]]];
        try congruence. }
  rewrite bool_decide_eq_true_2 by done. cbn [negb]. unfold amount_number.
  destruct (number_neq _ _) eqn:Hneq; cbn [run fst].
  { split; [discriminate|]. intros H. destruct H.
    do 2 right. split; [done|]. do 3 right. exists order. auto. }
  unfold exec_update. cbn [next tick].
  destruct (fault o (S (S (tick w)))) eqn:Hfault2; cbn [run fst].
  { split; [discriminate|]. intros H. destruct H.
    do 2 right. split; [done|]. do 3 right. exists order. auto. }
  split; [|done]. intros _ [?|[?|[_ [?|[?|[?|(o' & Ho' & _ & [?|?])]]]]]];
    congruence.
Qed.

(* ===================================================================== *)
(** * Properties of the checkout *)
(* ===================================================================== *)

(** C8. When the insert of the checkout fails, because the generated
    order number is already in the table or because the backend fails,
    the request ends at once with the 500 answer: one order number was
    generated (one clock reading, one draw), one insert was sent, nothing
    is generated or sent again, and the table is as it was. *)
Theorem checkout_fails_without_retry (o : oracle) (env : Env)
    (body : params) (w : world) :
  orderable env body ->
  is_Some (table w !! generateOrderNo (clock o (tick w)) (draw o (S (tick w))))
  \/ fault o (S (S (tick w))) = true ->
  run o (checkout_url env body) w
    = (JsonError 500 "创建订单失败，请稍后重试",
       mkWorld (table w) (S (S (S (tick w)))))
  /\ statements o (checkout_url env body) w
     = [SqlInsert
          (new_order body
             (generateOrderNo (clock o (tick w)) (draw o (S (tick w)))))].
Proof.
  intros [Huid Hpay [[[pid key] baseUrl] Hcfg] Hclient] Hfail.
  unfold checkout_url. fold (chosen_pay_type body).
  rewrite Huid, Hpay, Hcfg, Hclient. cbn [negb run statements].
  unfold exec_insert, next. cbn [tick table].
  destruct (fault o (S (S (tick w)))) eqn:Hfault; [split; reflexivity|].
  destruct Hfail as [[old Hold]|?]; [|done].
  unfold db_insert. cbn [new_out_trade_no]. rewrite Hold.
  split; reflexivity.
Qed.

(* ===================================================================== *)
(** * The status of an order only moves forward *)
(* ===================================================================== *)

Lemma request_safe a : request a -> safe a.
Proof.
  destruct 1; unfold checkout_url, webhook, analyze;
    repeat first
      [ apply safe_Done
      | apply safe_Now; intros ?
      | apply safe_Random; intros ?
      | apply safe_Select; intros ?
      | apply safe_Update; [by constructor|intros ?]
      | apply safe_Insert; [reflexivity|intros ?]
      | case_match ].
Qed.

Lemma one_step_le s s' : one_step s s' -> status_le s s'.
Proof.
  unfold status_le. intros [->|[[-> ->]|[-> ->]]]; simpl; lia.
Qed.

Lemma evolves_refl (R : status -> status -> Prop) t :
  (forall s, R s s) -> evolves R t t.
Proof. intros HR no o Ho. exists o. auto. Qed.

Lemma evolves_trans (R : status -> status -> Prop) t1 t2 t3 :
  (forall a b c, R a b -> R b c -> R a c) ->
  evolves R t1 t2 -> evolves R t2 t3 -> evolves R t1 t3.
Proof.
  intros HR H12 H23 no o Ho.
  destruct (H12 no o Ho) as (o2 & Ho2 & Hn2 & Ha2 & Hs2).
  destruct (H23 no o2 Ho2) as (o3 & Ho3 & Hn3 & Ha3 & Hs3).
  exists o3. repeat split; [done|congruence|congruence|eauto].
Qed.

Lemma db_update_evolves t pt no expected db_now :
  guarded pt expected ->
  evolves one_step t (db_update t pt no expected db_now).
Proof.
  intros Hg no' o Ho. unfold db_update.
  destruct (t !! no) as [old|] eqn:Hold; [|exists o; unfold one_step; auto].
  destruct (decide (order_status old = expected)) as [Hst|Hst];
    [|exists o; unfold one_step; auto].
  destruct (decide (no = no')) as [<-|Hne].
  - assert (old = o) by congruence. subst old.
    exists (apply_patch pt db_now o). rewrite lookup_insert_eq.
    repeat split; try done. unfold one_step. simpl.
    destruct Hg as [? ->| ? ->]; rewrite Hst; auto.
  - exists o. rewrite lookup_insert_ne by done. unfold one_step. auto.
Qed.

Lemma db_insert_evolves t row db_now :
  evolves one_step t (db_insert t row db_now).1.
Proof.
  intros no o Ho. unfold db_insert.
  destruct (t !! new_out_trade_no row) eqn:Hold;
    [exists o; unfold one_step; auto|].
  destruct (to_decimal_10_2 (new_amount row));
    [|exists o; unfold one_step; auto].
  exists o. simpl. rewrite lookup_insert_ne by congruence.
  unfold one_step. auto.
Qed.

Lemma db_update_created t pt no expected db_now :
  created_pending t (db_update t pt no expected db_now).
Proof.
  intros no' o Hn Ho. unfold db_update in Ho.
  destruct (t !! no) as [old|] eqn:Hold; [|congruence].
  destruct (decide (order_status old = expected)); [|congruence].
  rewrite lookup_insert_ne in Ho by congruence. congruence.
Qed.

Lemma db_insert_created t row db_now :
  new_status row = pending -> created_pending t (db_insert t row db_now).1.
Proof.
  intros Hrow no o Hn Ho. unfold db_insert in Ho.
  destruct (t !! new_out_trade_no row) eqn:Hold; [simpl in Ho; congruence|].
  destruct (to_decimal_10_2 (new_amount row)); [|simpl in Ho; congruence].
  simpl in Ho. destruct (decide (new_out_trade_no row = no)) as [<-|Hne].
  - rewrite lookup_insert_eq in Ho. by inv Ho.
  - rewrite lookup_insert_ne in Ho by done. congruence.
Qed.

Lemma created_pending_refl t : created_pending t t.
Proof. intros no o Hn Ho. congruence. Qed.

Lemma thread_step_safe {A} t (a : action A) t' a' :
  safe a -> thread_step t a t' a' ->
  safe a' /\ evolves one_step t t' /\ created_pending t t'.
Proof.
  intros Hs Hstep.
  destruct Hstep; inv Hs; (split; [auto|split]);
    auto using db_update_evolves, db_insert_evolves, db_update_created,
      db_insert_created, created_pending_refl;
    by apply evolves_refl; unfold one_step; auto.
Qed.

Lemma system_step_safe s s' :
  Forall safe s.2 -> system_step s s' ->
  Forall safe s'.2 /\ evolves one_step s.1 s'.1 /\ created_pending s.1 s'.1.
Proof.
  intros Hpool Hstep. destruct Hstep as [t pool i a t' a' Hi Ha]. simpl in *.
  assert (safe a) as Hsafe.
  { rewrite Forall_forall in Hpool. apply Hpool. by eapply list_elem_of_lookup_2. }
  destruct (thread_step_safe _ _ _ _ Hsafe Ha) as (Ha' & Hev & Hnew).
  split; [by apply Forall_insert|done].
Qed.

Lemma status_le_trans a b c : status_le a b -> status_le b c -> status_le a c.
Proof. unfold status_le. lia. Qed.

Lemma system_steps_safe s s' :
  Forall safe s.2 -> rtc system_step s s' ->
  Forall safe s'.2 /\ evolves status_le s.1 s'.1.
Proof.
  intros Hpool Hsteps. induction Hsteps as [s|s1 s2 s3 H12 H23 IH].
  - split; [done|]. apply evolves_refl. unfold status_le. lia.
  - destruct (system_step_safe _ _ Hpool H12) as (Hpool2 & Hev & _).
    destruct (IH Hpool2) as [Hpool3 Hev3]. split; [done|].
    apply evolves_trans with s2.1; [apply status_le_trans| |done].
    intros no o Ho. destruct (Hev no o Ho) as (o' & ? & ? & ? & ?).
    exists o'. auto using one_step_le.
Qed.

(** An order seen [pending] and later [analyzed] was [paid] in between. *)
Lemma paid_in_between s s' no o o' :
  Forall safe s.2 -> rtc system_step s s' ->
  s.1 !! no = Some o -> order_status o = pending ->
  s'.1 !! no = Some o' -> order_status o' = analyzed ->
  exists sm om,
    rtc system_step s sm /\ rtc system_step sm s'
    /\ sm.1 !! no = Some om /\ order_status om = paid.
Proof.
  intros Hpool Hsteps. revert o.
  induction Hsteps as [s|s1 s2 s3 H12 H23 IH]; intros o Ho Hpending Ho' Han.
  - congruence.
  - destruct (system_step_safe _ _ Hpool H12) as (Hpool2 & Hev & _).
    destruct (Hev no o Ho) as (o2 & Ho2 & _ & _ & Hone).
    destruct Hone as [Heq|[[_ Hpaid]|[Hc _]]]; [| |congruence].
    + destruct (IH Hpool2 o2 Ho2 ltac:(congruence) Ho' Han)
        as (sm & om & Hsm & Hsm' & Hom & Hpaid).
      exists sm, om. split; [by eapply rtc_l|done].
    + exists s2, o2. split; [by apply rtc_once|done].
Qed.

(** C1. In every run of requests in flight together, whatever they carry
    and however their statements interleave, and between any two states
    the run goes through: an order that is stored stays stored and its
    status never goes back; a single statement leaves the status of a
    stored order as it is or moves it from [pending] to [paid] or from
    [paid] to [analyzed], and an order it creates is [pending]; and an
    order that was [pending] and is found [analyzed] was [paid] at a state
    in between. *)
Theorem status_moves_forward (t : orders) (pool : list (action response))
    (s1 s2 : system) :
  Forall request pool ->
  rtc system_step (t, pool) s1 ->
  rtc system_step s1 s2 ->
  (forall no o, s1.1 !! no = Some o ->
     exists o', s2.1 !! no = Some o'
                /\ status_le (order_status o) (order_status o'))
  /\ (forall s3, system_step s2 s3 ->
      (forall no o, s2.1 !! no = Some o ->
         exists o', s3.1 !! no = Some o'
                    /\ one_step (order_status o) (order_status o'))
      /\ (forall no o, s2.1 !! no = None -> s3.1 !! no = Some o ->
            order_status o = pending))
  /\ (forall no o o',
        s1.1 !! no = Some o -> order_status o = pending ->
        s2.1 !! no = Some o' -> order_status o' = analyzed ->
        exists sm om,
          rtc system_step s1 sm /\ rtc system_step sm s2
          /\ sm.1 !! no = Some om /\ order_status om = paid).
Proof.
  intros Hreq Hsteps1 Hsteps2.
  assert (Hpool : Forall safe (t, pool).2).
  { simpl. eapply Forall_impl; [exact Hreq|]. apply request_safe. }
  destruct (system_steps_safe _ _ Hpool Hsteps1) as [Hpool1 _].
  destruct (system_steps_safe _ _ Hpool1 Hsteps2) as [Hpool2 Hev].
  split; [|split].
  - intros no o Ho. destruct (Hev no o Ho) as (o' & ? & _ & _ & ?). eauto.
  - intros s3 Hstep.
    destruct (system_step_safe _ _ Hpool2 Hstep) as (_ & Hev' & Hnew).
    split; [|exact Hnew].
    intros no o Ho. destruct (Hev' no o Ho) as (o' & ? & _ & _ & ?). eauto.
  - intros no o o' Ho Hp Ho' Ha.
    exact (paid_in_between _ _ no o o' Hpool1 Hsteps2 Ho Hp Ho' Ha).
Qed.

(* ===================================================================== *)
(** * Schedules: interleavings that can be computed *)
(* ===================================================================== *)

Lemma thread_exec_sound {A} t (a : action A) c t' a' :
  thread_exec t a c = Some (t', a') -> thread_step t a t' a'.
Proof.
  destruct a, c; simpl; intros H; try discriminate.
  - inv H. constructor.
  - destruct (random_drawb r) eqn:Hr; inv H.
    unfold random_drawb in Hr. apply andb_true_iff in Hr as [H0 H1].
    apply Qle_bool_iff in H0, H1. by constructor.
  - inv H. constructor.
  - inv H. constructor.
  - inv H. constructor.
  - inv H. constructor.
  - inv H. constructor.
  - inv H. constructor.
Qed.

Lemma schedule_sound sch s s' : schedule s sch = Some s' -> rtc system_step s s'.
Proof.
  revert s. induction sch as [|[i c] rest IH]; intros [t pool]; simpl.
  - intros [= <-]. apply rtc_refl.
  - destruct (pool !! i) as [a|] eqn:Hi; [|discriminate].
    destruct (thread_exec t a c) as [[t' a']|] eqn:Ha; [|discriminate].
    intros H. eapply rtc_l; [|by apply IH].
    by apply step_thread with a; [|apply thread_exec_sound with c].
Qed.

(* ===================================================================== *)
(** * The scenario, run *)
(* ===================================================================== *)

Example scenario_checkout :
  run Scenario.calm (checkout_url Scenario.env Scenario.cart) (mkWorld ∅ 0)
  = (JsonCheckout
       "https://zpayz.cn/submit.php?pid=1001&name=%E9%A2%9C%E7%A9%B6%E9%99%A2%E9%A2%9C%E5%80%BC%E5%88%86%E6%9E%90&money=0.50&out_trade_no=20260219120000123&notify_url=https%3A%2F%2Fx.test%2Fapi%2Fcheckout%2Fproviders%2Fzpay%2Fwebhook&return_url=https%3A%2F%2Fx.test&type=alipay&sign=075e3e695493911a9b6b49f1835cc7ee&sign_type=MD5"
       Scenario.order_no,
     mkWorld Scenario.t_pending 3).
Proof. vm_compute. reflexivity. Qed.

Example scenario_webhook_twice :
  run Scenario.calm (webhook Scenario.env (Scenario.notification "0.50"))
    (mkWorld Scenario.t_pending 0)
  = (Send 200 "success", mkWorld Scenario.t_paid 3)
  /\ run Scenario.calm (webhook Scenario.env (Scenario.notification "0.50"))
       (mkWorld Scenario.t_paid 3)
     = (Send 200 "success", mkWorld Scenario.t_paid 4).
Proof. vm_compute. split; reflexivity. Qed.

Example scenario_analyze_twice :
  run Scenario.calm (analyze Scenario.env Scenario.upload)
    (mkWorld Scenario.t_paid 0)
  = (ContinueToAnalysis, mkWorld Scenario.t_analyzed 3)
  /\ run Scenario.calm (analyze Scenario.env Scenario.upload)
       (mkWorld Scenario.t_analyzed 3)
     = (JsonError 409 "该订单已使用，每次支付仅可分析一次",
        mkWorld Scenario.t_analyzed 4).
Proof. vm_compute. split; reflexivity. Qed.

(* ===================================================================== *)
(** * The payment check of the analysis *)
(* ===================================================================== *)

(** X13. With no other request in between and a backend that answers, the
    payment check gives 404 for an unknown order, 409 for an [analyzed]
    one, 402 for a [pending] one, and lets a [paid] one through after
    marking it [analyzed]. *)
Lemma analyze_alone (o : oracle) (env : Env) (body : params) (w : world) :
  gated env body ->
  fault o (tick w) = false ->
  fault o (S (S (tick w))) = false ->
  match table w !! presented body with
  | None =>
      run o (analyze env body) w
      = (JsonError 404 "订单不存在，请重新支付", next w)
  | Some order =>
      match order_status order with
      | analyzed =>
          run o (analyze env body) w
          = (JsonError 409 "该订单已使用，每次支付仅可分析一次", next w)
      | pending =>
          run o (analyze env body) w
          = (JsonError 402 "订单尚未完成支付，请先支付 ¥0.50", next w)
      | paid =>
          run o (analyze env body) w
          = (ContinueToAnalysis,
             mkWorld
               (<[presented body :=
                    apply_patch (consume_patch (clock o (S (tick w))))
                      (clock o (S (S (tick w)))) order]> (table w))
               (S (S (S (tick w)))))
      end
  end.
Proof.
  intros [Himg Hreq Hno Hclient] Hf1 Hf2.
  unfold analyze. rewrite Himg, Hreq, Hno, Hclient. cbn [negb run].
  unfold exec_select, db_select. fold (presented body). rewrite Hf1.
  destruct (table w !! presented body) as [order|] eqn:Hlook;
    cbn [error data]; [|reflexivity].
  destruct (order_status order) eqn:Hst; cbn [bool_decide decide_rel negb run].
  - rewrite bool_decide_eq_false_2 by done.
    rewrite bool_decide_eq_false_2 by done. reflexivity.
  - rewrite bool_decide_eq_false_2 by done.
    rewrite bool_decide_eq_true_2 by done. cbn [negb run].
    unfold exec_update, next. cbn [tick table]. rewrite Hf2.
    unfold db_update. rewrite Hlook.
    rewrite decide_True by done. reflexivity.
  - rewrite bool_decide_eq_true_2 by done. reflexivity.
Qed.

(** X14. After the analysis has read its order as [paid], its update is sent
    with the filter on [paid] and its outcome is not looked at: whatever
    the table has become meanwhile, the request goes on to the model. *)
Lemma analyze_after_paid_read (env : Env) (body : params) (t t2 : orders)
    (order : Order) (d db_now : Date) :
  gated env body ->
  t !! presented body = Some order ->
  order_status order = paid ->
  exists a1 a2 a3,
    thread_step t (analyze env body) t a1
    /\ thread_step t2 a1 t2 a2
    /\ thread_step t2 a2
         (db_update t2 (consume_patch d) (presented body) paid db_now) a3
    /\ a3 = Done ContinueToAnalysis.
Proof.
  intros [Himg Hreq Hno Hclient] Hlook Hst.
  unfold analyze. rewrite Himg, Hreq, Hno, Hclient. cbn [negb].
  fold (presented body).
  eexists _, _, _. split; [apply step_select|].
  unfold db_select. rewrite Hlook. cbn [error data].
  rewrite bool_decide_eq_false_2 by congruence.
  rewrite bool_decide_eq_true_2 by done. cbn [negb].
  split; [apply (step_now _ _ d)|].
  split; [apply (step_update _ _ _ _ _ db_now)|reflexivity].
Qed.

(** C2. Two analysis requests for the same [paid] order, both reading the
    order before either sends its update: the second update meets an
    [analyzed] order and changes nothing, yet both requests go on to the
    model; neither is answered 409. *)
Theorem analyze_concurrent_requests_both_pass :
  order_status <$> Scenario.t_paid !! Scenario.order_no = Some paid
  /\ schedule
       (Scenario.t_paid,
        [analyze Scenario.env Scenario.upload;
         analyze Scenario.env Scenario.upload])
       [(0, Scenario.ok); (1, Scenario.ok); (0, Scenario.ok);
        (0, Scenario.ok); (1, Scenario.ok); (1, Scenario.ok)]%nat
     = Some (Scenario.t_analyzed,
             [Done ContinueToAnalysis; Done ContinueToAnalysis])
  /\ rtc system_step
       (Scenario.t_paid,
        [analyze Scenario.env Scenario.upload;
         analyze Scenario.env Scenario.upload])
       (Scenario.t_analyzed,
        [Done ContinueToAnalysis; Done ContinueToAnalysis]).
Proof.
  assert (Hs : schedule
       (Scenario.t_paid,
        [analyze Scenario.env Scenario.upload;
         analyze Scenario.env Scenario.upload])
       [(0, Scenario.ok); (1, Scenario.ok); (0, Scenario.ok);
        (0, Scenario.ok); (1, Scenario.ok); (1, Scenario.ok)]%nat
     = Some (Scenario.t_analyzed,
             [Done ContinueToAnalysis; Done ContinueToAnalysis])).
  { vm_compute. reflexivity. }
  split; [vm_compute; reflexivity|]. split; [exact Hs|].
  exact (schedule_sound _ _ _ Hs).
Qed.

(* ===================================================================== *)
(** * The theorems at work on the scenario *)
(* ===================================================================== *)

Lemma scenario_accepted money :
  accepted Scenario.env (Scenario.notification money).
Proof.
  constructor; [reflexivity| |reflexivity|reflexivity].
  change (js_to_string (env_value (ZPAY_KEY Scenario.env))) with Scenario.key.
  apply (verifySign_iff _ _
           (JStr (generateSign (Scenario.unsigned money) Scenario.key))).
  - unfold Scenario.notification.
    rewrite lookup_insert_ne by discriminate. apply lookup_insert_eq.
  - f_equal. apply generateSign_ext. intros k Hk Hk'.
    unfold Scenario.notification. by rewrite !lookup_insert_ne.
Qed.

Lemma status_moves_forward_witness :
  Forall request
    [webhook Scenario.env (Scenario.notification "0.50");
     analyze Scenario.env Scenario.upload]
  /\ rtc system_step
       (Scenario.t_pending,
        [webhook Scenario.env (Scenario.notification "0.50");
         analyze Scenario.env Scenario.upload])
       (Scenario.t_analyzed, [Done (Send 200 "success"); Done ContinueToAnalysis])
  /\ exists sm om,
       rtc system_step
         (Scenario.t_pending,
          [webhook Scenario.env (Scenario.notification "0.50");
           analyze Scenario.env Scenario.upload]) sm
       /\ rtc system_step sm
            (Scenario.t_analyzed,
             [Done (Send 200 "success"); Done ContinueToAnalysis])
       /\ sm.1 !! Scenario.order_no = Some om /\ order_status om = paid.
Proof.
  assert (Hreq : Forall request
    [webhook Scenario.env (Scenario.notification "0.50");
     analyze Scenario.env Scenario.upload]).
  { apply List.Forall_cons; [apply request_webhook|].
    apply List.Forall_cons; [apply request_analyze|apply List.Forall_nil]. }
  assert (Hrun : rtc system_step
       (Scenario.t_pending,
        [webhook Scenario.env (Scenario.notification "0.50");
         analyze Scenario.env Scenario.upload])
       (Scenario.t_analyzed, [Done (Send 200 "success"); Done ContinueToAnalysis])).
  { apply schedule_sound with
      [(0, Scenario.ok); (0, Scenario.ok); (0, Scenario.ok);
       (1, Scenario.ok); (1, Scenario.ok); (1, Scenario.ok)]%nat.
    vm_compute. reflexivity. }
  split; [exact Hreq|]. split; [exact Hrun|].
  destruct (status_moves_forward _ _ _ _ Hreq (rtc_refl _ _) Hrun)
    as (_ & _ & Hbetween).
  exact (Hbetween Scenario.order_no
           (mkOrder Scenario.order_no None "u1" 50 (Some "alipay") None pending
              Scenario.noon Scenario.noon)
           (mkOrder Scenario.order_no (Some "T1") "u1" 50 (Some "alipay")
              (Some "TRADE_SUCCESS") analyzed Scenario.noon Scenario.noon)
           eq_refl eq_refl eq_refl eq_refl).
Defined.

Lemma verifySign_fails_closed_witness :
  (<["sign" := JStr ""]> (Scenario.unsigned "0.50") : params) !! "sign"
    = Some (JStr "")
  /\ verifySign (<["sign" := JStr ""]> (Scenario.unsigned "0.50")) Scenario.key
     = false.
Proof.
  split; [reflexivity|].
  apply (verifySign_fails_closed
           (<["sign" := JStr ""]> (Scenario.unsigned "0.50")) Scenario.key).
  right. right. right. reflexivity.
Defined.

Lemma generateOrderNo_format_witness :
  calendar (mkDate 2026 1 19 23 15 5)
  /\ random_draw (1104 # 4096)
  /\ generateOrderNo (mkDate 2026 1 19 23 15 5) (1104 # 4096)
     = "20260219231505342"
  /\ String.length (generateOrderNo (mkDate 2026 1 19 23 15 5) (1104 # 4096))
     = 17%nat.
Proof.
  assert (Hc : calendar (mkDate 2026 1 19 23 15 5))
    by (constructor; simpl; lia).
  assert (Hr : random_draw (1104 # 4096)) by (split; discriminate).
  split; [exact Hc|]. split; [exact Hr|]. split; [vm_compute; reflexivity|].
  destruct (generateOrderNo_format (mkDate 2026 1 19 23 15 5) (1104 # 4096)
              Hc Hr)
    as (_ & _ & _ & _ & _ & _ & _ & _ & _ & Hlen & _).
  exact Hlen.
Defined.

(** A repeated notification, this time reporting 5.00 for an order of
    0.50 that is already [paid]: it is acknowledged all the same. *)
Lemma webhook_duplicate_acknowledged_witness :
  accepted Scenario.env (Scenario.notification "5.00")
  /\ run Scenario.calm (webhook Scenario.env (Scenario.notification "5.00"))
       (mkWorld Scenario.t_paid 0)
     = (Send 200 "success", mkWorld Scenario.t_paid 1).
Proof.
  split; [apply scenario_accepted|].
  apply (webhook_duplicate_acknowledged Scenario.calm Scenario.env
           (Scenario.notification "5.00") (mkWorld Scenario.t_paid 0)
           (mkOrder Scenario.order_no (Some "T1") "u1" 50 (Some "alipay")
              (Some "TRADE_SUCCESS") paid Scenario.noon Scenario.noon)).
  - apply scenario_accepted.
  - reflexivity.
  - vm_compute. reflexivity.
  - discriminate.
Defined.

(** 5.00 reported for a [pending] order of 0.50. *)
Lemma webhook_amount_check_witness :
  accepted Scenario.env (Scenario.notification "5.00")
  /\ run Scenario.calm (webhook Scenario.env (Scenario.notification "5.00"))
       (mkWorld Scenario.t_pending 0)
     = (Send 400 "amount mismatch", mkWorld Scenario.t_pending 1).
Proof.
  split; [apply scenario_accepted|].
  apply (webhook_amount_check Scenario.calm Scenario.env
           (Scenario.notification "5.00") (mkWorld Scenario.t_pending 0)
           (mkOrder Scenario.order_no None "u1" 50 (Some "alipay") None pending
              Scenario.noon Scenario.noon)).
  - apply scenario_accepted.
  - reflexivity.
  - vm_compute. reflexivity.
  - reflexivity.
  - vm_compute. reflexivity.
Defined.

Lemma scenario_orderable : orderable Scenario.env Scenario.cart.
Proof. constructor; try reflexivity. eexists. reflexivity. Qed.

(** The generator gives the number of an order that is already stored. *)
Lemma checkout_fails_without_retry_witness :
  orderable Scenario.env Scenario.cart
  /\ run Scenario.calm (checkout_url Scenario.env Scenario.cart)
       (mkWorld Scenario.t_pending 0)
     = (JsonError 500 "创建订单失败，请稍后重试", mkWorld Scenario.t_pending 3).
Proof.
  split; [apply scenario_orderable|].
  apply (checkout_fails_without_retry Scenario.calm Scenario.env Scenario.cart
           (mkWorld Scenario.t_pending 0) scenario_orderable).
  left. vm_compute. eexists. reflexivity.
Defined.

(* ===================================================================== *)
(** * Where the code departs from the specification *)
(* ===================================================================== *)

(** C7, as stated, fails: of the keys [Ａ] (U+FF21) and [😀] (U+1F600) the
    first has the smaller bytes, yet [buildSignString] puts the second
    first, because its code units are the smaller. *)
Lemma buildSignString_not_in_byte_order :
  buildSignString (<["Ａ" := JStr "1"]> {[ "😀" := JStr "2" ]}) = "😀=2&Ａ=1"
  /\ String.ltb "Ａ" "😀" = true
  /\ String.ltb "😀" "Ａ" = false
  /\ utf16 "Ａ" = [65313]
  /\ utf16 "😀" = [55357; 56832].
Proof. vm_compute. repeat split; reflexivity. Qed.

(** C3, as stated, fails: the signature verifies, the order is stored and
    [pending], the amounts agree, and the webhook answers [error], once
    because the backend fails the update and once because the client of
    the table cannot be built. *)
Lemma webhook_error_on_valid_notification :
  verifySign (Scenario.notification "0.50") Scenario.key = true
  /\ order_status <$> Scenario.t_pending !! notified (Scenario.notification "0.50")
     = Some pending
  /\ number_neq (parseFloat (prop (Scenario.notification "0.50") "money"))
       (round_binary64 50 100) = false
  /\ run Scenario.update_fails
       (webhook Scenario.env (Scenario.notification "0.50"))
       (mkWorld Scenario.t_pending 0)
     = (Send 500 "error", mkWorld Scenario.t_pending 3)
  /\ run Scenario.calm
       (webhook Scenario.env_without_store (Scenario.notification "0.50"))
       (mkWorld Scenario.t_pending 0)
     = (Send 500 "error", mkWorld Scenario.t_pending 0).
Proof. vm_compute. repeat split; reflexivity. Qed.

(** C5, as stated, fails: the reported amounts [0.50abc] and [0.5] are not
    the bytes [0.50] of the stored amount, yet [parseFloat] reads 0.5
    from each and the order becomes [paid]. *)
Lemma webhook_accepts_amount_with_other_bytes :
  prop (Scenario.notification "0.50abc") "money" = JStr "0.50abc"
  /\ "0.50abc" <> ORDER_AMOUNT
  /\ run Scenario.calm (webhook Scenario.env (Scenario.notification "0.50abc"))
       (mkWorld Scenario.t_pending 0)
     = (Send 200 "success", mkWorld Scenario.t_paid 3)
  /\ "0.5" <> ORDER_AMOUNT
  /\ run Scenario.calm (webhook Scenario.env (Scenario.notification "0.5"))
       (mkWorld Scenario.t_pending 0)
     = (Send 200 "success", mkWorld Scenario.t_paid 3).
Proof.
  split; [reflexivity|]. split; [discriminate|].
  split; [vm_compute; reflexivity|]. split; [discriminate|].
  vm_compute. reflexivity.
Qed.

(** C8, as stated, fails: the generated number is taken, the request is
    answered 500 after its only insert, and no second number is
    generated, although the next one would have been free. *)
Lemma checkout_gives_up_on_first_collision :
  generateOrderNo (clock Scenario.calm 0) (draw Scenario.calm 1)
    = Scenario.order_no
  /\ is_Some (Scenario.t_pending !! Scenario.order_no)
  /\ run Scenario.calm (checkout_url Scenario.env Scenario.cart)
       (mkWorld Scenario.t_pending 0)
     = (JsonError 500 "创建订单失败，请稍后重试", mkWorld Scenario.t_pending 3)
  /\ statements Scenario.calm (checkout_url Scenario.env Scenario.cart)
       (mkWorld Scenario.t_pending 0)
     = [SqlInsert (new_order Scenario.cart Scenario.order_no)]
  /\ Scenario.t_pending
       !! generateOrderNo (clock Scenario.calm 3) (draw Scenario.calm 4)
     = None.
Proof.
  split; [vm_compute; reflexivity|]. split; [eexists; vm_compute; reflexivity|].
  split; [vm_compute; reflexivity|]. split; vm_compute; reflexivity.
Qed.

(* ===================================================================== *)
(** * More on the signature codec *)
(* ===================================================================== *)

Lemma hex_digit_lower n : 0 <= n < 16 -> is_lower_hex (MD5.hex_digit n) = true.
Proof.
  intros Hn.
  assert (H : forallb (fun n => is_lower_hex (MD5.hex_digit n)) (seqZ 0 16) = true)
    by (vm_compute; reflexivity).
  rewrite forallb_forall in H. apply H.
  apply list_elem_of_In, elem_of_seqZ. lia.
Qed.

Lemma md5_hex_lower s : lower_hex (md5_hex s) = true.
Proof.
  unfold md5_hex, MD5.md5_hex.
  destruct (MD5.digest (MD5.bytes_of_string s)) as [[[a b] c] d].
  unfold lower_hex, MD5.hex_state, MD5.hex_word, MD5.hex_byte.
  cbn [list_ascii_of_string forallb].
  rewrite !hex_digit_lower by (apply Z.mod_pos_bound; lia). reflexivity.
Qed.

(** X1. A signature that verifies is written with 32 digits and letters [a] to
    [f]: one of another length, or with a capital letter, is refused. *)
Theorem verifySign_shape (p : params) (key : string) :
  verifySign p key = true ->
  exists s, p !! "sign" = Some (JStr s)
            /\ String.length s = 32%nat /\ lower_hex s = true.
Proof.
  intros H. destruct (p !! "sign") as [v|] eqn:Hv.
  - apply (verifySign_iff p key v Hv) in H. subst v.
    exists (generateSign p key). split; [done|].
    split; [apply md5_hex_length|apply md5_hex_lower].
  - unfold verifySign, prop in H. rewrite Hv in H. discriminate.
Qed.

Lemma verifySign_shape_witness :
  verifySign (Scenario.notification "0.50") Scenario.key = true
  /\ exists s, Scenario.notification "0.50" !! "sign" = Some (JStr s)
               /\ String.length s = 32%nat /\ lower_hex s = true.
Proof.
  assert (H : verifySign (Scenario.notification "0.50") Scenario.key = true)
    by (vm_compute; reflexivity).
  split; [exact H|]. exact (verifySign_shape _ _ H).
Defined.

Lemma sign_entries_same (p q : params) :
  (forall k v, signed p k v <-> signed q k v) ->
  sign_entries p = sign_entries q.
Proof.
  intros H. apply key_ordered_unique; try apply key_ordered_sign_entries.
  intros [k v]. by rewrite !elem_of_sign_entries.
Qed.

(** X2. What is not signed is not protected: two objects with the same [sign]
    and the same signed entries get the same answer from [verifySign],
    whatever their [sign_type] and their empty, [null] or [undefined]
    properties. *)
Theorem verifySign_unsigned_fields (p q : params) (key : string) :
  p !! "sign" = q !! "sign" ->
  (forall k v, signed p k v <-> signed q k v) ->
  verifySign p key = verifySign q key.
Proof.
  intros Hs Hsame. unfold verifySign, generateSign, buildSignString, prop.
  by rewrite Hs, (sign_entries_same p q Hsame).
Qed.

Lemma verifySign_unsigned_fields_witness :
  verifySign
    (<["sign_type" := JStr "SHA256"]>
       (<["param" := JStr ""]> (Scenario.notification "0.50")))
    Scenario.key
  = verifySign (Scenario.notification "0.50") Scenario.key.
Proof.
  apply verifySign_unsigned_fields.
  - vm_compute. reflexivity.
  - intros k v. unfold signed.
    destruct (decide (k = "sign_type")) as [->|H1]; [tauto|].
    rewrite lookup_insert_ne by done.
    destruct (decide (k = "param")) as [->|H2].
    + rewrite lookup_insert_eq.
      change (Scenario.notification "0.50" !! "param") with (@None jsval).
      split; [intros ([= <-] & ? & _); done|intros ([=] & _)].
    + by rewrite lookup_insert_ne.
Defined.

Lemma sign_entries_one (k : string) (v : string) :
  v <> "" -> k <> "sign" -> k <> "sign_type" ->
  sign_entries {[ k := JStr v ]} = [(k, JStr v)].
Proof.
  intros Hv Hk Hk'. apply key_ordered_unique; [apply key_ordered_sign_entries| |].
  - repeat constructor.
  - intros [k0 v0]. rewrite elem_of_sign_entries, list_elem_of_singleton.
    unfold signed. rewrite lookup_singleton_Some. split.
    + intros ([<- <-] & _). done.
    + intros [= -> ->]. repeat split; try done. by intros [=].
Qed.

Lemma sign_entries_two (k k' : string) (v w : string) :
  js_lt k k' = true ->
  v <> "" -> w <> "" ->
  k <> "sign" -> k <> "sign_type" -> k' <> "sign" -> k' <> "sign_type" ->
  sign_entries (<[k := JStr v]> {[ k' := JStr w ]}) = [(k, JStr v); (k', JStr w)].
Proof.
  intros Hlt Hv Hw Hk1 Hk2 Hk3 Hk4.
  assert (Hne : k <> k') by (intros ->; by apply js_lt_irrefl in Hlt).
  apply key_ordered_unique; [apply key_ordered_sign_entries| |].
  - repeat constructor. done.
  - intros [k0 v0]. rewrite elem_of_sign_entries. unfold signed.
    rewrite elem_of_cons, list_elem_of_singleton.
    rewrite lookup_insert_Some, lookup_singleton_Some. split.
    + intros ([[<- <-]|[? [<- <-]]] & _); auto.
    + intros [[= -> ->]|[= -> ->]]; (split; [auto|]);
        repeat split; try done; by intros [=].
Qed.

(** X3. Values are joined as they are: a value that itself contains [&k'=w]
    gives the same signed string, hence the same signature under every
    key, as the object that has [k'] as a property of its own, when [k]
    is before [k'] in the order of JavaScript ([k < k']). *)
Theorem generateSign_values_not_escaped (k k' v w key : string) :
  js_lt k k' = true ->
  v <> "" -> w <> "" ->
  k <> "sign" -> k <> "sign_type" -> k' <> "sign" -> k' <> "sign_type" ->
  generateSign {[ k := JStr (v +:+ "&" +:+ k' +:+ "=" +:+ w) ]} key
  = generateSign (<[k := JStr v]> {[ k' := JStr w ]}) key.
Proof.
  intros Hlt Hv Hw Hk1 Hk2 Hk3 Hk4.
  unfold generateSign, buildSignString.
  rewrite sign_entries_two by done.
  rewrite sign_entries_one; [|by destruct v|done|done].
  unfold render. cbn [fmap list_fmap String.concat fst snd js_to_string].
  f_equal. f_equal. rewrite !append_assoc. reflexivity.
Qed.

Lemma generateSign_values_not_escaped_witness :
  generateSign {[ "money" := JStr "0.50&out_trade_no=20260219120000123" ]}
    Scenario.key
  = generateSign
      (<["money" := JStr "0.50"]>
         {[ "out_trade_no" := JStr "20260219120000123" ]}) Scenario.key.
Proof.
  apply (generateSign_values_not_escaped "money" "out_trade_no" "0.50"
           "20260219120000123" Scenario.key); (reflexivity || discriminate).
Defined.

(* ===================================================================== *)
(** * More on the order-number generator *)
(* ===================================================================== *)

Lemma generateOrderNo_fields (d : Date) (r : Q) :
  generateOrderNo d r
  = String_of_Z (getFullYear d) +:+ pad2 (getMonth d + 1) +:+ pad2 (getDate d)
    +:+ pad2 (getHours d) +:+ pad2 (getMinutes d) +:+ pad2 (getSeconds d)
    +:+ String_of_Z (rand_suffix r).
Proof.
  unfold generateOrderNo, pad2. cbv zeta. rewrite !append_assoc. reflexivity.
Qed.

Lemma append_inj_length (s1 s2 t1 t2 : string) :
  String.length s1 = String.length s2 ->
  s1 +:+ t1 = s2 +:+ t2 -> s1 = s2 /\ t1 = t2.
Proof.
  revert s2. induction s1 as [|c s1 IH]; intros [|c' s2] Hlen Heq;
    try discriminate.
  - done.
  - change (String c (s1 +:+ t1) = String c' (s2 +:+ t2)) in Heq.
    injection Heq as -> Heq. injection Hlen as Hlen.
    destruct (IH s2 Hlen Heq) as [-> ->]. done.
Qed.

Lemma field_value s w w' n n' : field s w n -> field s w' n' -> n = n'.
Proof. intros [_ H] [_ H']. congruence. Qed.

(** X4. Two order numbers, for clock readings with a year of four digits, are
    the same exactly when the readings agree to the second and the two
    draws give the same suffix: numbers of different seconds never
    collide. *)
Theorem generateOrderNo_collides_iff (d d' : Date) (r r' : Q) :
  calendar d -> calendar d' -> random_draw r -> random_draw r' ->
  generateOrderNo d r = generateOrderNo d' r'
  <-> d = d' /\ rand_suffix r = rand_suffix r'.
Proof.
  intros [Hy Hm Hd Hh Hmi Hs] [Hy' Hm' Hd' Hh' Hmi' Hs'] Hr Hr'.
  split; [|intros [-> Heq]; by rewrite !generateOrderNo_fields, Heq].
  rewrite !generateOrderNo_fields. intros Heq.
  pose proof (year_field _ Hy) as Fy. pose proof (year_field _ Hy') as Fy'.
  pose proof (pad2_field (getMonth d + 1) ltac:(lia)) as Fm.
  pose proof (pad2_field (getMonth d' + 1) ltac:(lia)) as Fm'.
  pose proof (pad2_field (getDate d) ltac:(lia)) as Fd.
  pose proof (pad2_field (getDate d') ltac:(lia)) as Fd'.
  pose proof (pad2_field (getHours d) ltac:(lia)) as Fh.
  pose proof (pad2_field (getHours d') ltac:(lia)) as Fh'.
  pose proof (pad2_field (getMinutes d) ltac:(lia)) as Fmi.
  pose proof (pad2_field (getMinutes d') ltac:(lia)) as Fmi'.
  pose proof (pad2_field (getSeconds d) ltac:(lia)) as Fs.
  pose proof (pad2_field (getSeconds d') ltac:(lia)) as Fs'.
  pose proof (suffix_field _ (rand_suffix_range r Hr)) as Fr.
  pose proof (suffix_field _ (rand_suffix_range r' Hr')) as Fr'.
  apply append_inj_length in Heq as [E1 Heq];
    [|by rewrite (proj1 Fy), (proj1 Fy')].
  apply append_inj_length in Heq as [E2 Heq];
    [|by rewrite (proj1 Fm), (proj1 Fm')].
  apply append_inj_length in Heq as [E3 Heq];
    [|by rewrite (proj1 Fd), (proj1 Fd')].
  apply append_inj_length in Heq as [E4 Heq];
    [|by rewrite (proj1 Fh), (proj1 Fh')].
  apply append_inj_length in Heq as [E5 Heq];
    [|by rewrite (proj1 Fmi), (proj1 Fmi')].
  apply append_inj_length in Heq as [E6 E7];
    [|by rewrite (proj1 Fs), (proj1 Fs')].
  rewrite E1 in Fy. rewrite E2 in Fm. rewrite E3 in Fd. rewrite E4 in Fh.
  rewrite E5 in Fmi. rewrite E6 in Fs. rewrite E7 in Fr.
  pose proof (field_value _ _ _ _ _ Fy Fy').
  pose proof (field_value _ _ _ _ _ Fm Fm').
  pose proof (field_value _ _ _ _ _ Fd Fd').
  pose proof (field_value _ _ _ _ _ Fh Fh').
  pose proof (field_value _ _ _ _ _ Fmi Fmi').
  pose proof (field_value _ _ _ _ _ Fs Fs').
  split; [|exact (field_value _ _ _ _ _ Fr Fr')].
  destruct d, d'. simpl in *. f_equal; lia.
Qed.

Lemma generateOrderNo_collides_iff_witness :
  generateOrderNo (mkDate 2026 1 19 12 0 0) (105 # 4096)
  = generateOrderNo (mkDate 2026 1 19 12 0 0) (13 # 500).
Proof.
  assert (H1 : calendar (mkDate 2026 1 19 12 0 0)) by (constructor; simpl; lia).
  assert (Hr : random_draw (105 # 4096)) by (split; discriminate).
  assert (Hr' : random_draw (13 # 500)) by (split; discriminate).
  apply (generateOrderNo_collides_iff _ _ _ _ H1 H1 Hr Hr').
  split; [reflexivity|vm_compute; reflexivity].
Defined.

Lemma digits_value_acc (ds : list ascii) (acc : Z) :
  foldl (fun acc c => 10 * acc + (code c - 48)) acc ds
  = acc * 10 ^ Z.of_nat (length ds) + digits_value ds.
Proof.
  unfold digits_value. revert acc.
  induction ds as [|c ds IH]; intros acc; [simpl; lia|].
  cbn [foldl length]. rewrite IH, (IH (10 * 0 + (code c - 48))).
  rewrite Nat2Z.inj_succ, Z.pow_succ_r by lia. ring.
Qed.

Lemma digits_value_cons (c : ascii) (ds : list ascii) :
  digits_value (c :: ds)
  = (code c - 48) * 10 ^ Z.of_nat (length ds) + digits_value ds.
Proof.
  unfold digits_value at 1. cbn [foldl]. rewrite digits_value_acc. ring.
Qed.

Lemma digits_value_bound (ds : list ascii) :
  forallb is_digit ds = true ->
  0 <= digits_value ds < 10 ^ Z.of_nat (length ds).
Proof.
  induction ds as [|c ds IH]; [intros _; vm_compute; split; congruence|].
  cbn [forallb]. rewrite andb_true_iff. intros [Hc Hds].
  rewrite digits_value_cons. cbn [length].
  rewrite Nat2Z.inj_succ, Z.pow_succ_r by lia.
  unfold is_digit in Hc. apply andb_true_iff in Hc as [H1 H2].
  apply Z.leb_le in H1, H2. specialize (IH Hds). nia.
Qed.

Lemma ascii_compare_code (c c' : ascii) :
  Ascii.compare c c' = (code c ?= code c').
Proof. unfold Ascii.compare, code. by rewrite N2Z.inj_compare. Qed.

(** Strings of digits of the same length are ordered as the numbers they
    denote. *)
Lemma digits_compare (s s' : string) :
  all_digits s = true -> all_digits s' = true ->
  String.length s = String.length s' ->
  String.compare s s'
  = (digits_value (list_ascii_of_string s)
       ?= digits_value (list_ascii_of_string s')).
Proof.
  unfold all_digits. revert s'.
  induction s as [|c s IH]; intros [|c' s'] Hs Hs' Hlen; try discriminate.
  - reflexivity.
  - cbn [list_ascii_of_string forallb] in *.
    apply andb_true_iff in Hs as [Hc Hs], Hs' as [Hc' Hs'].
    injection Hlen as Hlen. cbn [String.compare].
    rewrite ascii_compare_code, !digits_value_cons.
    pose proof (digits_value_bound _ Hs) as Hb.
    pose proof (digits_value_bound _ Hs') as Hb'.
    assert (Hl : length (list_ascii_of_string s)
                 = length (list_ascii_of_string s')).
    { clear -Hlen. revert s' Hlen.
      induction s as [|a s IHs]; intros [|a' s'] H; try discriminate; [done|].
      injection H as H. simpl. f_equal. by apply IHs. }
    rewrite <- Hl in *.
    set (P := 10 ^ Z.of_nat (length (list_ascii_of_string s))) in *.
    destruct (Z.compare_spec (code c) (code c')) as [E|E|E].
    + rewrite IH by done. rewrite E.
      destruct (Z.compare_spec (digits_value (list_ascii_of_string s))
                  (digits_value (list_ascii_of_string s'))) as [F|F|F];
        symmetry; [apply Z.compare_eq_iff|apply Z.compare_lt_iff
                  |apply Z.compare_gt_iff]; lia.
    + symmetry. apply Z.compare_lt_iff. nia.
    + symmetry. apply Z.compare_gt_iff. nia.
Qed.

Lemma compare_append (s1 s2 t1 t2 : string) :
  String.length s1 = String.length s2 ->
  String.compare (s1 +:+ t1) (s2 +:+ t2)
  = match String.compare s1 s2 with
    | Eq => String.compare t1 t2
    | c => c
    end.
Proof.
  revert s2. induction s1 as [|c s1 IH]; intros [|c' s2] Hlen;
    try discriminate; [reflexivity|].
  injection Hlen as Hlen.
  change (String.compare (String c (s1 +:+ t1)) (String c' (s2 +:+ t2))
          = match String.compare (String c s1) (String c' s2) with
            | Eq => String.compare t1 t2
            | x => x
            end).
  cbn [String.compare]. destruct (Ascii.compare c c'); [by apply IH|done..].
Qed.

Lemma field_compare s s' w n n' :
  field s w n -> field s' w n' -> String.compare s s' = (n ?= n').
Proof.
  intros [Hl Hd] [Hl' Hd']. unfold decimal in Hd, Hd'.
  destruct (all_digits s) eqn:Ha; [|discriminate].
  destruct (all_digits s') eqn:Ha'; [|discriminate].
  destruct (negb (s =? "")%string); [|discriminate].
  destruct (negb (s' =? "")%string); [|discriminate].
  injection Hd as <-. injection Hd' as <-.
  apply digits_compare; congruence.
Qed.

(** X5. Order numbers sort by time: for clock readings with a year of four
    digits, the number of an earlier second is before the number of a later
    one in the order of strings, whatever the draws. *)
Theorem generateOrderNo_sorts_by_time (d d' : Date) (r r' : Q) :
  calendar d -> calendar d' -> random_draw r -> random_draw r' ->
  earlier d d' ->
  String.ltb (generateOrderNo d r) (generateOrderNo d' r') = true.
Proof.
  intros [Hy Hm Hd Hh Hmi Hs] [Hy' Hm' Hd' Hh' Hmi' Hs'] Hr Hr' Hlt.
  pose proof (year_field _ Hy) as Fy. pose proof (year_field _ Hy') as Fy'.
  pose proof (pad2_field (getMonth d + 1) ltac:(lia)) as Fm.
  pose proof (pad2_field (getMonth d' + 1) ltac:(lia)) as Fm'.
  pose proof (pad2_field (getDate d) ltac:(lia)) as Fd.
  pose proof (pad2_field (getDate d') ltac:(lia)) as Fd'.
  pose proof (pad2_field (getHours d) ltac:(lia)) as Fh.
  pose proof (pad2_field (getHours d') ltac:(lia)) as Fh'.
  pose proof (pad2_field (getMinutes d) ltac:(lia)) as Fmi.
  pose proof (pad2_field (getMinutes d') ltac:(lia)) as Fmi'.
  pose proof (pad2_field (getSeconds d) ltac:(lia)) as Fs.
  pose proof (pad2_field (getSeconds d') ltac:(lia)) as Fs'.
  apply ltb_compare. rewrite !generateOrderNo_fields.
  rewrite compare_append by (by rewrite (proj1 Fy), (proj1 Fy')).
  rewrite (field_compare _ _ _ _ _ Fy Fy').
  rewrite compare_append by (by rewrite (proj1 Fm), (proj1 Fm')).
  rewrite (field_compare _ _ _ _ _ Fm Fm').
  rewrite compare_append by (by rewrite (proj1 Fd), (proj1 Fd')).
  rewrite (field_compare _ _ _ _ _ Fd Fd').
  rewrite compare_append by (by rewrite (proj1 Fh), (proj1 Fh')).
  rewrite (field_compare _ _ _ _ _ Fh Fh').
  rewrite compare_append by (by rewrite (proj1 Fmi), (proj1 Fmi')).
  rewrite (field_compare _ _ _ _ _ Fmi Fmi').
  rewrite compare_append by (by rewrite (proj1 Fs), (proj1 Fs')).
  rewrite (field_compare _ _ _ _ _ Fs Fs').
  unfold earlier in Hlt.
  repeat match goal with
         | |- context [?a ?= ?b] =>
             destruct (Z.compare_spec a b); try lia; try reflexivity
         end.
Qed.

Lemma generateOrderNo_sorts_by_time_witness :
  earlier (mkDate 2026 1 19 12 0 59) (mkDate 2026 1 19 12 1 0)
  /\ String.ltb (generateOrderNo (mkDate 2026 1 19 12 0 59) (2278 # 4096))
       (generateOrderNo (mkDate 2026 1 19 12 1 0) (105 # 4096)) = true.
Proof.
  assert (He : earlier (mkDate 2026 1 19 12 0 59) (mkDate 2026 1 19 12 1 0)).
  { unfold earlier. simpl. lia. }
  split; [exact He|].
  apply generateOrderNo_sorts_by_time;
    [constructor; simpl; lia|constructor; simpl; lia
    |split; discriminate|split; discriminate|exact He].
Defined.

(* ===================================================================== *)
(** * More on the checkout *)
(* ===================================================================== *)

Lemma order_amount_cents :
  to_decimal_10_2 (parseFloat_string ORDER_AMOUNT) = Some 50.
Proof. vm_compute. reflexivity. Qed.

(** The run of a checkout whose number is free and whose insert the
    backend does not fail. *)
Lemma checkout_run_created (o : oracle) (env : Env) (body : params)
    (w : world) (pid key baseUrl : string) :
  orderable env body ->
  getZpayConfig env = Some (pid, key, baseUrl) ->
  table w !! generateOrderNo (clock o (tick w)) (draw o (S (tick w))) = None ->
  fault o (S (S (tick w))) = false ->
  run o (checkout_url env body) w
  = (JsonCheckout
       (ZPAY_SUBMIT_URL +:+ "?"
        +:+ query_string
              (link_query pid key baseUrl
                 (generateOrderNo (clock o (tick w)) (draw o (S (tick w))))
                 (js_to_string (chosen_pay_type body))))
       (generateOrderNo (clock o (tick w)) (draw o (S (tick w)))),
     mkWorld
       (<[generateOrderNo (clock o (tick w)) (draw o (S (tick w))) :=
            created_order body
              (generateOrderNo (clock o (tick w)) (draw o (S (tick w))))
              (clock o (S (S (tick w))))]> (table w))
       (S (S (S (tick w))))).
Proof.
  intros [Huid Hpay _ Hclient] Hcfg Hfree Hfault.
  unfold checkout_url. fold (chosen_pay_type body).
  rewrite Huid, Hpay, Hcfg, Hclient. cbn [negb run].
  unfold exec_insert, next. cbn [tick table]. rewrite Hfault.
  unfold db_insert. cbn [new_out_trade_no new_amount]. rewrite Hfree.
  rewrite order_amount_cents. reflexivity.
Qed.



Lemma lookup_list_to_map_app_l (l l' : list (string * jsval)) (k : string) :
  k ∉ l'.*1 ->
  (list_to_map (l ++ l') : params) !! k = (list_to_map l : params) !! k.
Proof.
  intros Hk. induction l as [|[k0 v0] l IH]; cbn [app list_to_map foldr].
  - rewrite lookup_empty. by apply not_elem_of_list_to_map_1.
  - destruct (decide (k0 = k)) as [->|Hne].
    + by rewrite !lookup_insert_eq.
    + by rewrite !lookup_insert_ne.
Qed.

(** X8. The parameters of the payment link carry the merchant, the amount
    0.50 and the order number, and their signature verifies under the key
    they were signed with: the provider, which checks it the same way,
    accepts the link. *)
Theorem checkout_link_signed (pid key baseUrl no pay_type : string) :
  let link : params :=
    list_to_map (prod_map id JStr <$> link_query pid key baseUrl no pay_type) in
  verifySign link key = true
  /\ prop link "pid" = JStr pid
  /\ prop link "money" = JStr ORDER_AMOUNT
  /\ prop link "out_trade_no" = JStr no
  /\ prop link "type" = JStr pay_type.
Proof.
  intros link. subst link. unfold link_query. rewrite fmap_app.
  set (fields := prod_map id JStr <$> link_fields pid baseUrl no pay_type).
  set (sign := generateSign (list_to_map fields) key).
  assert (Hin : forall k, k <> "sign" -> k <> "sign_type" ->
            (list_to_map
               (fields
                ++ (prod_map id JStr <$> [("sign", sign); ("sign_type", "MD5")]))
             : params) !! k
            = (list_to_map fields : params) !! k).
  { intros k Hk Hk'. apply lookup_list_to_map_app_l.
    cbn [fmap list_fmap prod_map fst]. intros Hel.
    apply elem_of_cons in Hel as [-> | Hel]; [done|].
    apply elem_of_cons in Hel as [-> | Hel]; [done|].
    by apply elem_of_nil in Hel. }
  split.
  - apply (verifySign_iff _ _ (JStr sign)).
    + subst fields. unfold link_fields.
      cbn [fmap list_fmap prod_map app list_to_map foldr fst snd id].
      rewrite !lookup_insert_ne by discriminate. apply lookup_insert_eq.
    + f_equal. apply generateSign_ext. intros k Hk Hk'. symmetry.
      by apply Hin.
  - unfold prop. rewrite !Hin by discriminate.
    subst fields. unfold link_fields.
    cbn [fmap list_fmap prod_map list_to_map foldr fst snd id].
    split; [|split; [|split]].
    + by rewrite lookup_insert_eq.
    + rewrite !lookup_insert_ne by discriminate. by rewrite lookup_insert_eq.
    + rewrite !lookup_insert_ne by discriminate. by rewrite lookup_insert_eq.
    + rewrite !lookup_insert_ne by discriminate. by rewrite lookup_insert_eq.
Qed.


(* ===================================================================== *)
(** * More on the webhook *)
(* ===================================================================== *)

Lemma strict_eq_str_true v s : strict_eq_str v s = true -> v = JStr s.
Proof.
  destruct v as [t| |]; cbn; try done. intros Ht%String.eqb_eq. by subst.
Qed.

(** The run of a notification that passes every check and whose update
    the backend does not fail. *)
Lemma webhook_run_applied (o : oracle) (env : Env) (query : params)
    (w : world) (order : Order) :
  accepted env query ->
  fault o (tick w) = false ->
  table w !! notified query = Some order ->
  order_status order = pending ->
  number_neq (parseFloat (prop query "money"))
    (round_binary64 (amount order) 100) = false ->
  fault o (S (S (tick w))) = false ->
  run o (webhook env query) w
  = (Send 200 "success",
     mkWorld
       (<[notified query :=
            apply_patch (pay_patch query (clock o (S (tick w))))
              (clock o (S (S (tick w)))) order]> (table w))
       (S (S (S (tick w))))).
Proof.
  intros Hacc Hf1 Hlook Hst Hneq Hf2.
  webhook_to_lookup Hacc. unfold exec_select, db_select.
  fold (notified query). rewrite Hf1, Hlook. cbn [error data].
  rewrite bool_decide_eq_true_2 by done. cbn [negb].
  unfold amount_number. rewrite Hneq. cbn [run next tick table].
  unfold exec_update, next. cbn [tick table]. rewrite Hf2.
  unfold db_update. rewrite Hlook. rewrite decide_True by done.
  reflexivity.
Qed.

(** What a notification does to the table: nothing, unless it passes every
    check. *)
Lemma webhook_effect (o : oracle) (env : Env) (query : params) (w : world) :
  table (run o (webhook env query) w).2 = table w
  \/ (accepted env query
      /\ fault o (tick w) = false /\ fault o (S (S (tick w))) = false
      /\ exists order,
           table w !! notified query = Some order
           /\ order_status order = pending
           /\ number_neq (parseFloat (prop query "money"))
                (round_binary64 (amount order) 100) = false).
Proof.
  destruct (truthy (env_value (ZPAY_KEY env))) eqn:K1; cycle 1.
  { left. unfold webhook. rewrite K1. reflexivity. }
  destruct (verifySign query (js_to_string (env_value (ZPAY_KEY env))))
    eqn:K2; cycle 1.
  { left. unfold webhook. rewrite K1, K2. reflexivity. }
  destruct (strict_eq_str (prop query "trade_status") "TRADE_SUCCESS")
    eqn:K3; cycle 1.
  { left. unfold webhook. rewrite K1, K2, K3. reflexivity. }
  destruct (createServerAdminClient env) eqn:K4; cycle 1.
  { left. unfold webhook. rewrite K1, K2, K3, K4. reflexivity. }
  assert (Hacc : accepted env query) by (by constructor).
  destruct (fault o (tick w)) eqn:Hf1.
  { left. webhook_to_lookup Hacc. unfold exec_select. rewrite Hf1.
    reflexivity. }
  destruct (table w !! notified query) as [order|] eqn:Hlook; cycle 1.
  { left. webhook_to_lookup Hacc. unfold exec_select, db_select.
    fold (notified query). rewrite Hf1, Hlook. reflexivity. }
  destruct (decide (order_status order = pending)) as [Hst|Hst]; cycle 1.
  { left. webhook_to_lookup Hacc. unfold exec_select, db_select.
    fold (notified query). rewrite Hf1, Hlook. cbn [error data].
    rewrite bool_decide_eq_false_2 by done. reflexivity. }
  destruct (number_neq (parseFloat (prop query "money"))
              (round_binary64 (amount order) 100)) eqn:Hneq.
  { left. webhook_to_lookup Hacc. unfold exec_select, db_select.
    fold (notified query). rewrite Hf1, Hlook. cbn [error data].
    rewrite bool_decide_eq_true_2 by done. cbn [negb].
    unfold amount_number. rewrite Hneq. reflexivity. }
  destruct (fault o (S (S (tick w)))) eqn:Hf2.
  { left. webhook_to_lookup Hacc. unfold exec_select, db_select.
    fold (notified query). rewrite Hf1, Hlook. cbn [error data].
    rewrite bool_decide_eq_true_2 by done. cbn [negb].
    unfold amount_number. rewrite Hneq. cbn [run next tick table].
    unfold exec_update, next. cbn [tick table]. rewrite Hf2. reflexivity. }
  right. split; [done|]. split; [done|]. split; [done|]. by exists order.
Qed.




(** X11. A notification, whether it is genuine or not, leaves alone every
    order but the one it names, and leaves that one alone too once it is
    no longer [pending]: a payment is recorded once, and later
    notifications cannot rewrite it. *)
Theorem webhook_spares_settled_orders (o : oracle) (env : Env)
    (query : params) (w : world) (no : string) :
  no <> notified query
  \/ (exists order, table w !! no = Some order /\ order_status order <> pending) ->
  table (run o (webhook env query) w).2 !! no = table w !! no.
Proof.
  intros Hno.
  destruct (webhook_effect o env query w)
    as [Hsame|(Hacc & Hf1 & Hf2 & order & Hlook & Hst & Hneq)];
    [by rewrite Hsame|].
  rewrite (webhook_run_applied o env query w order) by done.
  cbn [snd table]. rewrite lookup_insert_ne; [done|].
  intros <-. destruct Hno as [Hno|(order' & Hlook' & Hst')]; [done|].
  rewrite Hlook in Hlook'. by simplify_eq.
Qed.

(** A notification that reports other values for an order already
    [paid]. *)
Lemma webhook_spares_settled_orders_witness :
  table (run Scenario.calm
           (webhook Scenario.env (Scenario.notification "0.50"))
           (mkWorld Scenario.t_paid 0)).2 !! Scenario.order_no
  = Scenario.t_paid !! Scenario.order_no.
Proof.
  apply (webhook_spares_settled_orders Scenario.calm Scenario.env
           (Scenario.notification "0.50") (mkWorld Scenario.t_paid 0)
           Scenario.order_no).
  right. eexists. split; [vm_compute; reflexivity|discriminate].
Defined.

Lemma parseFloat_undefined : parseFloat JUndefined = NaN.
Proof. vm_compute. reflexivity. Qed.

(** X12. A notification that passes the checks made before the table is
    read but carries no amount is answered [amount mismatch] for every
    [pending] order, whatever the order costs; no update is sent. *)
Theorem webhook_requires_money (o : oracle) (env : Env) (query : params)
    (w : world) (order : Order) :
  accepted env query ->
  query !! "money" = None ->
  fault o (tick w) = false ->
  table w !! notified query = Some order ->
  order_status order = pending ->
  run o (webhook env query) w = (Send 400 "amount mismatch", next w)
  /\ statements o (webhook env query) w = [SqlSelect (notified query)].
Proof.
  intros Hacc Hmoney Hf1 Hlook Hst.
  assert (Hneq : number_neq (parseFloat (prop query "money"))
                   (amount_number order) = true).
  { unfold prop. rewrite Hmoney. cbn [default].
    by rewrite parseFloat_undefined. }
  split; webhook_to_lookup Hacc; unfold exec_select, db_select;
    fold (notified query); rewrite Hf1, Hlook; cbn [error data];
    rewrite bool_decide_eq_true_2 by done; cbn [negb];
    rewrite Hneq; reflexivity.
Qed.

Lemma accepted_without_money :
  accepted Scenario.env notification_without_money.
Proof. constructor; vm_compute; reflexivity. Qed.

Lemma webhook_requires_money_witness :
  accepted Scenario.env notification_without_money
  /\ run Scenario.calm (webhook Scenario.env notification_without_money)
       (mkWorld Scenario.t_pending 0)
     = (Send 400 "amount mismatch", mkWorld Scenario.t_pending 1).
Proof.
  split; [apply accepted_without_money|].
  apply (webhook_requires_money Scenario.calm Scenario.env
           notification_without_money (mkWorld Scenario.t_pending 0)
           (mkOrder Scenario.order_no None "u1" 50 (Some "alipay") None pending
              Scenario.noon Scenario.noon)).
  - apply accepted_without_money.
  - vm_compute. reflexivity.
  - reflexivity.
  - vm_compute. reflexivity.
  - reflexivity.
Defined.

(* ===================================================================== *)
(** * More on the payment check of the analysis *)
(* ===================================================================== *)

Ltac analyze_to_lookup Hgat :=
  destruct Hgat as [Himg Hreq Hno Hclient];
  unfold analyze; rewrite Himg, Hreq, Hno, Hclient;
  cbn [negb run statements].

(** The run of an analysis that finds its order [paid]. *)
Lemma analyze_run_paid (o : oracle) (env : Env) (body : params) (w : world)
    (order : Order) :
  gated env body ->
  fault o (tick w) = false ->
  table w !! presented body = Some order ->
  order_status order = paid ->
  fault o (S (S (tick w))) = false ->
  run o (analyze env body) w
  = (ContinueToAnalysis,
     mkWorld
       (<[presented body :=
            apply_patch (consume_patch (clock o (S (tick w))))
              (clock o (S (S (tick w)))) order]> (table w))
       (S (S (S (tick w))))).
Proof.
  intros Hgat Hf1 Hlook Hst Hf2. analyze_to_lookup Hgat.
  unfold exec_select, db_select. fold (presented body). rewrite Hf1, Hlook.
  cbn [error data].
  rewrite bool_decide_eq_false_2 by congruence.
  rewrite bool_decide_eq_true_2 by done. cbn [negb run].
  unfold exec_update, next. cbn [tick table]. rewrite Hf2.
  unfold db_update. rewrite Hlook. rewrite decide_True by done. reflexivity.
Qed.

(** The run of an analysis that finds its order [analyzed]. *)
Lemma analyze_run_analyzed (o : oracle) (env : Env) (body : params)
    (w : world) (order : Order) :
  gated env body ->
  fault o (tick w) = false ->
  table w !! presented body = Some order ->
  order_status order = analyzed ->
  run o (analyze env body) w
  = (JsonError 409 "该订单已使用，每次支付仅可分析一次", next w).
Proof.
  intros Hgat Hf1 Hlook Hst. analyze_to_lookup Hgat.
  unfold exec_select, db_select. fold (presented body). rewrite Hf1, Hlook.
  cbn [error data]. rewrite bool_decide_eq_true_2 by done. reflexivity.
Qed.

(** The three ways a run of the payment check ends. *)
Lemma analyze_effect (o : oracle) (env : Env) (body : params) (w : world) :
  (exists http message,
     (run o (analyze env body) w).1 = JsonError http message
     /\ table (run o (analyze env body) w).2 = table w)
  \/ (truthy (prop body "image") = true /\ PAYMENT_REQUIRED env = false
      /\ run o (analyze env body) w = (ContinueToAnalysis, w))
  \/ (gated env body
      /\ fault o (tick w) = false /\ fault o (S (S (tick w))) = false
      /\ exists order,
           table w !! presented body = Some order
           /\ order_status order = paid).
Proof.
  destruct (truthy (prop body "image")) eqn:K1; cycle 1.
  { left. unfold analyze. rewrite K1. by eexists _, _. }
  destruct (PAYMENT_REQUIRED env) eqn:K2; cycle 1.
  { right; left. unfold analyze. rewrite K1, K2. done. }
  destruct (truthy (prop body "out_trade_no")) eqn:K3; cycle 1.
  { left. unfold analyze. rewrite K1, K2, K3. by eexists _, _. }
  destruct (createServerAdminClient env) eqn:K4; cycle 1.
  { left. unfold analyze. rewrite K1, K2, K3, K4. by eexists _, _. }
  assert (Hgat : gated env body) by (by constructor).
  destruct (fault o (tick w)) eqn:Hf1.
  { left. analyze_to_lookup Hgat. unfold exec_select. rewrite Hf1.
    by eexists _, _. }
  destruct (table w !! presented body) as [order|] eqn:Hlook; cycle 1.
  { left. analyze_to_lookup Hgat. unfold exec_select, db_select.
    fold (presented body). rewrite Hf1, Hlook. by eexists _, _. }
  destruct (decide (order_status order = analyzed)) as [Han|Han].
  { left. rewrite (analyze_run_analyzed o env body w order) by done.
    by eexists _, _. }
  destruct (decide (order_status order = paid)) as [Hst|Hst]; cycle 1.
  { left. analyze_to_lookup Hgat. unfold exec_select, db_select.
    fold (presented body). rewrite Hf1, Hlook. cbn [error data].
    rewrite bool_decide_eq_false_2 by done.
    rewrite bool_decide_eq_false_2 by done. by eexists _, _. }
  destruct (fault o (S (S (tick w)))) eqn:Hf2.
  { left. analyze_to_lookup Hgat. unfold exec_select, db_select.
    fold (presented body). rewrite Hf1, Hlook. cbn [error data].
    rewrite bool_decide_eq_false_2 by done.
    rewrite bool_decide_eq_true_2 by done. cbn [negb run].
    unfold exec_update, next. cbn [tick table]. rewrite Hf2.
    by eexists _, _. }
  right; right. split; [done|]. split; [done|]. split; [done|].
  by exists order.
Qed.

(** X15. A run of the payment check lets the request through to the model
    exactly when it carries an image and either the payment check is off
    (the table or the merchant is not configured) or it names an order,
    the lookup finds that order [paid] and the backend fails neither the
    lookup nor the update. *)
Theorem analyze_passes_iff (o : oracle) (env : Env) (body : params)
    (w : world) :
  (run o (analyze env body) w).1 = ContinueToAnalysis
  <-> truthy (prop body "image") = true
      /\ (PAYMENT_REQUIRED env = false
          \/ (truthy (prop body "out_trade_no") = true
              /\ createServerAdminClient env = true
              /\ fault o (tick w) = false
              /\ fault o (S (S (tick w))) = false
              /\ exists order,
                   table w !! presented body = Some order
                   /\ order_status order = paid)).
Proof.
  split.
  - intros Hpass.
    destruct (analyze_effect o env body w)
      as [(http & message & Herr & _)
         |[(Himg & Hoff & _)
          |(Hgat & Hf1 & Hf2 & order & Hlook & Hst)]].
    + rewrite Herr in Hpass. discriminate.
    + split; [done|by left].
    + destruct Hgat as [Himg Hreq Hno Hclient].
      split; [done|]. right. repeat (split; [done|]). by exists order.
  - intros [Himg [Hoff|(Hno & Hclient & Hf1 & Hf2 & order & Hlook & Hst)]].
    + unfold analyze. rewrite Himg, Hoff. reflexivity.
    + destruct (PAYMENT_REQUIRED env) eqn:Hreq.
      * by rewrite (analyze_run_paid o env body w order).
      * unfold analyze. rewrite Himg, Hreq. reflexivity.
Qed.

(** X16. An analysis request leaves alone every order but the one it
    presents, and leaves that one alone too unless it is [paid]. *)
Theorem analyze_spares_other_orders (o : oracle) (env : Env) (body : params)
    (w : world) (no : string) :
  no <> presented body
  \/ (exists order, table w !! no = Some order /\ order_status order <> paid) ->
  table (run o (analyze env body) w).2 !! no = table w !! no.
Proof.
  intros Hno.
  destruct (analyze_effect o env body w)
    as [(http & message & _ & Hsame)
       |[(_ & _ & Hrun)
        |(Hgat & Hf1 & Hf2 & order & Hlook & Hst)]].
  - by rewrite Hsame.
  - by rewrite Hrun.
  - rewrite (analyze_run_paid o env body w order) by done.
    cbn [snd table]. rewrite lookup_insert_ne; [done|].
    intros <-. destruct Hno as [Hno|(order' & Hlook' & Hst')]; [done|].
    rewrite Hlook in Hlook'. by simplify_eq.
Qed.

(** An upload that presents an order still [pending]. *)
Lemma analyze_spares_other_orders_witness :
  table (run Scenario.calm (analyze Scenario.env Scenario.upload)
           (mkWorld Scenario.t_pending 0)).2 !! Scenario.order_no
  = Scenario.t_pending !! Scenario.order_no.
Proof.
  apply (analyze_spares_other_orders Scenario.calm Scenario.env
           Scenario.upload (mkWorld Scenario.t_pending 0) Scenario.order_no).
  right. eexists. split; [vm_compute; reflexivity|discriminate].
Defined.

(** X17. A payment is used once.  An analysis request that finds its order
    [paid], and whose statements the backend does not fail, goes on to the
    model and leaves the order [analyzed], with nothing else changed but
    the stamp of the database; any request that presents the same order
    afterwards is answered 409 and changes nothing. *)
Theorem analyze_consumes_payment (o o' : oracle) (env env' : Env)
    (body body' : params) (w : world) (order : Order) :
  gated env body ->
  fault o (tick w) = false ->
  table w !! presented body = Some order ->
  order_status order = paid ->
  fault o (S (S (tick w))) = false ->
  gated env' body' ->
  presented body' = presented body ->
  fault o' (S (S (S (tick w)))) = false ->
  let first := run o (analyze env body) w in
  let second := run o' (analyze env' body') first.2 in
  first.1 = ContinueToAnalysis
  /\ table first.2 !! presented body
     = Some (mkOrder (out_trade_no order) (trade_no order) (uid order)
               (amount order) (pay_type order) (trade_status order) analyzed
               (created_at order) (clock o (S (S (tick w)))))
  /\ second.1 = JsonError 409 "该订单已使用，每次支付仅可分析一次"
  /\ table second.2 = table first.2.
Proof.
  intros Hgat Hf1 Hlook Hst Hf2 Hgat' Hsame Hf3 first second.
  subst second first.
  rewrite (analyze_run_paid o env body w order) by done.
  cbn [fst snd table]. split; [reflexivity|].
  split; [by rewrite lookup_insert_eq|].
  erewrite (analyze_run_analyzed o' env' body'); [done|done|done| |].
  - cbn [table]. rewrite Hsame. apply lookup_insert_eq.
  - reflexivity.
Qed.

(** Two uploads for the [paid] order of the scenario, one after the
    other. *)
Lemma analyze_consumes_payment_witness :
  gated Scenario.env Scenario.upload
  /\ (run Scenario.calm (analyze Scenario.env Scenario.upload)
        (run Scenario.calm (analyze Scenario.env Scenario.upload)
           (mkWorld Scenario.t_paid 0)).2).1
     = JsonError 409 "该订单已使用，每次支付仅可分析一次".
Proof.
  assert (Hgat : gated Scenario.env Scenario.upload)
    by (constructor; reflexivity).
  split; [exact Hgat|].
  pose proof (analyze_consumes_payment Scenario.calm Scenario.calm
                Scenario.env Scenario.env Scenario.upload Scenario.upload
                (mkWorld Scenario.t_paid 0)
                (mkOrder Scenario.order_no (Some "T1") "u1" 50 (Some "alipay")
                   (Some "TRADE_SUCCESS") paid Scenario.noon Scenario.noon)
                Hgat eq_refl eq_refl eq_refl eq_refl Hgat eq_refl eq_refl)
    as H.
  destruct H as (_ & _ & H & _). exact H.
Defined.

Lemma thread_run_Done {A : Type} (a b : A) ts :
  thread_run (Done a) ts (Done b) -> a = b.
Proof.
  intros Hrun. inversion Hrun as [|t a1 t' a2 ts' a3 Hstep Hrest]; subst;
    [done|inversion Hstep].
Qed.

(** X18. With the payment check on, a request that gets through to the
    model has read its order as [paid] at its first effect, the lookup:
    whatever the other requests in flight do to the table in between, no
    analysis is made for an order that was not paid when it was looked
    up. *)
Theorem analyze_pass_needs_paid_read (env : Env) (body : params)
    (ts : list (orders * orders)) :
  PAYMENT_REQUIRED env = true ->
  thread_run (analyze env body) ts (Done ContinueToAnalysis) ->
  exists t ts' order,
    ts = (t, t) :: ts'
    /\ t !! presented body = Some order
    /\ order_status order = paid.
Proof.
  intros Hreq. unfold analyze. rewrite Hreq.
  destruct (truthy (prop body "image")); cbn [negb];
    [|by intros ?%thread_run_Done].
  destruct (truthy (prop body "out_trade_no")); cbn [negb];
    [|by intros ?%thread_run_Done].
  destruct (createServerAdminClient env); cbn [negb];
    [|by intros ?%thread_run_Done].
  fold (presented body). intros Hrun.
  inversion Hrun as [|t a t' a' ts' a2 Hstep Hrest]; subst.
  inversion Hstep; subst; cbv beta in Hrest.
  - unfold db_select in Hrest.
    destruct (t' !! presented body) as [order|] eqn:Hlook;
      cbn [error data] in Hrest; [|by apply thread_run_Done in Hrest].
    destruct (decide (order_status order = analyzed)) as [Han|Han].
    { rewrite bool_decide_eq_true_2 in Hrest by done.
      by apply thread_run_Done in Hrest. }
    rewrite bool_decide_eq_false_2 in Hrest by done.
    destruct (decide (order_status order = paid)) as [Hst|Hst].
    + by exists t', ts', order.
    + rewrite bool_decide_eq_false_2 in Hrest by done. cbn [negb] in Hrest.
      by apply thread_run_Done in Hrest.
  - cbn [error data] in Hrest. by apply thread_run_Done in Hrest.
Qed.

(** The upload of the scenario, effect by effect, for the [paid] order. *)
Lemma analyze_pass_needs_paid_read_witness :
  thread_run (analyze Scenario.env Scenario.upload)
    [(Scenario.t_paid, Scenario.t_paid); (Scenario.t_paid, Scenario.t_paid);
     (Scenario.t_paid, Scenario.t_analyzed)]
    (Done ContinueToAnalysis)
  /\ exists t ts' order,
       [(Scenario.t_paid, Scenario.t_paid); (Scenario.t_paid, Scenario.t_paid);
        (Scenario.t_paid, Scenario.t_analyzed)] = (t, t) :: ts'
       /\ t !! presented Scenario.upload = Some order
       /\ order_status order = paid.
Proof.
  assert (Hrun : thread_run (analyze Scenario.env Scenario.upload)
            [(Scenario.t_paid, Scenario.t_paid);
             (Scenario.t_paid, Scenario.t_paid);
             (Scenario.t_paid, Scenario.t_analyzed)]
            (Done ContinueToAnalysis)).
  { eapply thread_run_cons; [apply step_select|].
    eapply thread_run_cons; [apply (step_now _ _ Scenario.noon)|].
    eapply thread_run_cons; [|apply thread_run_nil].
    apply thread_exec_sound with Scenario.ok. vm_compute. reflexivity. }
  split; [exact Hrun|].
  exact (analyze_pass_needs_paid_read Scenario.env Scenario.upload _ eq_refl
           Hrun).
Defined.

(** An upload that presents an order still [pending], with no other
    request in flight. *)
Lemma analyze_alone_witness :
  gated Scenario.env Scenario.upload
  /\ run Scenario.calm (analyze Scenario.env Scenario.upload)
       (mkWorld Scenario.t_pending 0)
     = (JsonError 402 "订单尚未完成支付，请先支付 ¥0.50",
        mkWorld Scenario.t_pending 1).
Proof.
  assert (Hgat : gated Scenario.env Scenario.upload)
    by (constructor; reflexivity).
  split; [exact Hgat|].
  exact (analyze_alone Scenario.calm Scenario.env Scenario.upload
           (mkWorld Scenario.t_pending 0) Hgat eq_refl eq_refl).
Defined.

(** The upload reads its order as [paid]; by the time its update is sent
    the order is [analyzed]. *)
Lemma analyze_after_paid_read_witness :
  gated Scenario.env Scenario.upload
  /\ exists a1 a2 a3,
       thread_step Scenario.t_paid (analyze Scenario.env Scenario.upload)
         Scenario.t_paid a1
       /\ thread_step Scenario.t_analyzed a1 Scenario.t_analyzed a2
       /\ thread_step Scenario.t_analyzed a2 Scenario.t_analyzed a3
       /\ a3 = Done ContinueToAnalysis.
Proof.
  assert (Hgat : gated Scenario.env Scenario.upload)
    by (constructor; reflexivity).
  split; [exact Hgat|].
  exact (analyze_after_paid_read Scenario.env Scenario.upload Scenario.t_paid
           Scenario.t_analyzed
           (mkOrder Scenario.order_no (Some "T1") "u1" 50 (Some "alipay")
              (Some "TRADE_SUCCESS") paid Scenario.noon Scenario.noon)
           Scenario.noon Scenario.noon Hgat eq_refl eq_refl).
Defined.

(* ===================================================================== *)
(** * What no request changes *)
(* ===================================================================== *)

Lemma db_update_lookup t pt no expected db_now no' :
  db_update t pt no expected db_now !! no' = t !! no'
  \/ (no' = no
      /\ exists o, t !! no = Some o /\ order_status o = expected
           /\ db_update t pt no expected db_now !! no'
              = Some (apply_patch pt db_now o)).
Proof.
  unfold db_update. destruct (t !! no) as [o|] eqn:Ho; [|by left].
  destruct (decide (order_status o = expected)); [|by left].
  destruct (decide (no' = no)) as [->|Hne].
  - right. split; [done|]. exists o. by rewrite lookup_insert_eq.
  - left. by rewrite lookup_insert_ne.
Qed.

Lemma db_insert_lookup t row db_now no' :
  (db_insert t row db_now).1 !! no' = t !! no'
  \/ (no' = new_out_trade_no row /\ t !! no' = None
      /\ exists cents,
           to_decimal_10_2 (new_amount row) = Some cents
           /\ (db_insert t row db_now).1 !! no'
              = Some (mkOrder no' None (new_uid row) cents
                        (Some (new_pay_type row)) None (new_status row)
                        db_now db_now)).
Proof.
  unfold db_insert.
  destruct (t !! new_out_trade_no row) as [old|] eqn:Hold; [by left|].
  destruct (to_decimal_10_2 (new_amount row)) as [cents|]; [|by left].
  cbn [fst]. destruct (decide (no' = new_out_trade_no row)) as [->|Hne].
  - right. split; [done|]. split; [done|]. exists cents.
    by rewrite lookup_insert_eq.
  - left. by rewrite lookup_insert_ne.
Qed.

(** What one effect of a request does to the entry of a number: nothing,
    or the update of the order stored there, or the insert of an order
    under a number that was free. *)
Lemma thread_step_lookup {A} t (a : action A) t' a' no :
  thread_step t a t' a' ->
  t' !! no = t !! no
  \/ (exists pt expected k db_now o,
        a = Update pt no expected k /\ t !! no = Some o
        /\ order_status o = expected
        /\ t' !! no = Some (apply_patch pt db_now o))
  \/ (exists row k db_now cents,
        a = Insert row k /\ no = new_out_trade_no row /\ t !! no = None
        /\ to_decimal_10_2 (new_amount row) = Some cents
        /\ t' !! no
           = Some (mkOrder no None (new_uid row) cents
                     (Some (new_pay_type row)) None (new_status row)
                     db_now db_now)).
Proof.
  intros Hstep. destruct Hstep; try by left.
  - destruct (db_update_lookup t pt no0 expected db_now no)
      as [Hsame|(-> & o & Ho & Hst & Hnew)]; [by left|].
    right; left. by exists pt, expected, k, db_now, o.
  - destruct (db_insert_lookup t row db_now no)
      as [Hsame|(-> & Hfree & cents & Hc & Hnew)]; [by left|].
    right; right. by exists row, k, db_now, cents.
Qed.

Lemma same_identity_refl o : same_identity o o.
Proof. by repeat split. Qed.

Lemma same_identity_trans o1 o2 o3 :
  same_identity o1 o2 -> same_identity o2 o3 -> same_identity o1 o3.
Proof. unfold same_identity. intros (?&?&?&?) (?&?&?&?). repeat split; congruence. Qed.

Lemma thread_step_identity {A} t (a : action A) t' a' :
  thread_step t a t' a' ->
  (forall no o, t !! no = Some o ->
     exists o', t' !! no = Some o' /\ same_identity o o')
  /\ (well_keyed t -> well_keyed t').
Proof.
  intros Hstep. split.
  - intros no o Ho.
    destruct (thread_step_lookup t a t' a' no Hstep)
      as [Hsame|[(pt & expected & k & db_now & o0 & _ & Ho0 & _ & Hnew)
                |(row & k & db_now & cents & _ & _ & Hfree & _)]].
    + exists o. split; [congruence|apply same_identity_refl].
    + rewrite Ho in Ho0. simplify_eq. eexists. split; [done|].
      by repeat split.
    + congruence.
  - intros Hkeys no o' Ho'.
    destruct (thread_step_lookup t a t' a' no Hstep)
      as [Hsame|[(pt & expected & k & db_now & o0 & _ & Ho0 & _ & Hnew)
                |(row & k & db_now & cents & _ & _ & _ & _ & Hnew)]].
    + apply Hkeys. congruence.
    + rewrite Ho' in Hnew. simplify_eq. cbn [apply_patch out_trade_no].
      by apply Hkeys.
    + rewrite Ho' in Hnew. by simplify_eq.
Qed.

(** The amount of a stored order along a run. *)
Lemma system_steps_amount s s' :
  rtc system_step s s' ->
  forall no o, s.1 !! no = Some o ->
    exists o', s'.1 !! no = Some o' /\ amount o' = amount o.
Proof.
  intros Hsteps. induction Hsteps as [s|s1 s2 s3 H12 H23 IH]; intros no o Ho.
  - by exists o.
  - destruct H12 as [t1 pool1 i a t2 a' Hi Ha]. cbn [fst] in *.
    destruct (proj1 (thread_step_identity _ _ _ _ Ha) no o Ho)
      as (o2 & Ho2 & _ & _ & Ham2 & _).
    destruct (IH no o2 Ho2) as (o3 & Ho3 & Ham3).
    exists o3. split; [done|congruence].
Qed.

(** X19. Whatever requests are in flight, of these routes or of any other
    made of the same statements, and however they interleave: an order
    once stored stays stored under its number, and its number, its user,
    its amount and its date of creation never change; and if every order
    was stored under its own number, so it remains. *)
Theorem orders_keep_identity (t : orders) (pool : list (action response))
    (s' : system) :
  rtc system_step (t, pool) s' ->
  (forall no o, t !! no = Some o ->
     exists o', s'.1 !! no = Some o' /\ same_identity o o')
  /\ (well_keyed t -> well_keyed s'.1).
Proof.
  intros Hsteps.
  remember (t, pool) as s eqn:Hs.
  assert (Ht : s.1 = t) by (by subst s). clear Hs. rewrite <- Ht. clear Ht.
  induction Hsteps as [s|s1 s2 s3 H12 H23 [IHid IHkeys]].
  - split; [|done]. intros no o Ho. exists o.
    split; [done|apply same_identity_refl].
  - destruct H12 as [t1 pool1 i a t2 a' Hi Ha]. cbn [fst] in *.
    destruct (thread_step_identity _ _ _ _ Ha) as [Hid Hkeys].
    split; [|by auto].
    intros no o Ho. destruct (Hid no o Ho) as (o2 & Ho2 & H2).
    destruct (IHid no o2 Ho2) as (o3 & Ho3 & H3).
    exists o3. split; [done|by eapply same_identity_trans].
Qed.

(** The scenario as requests in flight: the notification of the payment
    and the upload, one after the other, on the table with the [pending]
    order. *)
Lemma scenario_requests :
  Forall request
    [webhook Scenario.env (Scenario.notification "0.50");
     analyze Scenario.env Scenario.upload].
Proof.
  apply List.Forall_cons; [apply request_webhook|].
  apply List.Forall_cons; [apply request_analyze|apply List.Forall_nil].
Qed.

Lemma scenario_interleaving :
  rtc system_step
    (Scenario.t_pending,
     [webhook Scenario.env (Scenario.notification "0.50");
      analyze Scenario.env Scenario.upload])
    (Scenario.t_analyzed, [Done (Send 200 "success"); Done ContinueToAnalysis]).
Proof.
  apply schedule_sound with
    [(0, Scenario.ok); (0, Scenario.ok); (0, Scenario.ok);
     (1, Scenario.ok); (1, Scenario.ok); (1, Scenario.ok)]%nat.
  vm_compute. reflexivity.
Qed.

(** The two halves of the scenario: the notification is handled, then the
    upload. *)
Lemma scenario_payment :
  rtc system_step
    (Scenario.t_pending,
     [webhook Scenario.env (Scenario.notification "0.50");
      analyze Scenario.env Scenario.upload])
    (Scenario.t_paid,
     [Done (Send 200 "success"); analyze Scenario.env Scenario.upload]).
Proof.
  apply schedule_sound with
    [(0, Scenario.ok); (0, Scenario.ok); (0, Scenario.ok)]%nat.
  vm_compute. reflexivity.
Qed.

Lemma scenario_analysis :
  rtc system_step
    (Scenario.t_paid,
     [Done (Send 200 "success"); analyze Scenario.env Scenario.upload])
    (Scenario.t_analyzed, [Done (Send 200 "success"); Done ContinueToAnalysis]).
Proof.
  apply schedule_sound with
    [(1, Scenario.ok); (1, Scenario.ok); (1, Scenario.ok)]%nat.
  vm_compute. reflexivity.
Qed.

(** The checkout of the scenario as a request in flight, on an empty
    table. *)
Lemma scenario_checkout_steps :
  rtc system_step
    (∅, [checkout_url Scenario.env Scenario.cart])
    (Scenario.t_pending, [Done (JsonCheckout checkout_link Scenario.order_no)]).
Proof.
  apply schedule_sound with
    [(0, Scenario.ok); (0, Scenario.ok); (0, Scenario.ok)]%nat.
  vm_compute. reflexivity.
Qed.

Lemma orders_keep_identity_witness :
  rtc system_step
    (Scenario.t_pending,
     [webhook Scenario.env (Scenario.notification "0.50");
      analyze Scenario.env Scenario.upload])
    (Scenario.t_analyzed, [Done (Send 200 "success"); Done ContinueToAnalysis])
  /\ exists o',
       Scenario.t_analyzed !! Scenario.order_no = Some o'
       /\ same_identity
            (mkOrder Scenario.order_no None "u1" 50 (Some "alipay") None
               pending Scenario.noon Scenario.noon) o'.
Proof.
  split; [exact scenario_interleaving|].
  destruct (orders_keep_identity _ _ _ scenario_interleaving) as [Hid _].
  exact (Hid Scenario.order_no
           (mkOrder Scenario.order_no None "u1" 50 (Some "alipay") None
              pending Scenario.noon Scenario.noon) eq_refl).
Defined.

(* ===================================================================== *)
(** * What the routes record of a payment *)
(* ===================================================================== *)

Lemma request_disciplined a : request a -> disciplined a.
Proof.
  destruct 1 as [env body|env query|env body].
  - unfold checkout_url.
    repeat first
      [ apply disciplined_Done
      | apply disciplined_Now; intros ?
      | apply disciplined_Random; intros ?
      | apply disciplined_Insert; [reflexivity|reflexivity|intros ?]
      | case_match ].
  - unfold webhook.
    destruct (truthy (env_value (ZPAY_KEY env))); cbn [negb];
      [|apply disciplined_Done].
    destruct (verifySign query (js_to_string (env_value (ZPAY_KEY env))));
      cbn [negb]; [|apply disciplined_Done].
    destruct (strict_eq_str (prop query "trade_status") "TRADE_SUCCESS")
      eqn:Hpaid; cbn [negb]; [|apply disciplined_Done].
    apply strict_eq_str_true in Hpaid.
    destruct (createServerAdminClient env); cbn [negb];
      [|apply disciplined_Done].
    apply disciplined_Select. intros r.
    destruct (error r); [apply disciplined_Done|].
    destruct (data r) as [order|]; [|apply disciplined_Done].
    destruct (bool_decide (order_status order = pending)); cbn [negb];
      [|apply disciplined_Done].
    destruct (number_neq (parseFloat (prop query "money")) (amount_number order));
      [apply disciplined_Done|].
    apply disciplined_Now. intros d.
    apply disciplined_Update; [by apply recording_pay|].
    intros [e|]; apply disciplined_Done.
  - unfold analyze.
    repeat first
      [ apply disciplined_Done
      | apply disciplined_Now; intros ?
      | apply disciplined_Select; intros ?
      | apply disciplined_Update; [by apply recording_consume|intros ?]
      | case_match ].
Qed.

Lemma payment_frozen_refl t : payment_frozen t t.
Proof. intros no o Ho Hst. by exists o. Qed.

Lemma created_at_price_refl t : created_at_price t t.
Proof. intros no o Hfree Ho. congruence. Qed.

Lemma disciplined_Update_inv {A} pt no expected (k : option db_error -> action A) :
  disciplined (Update pt no expected k) -> recording pt expected.
Proof. by inversion 1. Qed.

Lemma disciplined_Insert_inv {A} row (k : option db_error -> action A) :
  disciplined (Insert row k) ->
  new_status row = pending /\ new_amount row = parseFloat_string ORDER_AMOUNT.
Proof. by inversion 1. Qed.

(** One effect of a request of the routes. *)
Lemma thread_step_disciplined {A} t (a : action A) t' a' :
  disciplined a -> thread_step t a t' a' ->
  disciplined a'
  /\ payment_frozen t t'
  /\ (confirmed t -> confirmed t')
  /\ (forall no o', t' !! no = Some o' ->
        (exists o, t !! no = Some o /\ amount o' = amount o)
        \/ (t !! no = None /\ amount o' = 50)).
Proof.
  intros Hd Hstep. split.
  { destruct Hstep; inversion Hd; subst; auto. }
  split; [|split].
  - intros no o Ho Hst.
    destruct (thread_step_lookup t a t' a' no Hstep)
      as [Hsame|[(pt & expected & k & db_now & o0 & -> & Ho0 & Hexp & Hnew)
                |(row & k & db_now & cents & _ & _ & Hfree & _)]].
    + exists o. split; [congruence|done].
    + rewrite Ho in Ho0. injection Ho0 as <-.
      apply disciplined_Update_inv in Hd.
      destruct Hd as [pt Hs Hts|pt Hs Htn Hts Hpt]; [congruence|].
      eexists. split; [exact Hnew|].
      unfold payment_record, apply_patch.
      cbn [trade_no trade_status pay_type order_status].
      rewrite Hs, Htn, Hts, Hpt. split; [reflexivity|discriminate].
    + congruence.
  - intros Hc no o' Ho' Hst'.
    destruct (thread_step_lookup t a t' a' no Hstep)
      as [Hsame|[(pt & expected & k & db_now & o0 & -> & Ho0 & Hexp & Hnew)
                |(row & k & db_now & cents & -> & _ & _ & _ & Hnew)]].
    + apply (Hc no); [congruence|done].
    + rewrite Ho' in Hnew. injection Hnew as ->.
      apply disciplined_Update_inv in Hd.
      destruct Hd as [pt Hs Hts|pt Hs Htn Hts Hpt];
        unfold apply_patch; cbn [trade_status]; rewrite Hts; [done|].
      cbn [set_column]. apply (Hc no o0 Ho0). congruence.
    + rewrite Ho' in Hnew. injection Hnew as ->.
      apply disciplined_Insert_inv in Hd as [Hs _].
      cbn [order_status] in Hst'. congruence.
  - intros no o' Ho'.
    destruct (thread_step_lookup t a t' a' no Hstep)
      as [Hsame|[(pt & expected & k & db_now & o0 & -> & Ho0 & Hexp & Hnew)
                |(row & k & db_now & cents & -> & _ & Hfree & Hc & Hnew)]].
    + left. exists o'. split; [congruence|done].
    + left. exists o0. rewrite Ho' in Hnew. injection Hnew as ->. done.
    + right. split; [done|]. rewrite Ho' in Hnew. injection Hnew as ->.
      apply disciplined_Insert_inv in Hd as [_ Ham].
      rewrite Ham, order_amount_cents in Hc. cbn [amount]. congruence.
Qed.

Lemma system_steps_disciplined s s' :
  Forall disciplined s.2 -> rtc system_step s s' ->
  Forall disciplined s'.2
  /\ payment_frozen s.1 s'.1
  /\ (confirmed s.1 -> confirmed s'.1)
  /\ created_at_price s.1 s'.1.
Proof.
  intros Hpool Hsteps. induction Hsteps as [s|s1 s2 s3 H12 H23 IH].
  - split; [done|]. split; [apply payment_frozen_refl|].
    split; [done|apply created_at_price_refl].
  - destruct H12 as [t1 pool1 i a t2 a' Hi Ha]. cbn [fst snd] in *.
    assert (Hda : disciplined a).
    { rewrite Forall_forall in Hpool. apply Hpool.
      by eapply list_elem_of_lookup_2. }
    destruct (thread_step_disciplined _ _ _ _ Hda Ha)
      as (Hda' & Hfr & Hcf & Horigin).
    destruct (IH (Forall_insert _ _ _ _ Hpool Hda'))
      as (Hpool3 & Hfr3 & Hcf3 & Hnew3).
    split; [done|]. split; [|split].
    + intros no o Ho Hst. destruct (Hfr no o Ho Hst) as (o2 & Ho2 & Hrec & Hst2).
      destruct (Hfr3 no o2 Ho2 Hst2) as (o3 & Ho3 & Hrec3 & Hst3).
      exists o3. split; [done|]. split; [congruence|done].
    + auto.
    + intros no o3 Hfree Ho3.
      destruct (t2 !! no) as [o2|] eqn:Ho2.
      * destruct (Horigin no o2 Ho2) as [(o1 & Ho1 & _)|[_ Hprice]];
          [congruence|].
        destruct (system_steps_amount _ _ H23 no o2 Ho2) as (o3' & Ho3' & Ham).
        rewrite Ho3 in Ho3'. simplify_eq. congruence.
      * by apply (Hnew3 no).
Qed.

(** X20. Whatever checkouts, notifications and analyses are in flight and
    however they interleave, with any input and any failure of the
    backend, and between any two states the run goes through: an order
    that is [paid] or [analyzed] at the first, whether it was so from the
    start or was paid during the run, is not [pending] at the second and
    has the trade number, the trade status and the payment type it had at
    the first; and if at the first every order that is not [pending]
    carried the status TRADE_SUCCESS of the provider, this is still so at
    the second. *)
Theorem payments_stay_recorded (t : orders) (pool : list (action response))
    (s1 s2 : system) :
  Forall request pool ->
  rtc system_step (t, pool) s1 ->
  rtc system_step s1 s2 ->
  payment_frozen s1.1 s2.1 /\ (confirmed s1.1 -> confirmed s2.1).
Proof.
  intros Hreq Hsteps1 Hsteps2.
  assert (Hpool : Forall disciplined (t, pool).2).
  { cbn [snd]. eapply Forall_impl; [exact Hreq|]. apply request_disciplined. }
  destruct (system_steps_disciplined _ _ Hpool Hsteps1) as (Hpool1 & _).
  destruct (system_steps_disciplined _ _ Hpool1 Hsteps2)
    as (_ & Hfr & Hcf & _).
  done.
Qed.

(** The order of the scenario is paid during the run; what the payment
    recorded is still there at the end. *)
Lemma payments_stay_recorded_witness :
  Forall request
    [webhook Scenario.env (Scenario.notification "0.50");
     analyze Scenario.env Scenario.upload]
  /\ rtc system_step
       (Scenario.t_pending,
        [webhook Scenario.env (Scenario.notification "0.50");
         analyze Scenario.env Scenario.upload])
       (Scenario.t_paid,
        [Done (Send 200 "success"); analyze Scenario.env Scenario.upload])
  /\ rtc system_step
       (Scenario.t_paid,
        [Done (Send 200 "success"); analyze Scenario.env Scenario.upload])
       (Scenario.t_analyzed, [Done (Send 200 "success"); Done ContinueToAnalysis])
  /\ exists o',
       Scenario.t_analyzed !! Scenario.order_no = Some o'
       /\ payment_record o' = (Some "T1", Some "TRADE_SUCCESS", Some "alipay")
       /\ order_status o' <> pending.
Proof.
  split; [exact scenario_requests|]. split; [exact scenario_payment|].
  split; [exact scenario_analysis|].
  destruct (payments_stay_recorded _ _ _ _ scenario_requests scenario_payment
              scenario_analysis) as [Hfr _].
  exact (Hfr Scenario.order_no
           (mkOrder Scenario.order_no (Some "T1") "u1" 50 (Some "alipay")
              (Some "TRADE_SUCCESS") paid Scenario.noon Scenario.noon)
           eq_refl ltac:(discriminate)).
Defined.

(** X21. Whatever checkouts, notifications and analyses are in flight and
    however they interleave, every order that appears in the table costs
    0.50, whatever the requests carry. *)
Theorem created_orders_cost_fifty (t : orders)
    (pool : list (action response)) (s' : system) :
  Forall request pool ->
  rtc system_step (t, pool) s' ->
  created_at_price t s'.1.
Proof.
  intros Hreq Hsteps.
  assert (Hpool : Forall disciplined (t, pool).2).
  { cbn [snd]. eapply Forall_impl; [exact Hreq|]. apply request_disciplined. }
  destruct (system_steps_disciplined _ _ Hpool Hsteps) as (_ & _ & _ & Hnew).
  done.
Qed.

Lemma created_orders_cost_fifty_witness :
  rtc system_step
    (∅, [checkout_url Scenario.env Scenario.cart])
    (Scenario.t_pending, [Done (JsonCheckout checkout_link Scenario.order_no)])
  /\ created_at_price ∅ Scenario.t_pending.
Proof.
  split; [exact scenario_checkout_steps|].
  apply (created_orders_cost_fifty ∅ [checkout_url Scenario.env Scenario.cart]
           (Scenario.t_pending,
            [Done (JsonCheckout checkout_link Scenario.order_no)])).
  - apply List.Forall_cons; [apply request_checkout|apply List.Forall_nil].
  - exact scenario_checkout_steps.
Defined.

(* ===================================================================== *)
(** * The status route *)
(* ===================================================================== *)

(** X22. The status route answers with a status and a user exactly when it
    is asked for a number, the client of the table is configured, the
    backend does not fail the lookup, and an order with that status and
    that user is stored under the number: no status is ever reported for
    an order that is not stored, and none but the stored one. *)
Theorem status_poll_reports (o : oracle) (env : Env) (query : params)
    (w : world) (st : status) (u : string) :
  (run o (status_poll env query) w).1 = PollStatus st u
  <-> truthy (prop query "out_trade_no") = true
      /\ createServerAdminClient env = true
      /\ fault o (tick w) = false
      /\ exists order,
           table w !! notified query = Some order
           /\ order_status order = st /\ uid order = u.
Proof.
  unfold status_poll.
  destruct (truthy (prop query "out_trade_no")); cbn [negb run fst];
    [|split; [discriminate|by intros [? _]]].
  destruct (createServerAdminClient env); cbn [negb run fst];
    [|split; [discriminate|by intros (_ & ? & _)]].
  unfold exec_select, db_select. fold (notified query).
  destruct (fault o (tick w)); cbn [error data run fst];
    [split; [discriminate|by intros (_ & _ & ? & _)]|].
  destruct (table w !! notified query) as [order|]; cbn [error data run fst].
  - split.
    + intros [= <- <-]. repeat (split; [done|]). by exists order.
    + intros (_ & _ & _ & order' & [= <-] & <- & <-). reflexivity.
  - split; [discriminate|]. by intros (_ & _ & _ & order' & ? & _).
Qed.

Lemma thread_run_Done_nil {A : Type} (a : A) ts b :
  thread_run (Done a) ts b -> ts = [].
Proof.
  intros Hrun. inversion Hrun as [|t a1 t' a2 ts' a3 Hstep Hrest]; subst;
    [done|inversion Hstep].
Qed.

(** X23. The status route only reads: at every point of a request, and
    whatever other requests do in between, its effects leave the table as
    they find it, and there is at most one of them. *)
Theorem status_poll_read_only (env : Env) (query : params)
    (ts : list (orders * orders)) (a : action poll_response) :
  thread_run (status_poll env query) ts a ->
  Forall (fun p => p.2 = p.1) ts /\ (length ts <= 1)%nat.
Proof.
  unfold status_poll.
  destruct (truthy (prop query "out_trade_no")); cbn [negb];
    [|intros ->%thread_run_Done_nil; split; [constructor|cbn; lia]].
  destruct (createServerAdminClient env); cbn [negb];
    [|intros ->%thread_run_Done_nil; split; [constructor|cbn; lia]].
  intros Hrun.
  inversion Hrun as [|t a1 t' a2 ts' a3 Hstep Hrest]; subst;
    [split; [constructor|cbn; lia]|].
  assert (Hts' : ts' = []).
  { inversion Hstep; subst; cbv beta in Hrest.
    - destruct (db_select t' (js_to_string (prop query "out_trade_no")))
        as [[order|] [e|]]; cbn [error data] in Hrest;
        by apply thread_run_Done_nil in Hrest.
    - cbn [error data] in Hrest. by apply thread_run_Done_nil in Hrest. }
  subst ts'. split; [|cbn; lia].
  constructor; [|constructor]. by inversion Hstep.
Qed.

Lemma status_poll_read_only_witness :
  thread_run (status_poll Scenario.env Scenario.upload)
    [(Scenario.t_paid, Scenario.t_paid)] (Done (PollStatus paid "u1"))
  /\ Forall (fun p : orders * orders => p.2 = p.1)
       [(Scenario.t_paid, Scenario.t_paid)].
Proof.
  assert (Hrun : thread_run (status_poll Scenario.env Scenario.upload)
            [(Scenario.t_paid, Scenario.t_paid)] (Done (PollStatus paid "u1"))).
  { eapply thread_run_cons; [apply step_select|]. apply thread_run_nil. }
  split; [exact Hrun|].
  exact (proj1 (status_poll_read_only _ _ _ _ Hrun)).
Defined.

(* ===================================================================== *)
(** * From the checkout to the analysis *)
(* ===================================================================== *)

Lemma order_amount_reads_back :
  number_neq (parseFloat (JStr ORDER_AMOUNT)) (round_binary64 50 100) = false.
Proof. vm_compute. reflexivity. Qed.

(** X24. The routes one after the other, with a backend that does not fail:
    the checkout stores a [pending] order and answers with its number; the
    notification of the provider for that number, reporting the amount of
    the link, is answered [success] and makes the order [paid]; the same
    notification once more is answered [success] and changes nothing; an
    analysis request that presents the number goes on to the model and
    makes the order [analyzed]; a second one is answered 409. *)
Theorem payment_lifecycle (o : oracle) (env : Env) (body query upload : params)
    (w : world) :
  orderable env body ->
  table w !! generateOrderNo (clock o (tick w)) (draw o (S (tick w))) = None ->
  (forall n, fault o n = false) ->
  accepted env query ->
  notified query = generateOrderNo (clock o (tick w)) (draw o (S (tick w))) ->
  prop query "money" = JStr ORDER_AMOUNT ->
  gated env upload ->
  presented upload = generateOrderNo (clock o (tick w)) (draw o (S (tick w))) ->
  let no := generateOrderNo (clock o (tick w)) (draw o (S (tick w))) in
  let s1 := run o (checkout_url env body) w in
  let s2 := run o (webhook env query) s1.2 in
  let s3 := run o (webhook env query) s2.2 in
  let s4 := run o (analyze env upload) s3.2 in
  let s5 := run o (analyze env upload) s4.2 in
  (exists url, s1.1 = JsonCheckout url no)
  /\ order_status <$> table s1.2 !! no = Some pending
  /\ s2.1 = Send 200 "success"
  /\ order_status <$> table s2.2 !! no = Some paid
  /\ s3.1 = Send 200 "success"
  /\ table s3.2 = table s2.2
  /\ s4.1 = ContinueToAnalysis
  /\ order_status <$> table s4.2 !! no = Some analyzed
  /\ s5.1 = JsonError 409 "该订单已使用，每次支付仅可分析一次"
  /\ table s5.2 = table s4.2.
Proof.
  intros Hord Hfree Hfault Hacc Hnot Hmoney Hgat Hpres no s1 s2 s3 s4 s5.
  destruct (zpay_configured _ _ Hord) as [[[pid key] baseUrl] Hcfg].
  assert (E1 : s1 = run o (checkout_url env body) w) by reflexivity.
  rewrite (checkout_run_created o env body w pid key baseUrl Hord Hcfg Hfree
             (Hfault _)) in E1.
  fold no in E1, Hnot, Hpres.
  set (order1 := created_order body no (clock o (S (S (tick w))))) in E1.
  assert (E2 : s2 = run o (webhook env query) s1.2) by reflexivity.
  rewrite (webhook_run_applied o env query s1.2 order1) in E2;
    [|done|apply Hfault
     |rewrite E1, Hnot; cbn [snd table]; apply lookup_insert_eq
     |reflexivity
     |rewrite Hmoney; apply order_amount_reads_back
     |apply Hfault].
  set (order2 := apply_patch _ _ order1) in E2.
  assert (L2 : table s2.2 !! no = Some order2).
  { rewrite E2, Hnot. cbn [snd table]. apply lookup_insert_eq. }
  assert (E3 : s3 = run o (webhook env query) s2.2) by reflexivity.
  assert (H3 : s3 = (Send 200 "success", next s2.2)).
  { rewrite E3.
    destruct (webhook_effect o env query s2.2)
      as [Hsame|(_ & _ & _ & order & Hlook & Hst & _)].
    - clear E3. destruct Hacc as [Hkey Hsign Hpaid Hclient].
      unfold webhook. rewrite Hkey, Hsign, Hpaid, Hclient. cbn [negb run].
      unfold exec_select, db_select. fold (notified query).
      rewrite Hfault, Hnot, L2. cbn [error data]. reflexivity.
    - rewrite Hnot, L2 in Hlook. injection Hlook as <-. discriminate Hst. }
  assert (L3 : table s3.2 !! no = Some order2) by (by rewrite H3).
  assert (E4 : s4 = run o (analyze env upload) s3.2) by reflexivity.
  rewrite (analyze_run_paid o env upload s3.2 order2) in E4;
    [|done|apply Hfault|by rewrite Hpres|reflexivity|apply Hfault].
  set (order3 := apply_patch _ _ order2) in E4.
  assert (L4 : table s4.2 !! no = Some order3).
  { rewrite E4, Hpres. cbn [snd table]. apply lookup_insert_eq. }
  assert (E5 : s5 = run o (analyze env upload) s4.2) by reflexivity.
  rewrite (analyze_run_analyzed o env upload s4.2 order3) in E5;
    [|done|apply Hfault|by rewrite Hpres|reflexivity].
  split; [rewrite E1; by eexists|].
  split; [rewrite E1; cbn [snd table]; by rewrite lookup_insert_eq|].
  split; [by rewrite E2|]. split; [by rewrite L2|].
  split; [by rewrite H3|]. split; [by rewrite H3|].
  split; [by rewrite E4|]. split; [by rewrite L4|].
  split; [by rewrite E5|]. by rewrite E5.
Qed.

(** The scenario from the empty table. *)
Lemma payment_lifecycle_witness :
  orderable Scenario.env Scenario.cart
  /\ accepted Scenario.env (Scenario.notification "0.50")
  /\ gated Scenario.env Scenario.upload
  /\ (run Scenario.calm (analyze Scenario.env Scenario.upload)
        (run Scenario.calm
           (webhook Scenario.env (Scenario.notification "0.50"))
           (run Scenario.calm
              (webhook Scenario.env (Scenario.notification "0.50"))
              (run Scenario.calm (checkout_url Scenario.env Scenario.cart)
                 (mkWorld ∅ 0)).2).2).2).1
     = ContinueToAnalysis.
Proof.
  assert (Hgat : gated Scenario.env Scenario.upload)
    by (constructor; reflexivity).
  split; [exact scenario_orderable|]. split; [apply scenario_accepted|].
  split; [exact Hgat|].
  pose proof (payment_lifecycle Scenario.calm Scenario.env Scenario.cart
                (Scenario.notification "0.50") Scenario.upload (mkWorld ∅ 0)
                scenario_orderable eq_refl (fun _ => eq_refl)
                (scenario_accepted "0.50") eq_refl eq_refl Hgat eq_refl) as H.
  destruct H as (_ & _ & _ & _ & _ & _ & H & _). exact H.
Defined.

(* ===================================================================== *)
(** * The image handed to the model *)
(* ===================================================================== *)

(** X25. The address handed to the model is always a data URL: an image
    sent as a data URL is handed over as it is, anything else is prefixed
    as the base64 of a JPEG, and doing this twice changes nothing
    more. *)
Theorem image_url_is_data_url (image : string) :
  String.prefix "data:" (image_url image) = true
  /\ image_url (image_url image) = image_url image
  /\ ((image_url image = image /\ String.prefix "data:" image = true)
      \/ (image_url image = "data:image/jpeg;base64," +:+ image
          /\ String.prefix "data:" image = false)).
Proof.
  assert (Hkept : forall s, String.prefix "data:" s = true -> image_url s = s).
  { intros s Hs. unfold image_url. by rewrite Hs. }
  assert (Hjpeg : forall s, String.prefix "data:" s = false ->
            image_url s = "data:image/jpeg;base64," +:+ s).
  { intros s Hs. unfold image_url. by rewrite Hs. }
  destruct (String.prefix "data:" image) eqn:Hp.
  - rewrite (Hkept image Hp). split; [done|].
    split; [by apply Hkept|by left].
  - rewrite (Hjpeg image Hp). split; [reflexivity|].
    split; [by apply Hkept|by right].
Qed.

(* ===================================================================== *)
(** * The stars of the result page *)
(* ===================================================================== *)

Lemma stars_shape_all : forallb stars_shape (seqZ 0 101) = true.
Proof. vm_compute. reflexivity. Qed.

(** X26. For a score from 0 to 100 the five stars are full stars, one for
    each whole twenty of the score, then at most one half star, then
    empty stars; the stars that are lit, full or half, are as many as the
    score divided by 20 and rounded to nearest, halves up. *)
Theorem StarRating_rounds (score : Z) :
  0 <= score <= 100 ->
  let full := Z.to_nat (score / 20) in
  let half := Z.to_nat ((score + 10) / 20 - score / 20) in
  StarRating score
  = replicate full FullStar ++ replicate half HalfStar
    ++ replicate (5 - full - half) EmptyStar
  /\ (half <= 1)%nat
  /\ Z.of_nat (full + half) = (score + 10) / 20.
Proof.
  intros Hs full half.
  pose proof stars_shape_all as Hall. rewrite forallb_forall in Hall.
  specialize (Hall score). unfold stars_shape in Hall. fold full half in Hall.
  rewrite andb_true_iff, bool_decide_eq_true, Nat.leb_le in Hall.
  destruct Hall as [Hshape Hhalf].
  { apply list_elem_of_In, elem_of_seqZ. lia. }
  split; [done|]. split; [done|].
  subst full half. Z.div_mod_to_equations. lia.
Qed.

Lemma StarRating_rounds_witness :
  StarRating 70 = [FullStar; FullStar; FullStar; HalfStar; EmptyStar].
Proof.
  exact (proj1 (StarRating_rounds 70 ltac:(lia))).
Defined.
